(** * The proxy control plane of ais/prxdl.go, embedded in Rocq

    The development follows the Go source function by function.  HTTP
    statuses and versions are integers ([Z]); byte slices and strings are
    [string], a nil slice or pointer is [None]; Go maps are [gmap]s, visited
    in an order that is left open; a panic (failed assertion, nil
    dereference, index out of range) is an explicit outcome.  Code of other
    packages (the downloader, the metadata owners, the JSON codec, package
    cmn) enters through interface classes. *)

From Stdlib Require Import ZArith Lia.
From stdpp Require Import base option list strings gmap pretty.

Open Scope string_scope.
Open Scope list_scope.
Open Scope Z_scope.

(** ** net/http constants *)

Module http.
Definition StatusOK : Z := 200.
Definition StatusMovedPermanently : Z := 301.
Definition StatusTemporaryRedirect : Z := 307.
Definition StatusBadRequest : Z := 400.
Definition StatusNotFound : Z := 404.
Definition StatusInternalServerError : Z := 500.
Definition MethodGet : string := "GET".
Definition MethodHead : string := "HEAD".
Definition MethodPut : string := "PUT".
Definition MethodDelete : string := "DELETE".
Definition MethodPost : string := "POST".
End http.

(** ** Outcomes: a Go call either returns or panics *)

Inductive outcome (A : Type) : Type :=
| Ret (a : A)
| Panic (why : string).
Arguments Ret {A} a.
Arguments Panic {A} why.

(** ** Nodes *)

Inductive daemonType := Target | Proxy.

Record Snode := mkSnode {
  DaemonID : string;
  DaemonType : daemonType;
  PublicNet : string;        (* PublicNet.DirectURL *)
  IntraControlNet : string;  (* IntraControlNet.DirectURL *)
  IntraDataNet : string      (* IntraDataNet.DirectURL *)
}.

#[global] Instance daemonType_eq_dec : EqDecision daemonType.
Proof. solve_decision. Defined.
#[global] Instance Snode_eq_dec : EqDecision Snode.
Proof. solve_decision. Defined.

(** ** Errors (the Go [error] values the code builds or tests for) *)

Inductive error :=
| ErrNoNodes (role : daemonType)          (* cmn.NewNoNodesError *)
| ErrMsg (s : string)                     (* fmt.Errorf, errors.New *)
| ErrJSON (s : string)                    (* a failed Unmarshal *)
| errNoBMD
| errBmdUUIDSplit (s : string)
| errTgtBmdUUIDDiffer (s : string)
| errPrxBmdUUIDDiffer (s : string)
| errNodeNotFound (what id : string).

(** ** Iteration over Go maps

    [for k, v := range m] visits the entries in an unspecified order, which
    may differ from one loop to the next: each loop site has its own label. *)
Class MapRange := {
  range : nat -> forall V, gmap string V -> list (string * V);
  range_perm : forall site V (m : gmap string V), range site V m ≡ₚ map_to_list m
}.
Arguments range {_} site {V} m.

Definition canonicalRange : MapRange :=
  {| range := fun _ V m => map_to_list m;
     range_perm := fun _ V m => Permutation_refl (map_to_list m) |}.

(** * Downloader admin requests ([broadcastDownloadAdminRequest]) *)

Module Dl.

(** One reply of the broadcast ([callResult], the fields read here). *)
Record callResult := mkRes {
  si : Snode;
  status : Z;
  bytes : option string;
  err : option error
}.

(** downloader.DlAdminBody *)
Record DlAdminBody := mkBody {
  ID : string;
  OnlyActiveTasks : bool
}.

Record ReqArgs := mkReq {
  Method : string;
  Path : string;
  Body : string
}.

(** The triple [([]byte, int, error)] the function returns. *)
Definition reply : Type := option string * Z * option error.

(** The downloader package and the JSON codec are outside this file; the
    proxy uses them through this interface. *)
Class Downloader := {
  DlStatusResp : Type;
  DlJobInfo : Type;
  (* DlStatusResp.Aggregate: the receiver may be nil, the result is a pointer *)
  StatusAggregate : option DlStatusResp -> DlStatusResp -> option DlStatusResp;
  (* DlJobInfo.Aggregate: v.Aggregate(old) updates the receiver v in place *)
  JobAggregate : DlJobInfo -> DlJobInfo -> DlJobInfo;
  UnmarshalStatus : option string -> error + DlStatusResp;
  UnmarshalJobs : option string -> error + gmap string DlJobInfo;
  MarshalStatus : option DlStatusResp -> string;
  MarshalJobs : list DlJobInfo -> string;
  MarshalMsg : DlAdminBody -> string;
  (* what a listener holds when it is not yet a DlStatusResp, and
     cmn.MorphMarshal converting it *)
  raw : Type;
  MorphMarshal : raw -> option DlStatusResp
}.

Section Broadcast.
Context `{Downloader} {MR : MapRange}.

(** A listener snapshot is an [interface{}]: either already a
    [*DlStatusResp] or something [cmn.MorphMarshal] has to convert. *)
Inductive snapshot :=
| IsStatus (s : DlStatusResp)
| IsOther (x : raw).

(** What the proxy sees of its surroundings: the notification listeners
    ([p.notifs.queryStats], per-target snapshots in [Range] order) and
    the targets' answers to a broadcast ([p.bcastGroup]: the channel it
    returns, which holds every result, read in arrival order). *)
Record world := mkWorld {
  queryStats : string -> option (list (string * snapshot));
  bcastGroup : ReqArgs -> list callResult
}.

(** The body of the [stats.Range] callback. *)
Definition rangeStep (acc : outcome (option DlStatusResp)) (kv : string * snapshot)
  : outcome (option DlStatusResp) :=
  match acc with
  | Panic why => Panic why
  | Ret resp =>
      match kv.2 with
      | IsStatus dlStatus => Ret (StatusAggregate resp dlStatus)
      | IsOther x =>
          match MorphMarshal x with
          | Some dlStatus => Ret (StatusAggregate resp dlStatus)
          | None => Panic "AssertNoErr"
          end
      end
  end.

(** Lines 28-49: the answer from the in-process listener, if any. *)
Definition fromListener (w : world) (method : string) (msg : DlAdminBody)
  : option (outcome reply) :=
  if bool_decide (ID msg ≠ "") && bool_decide (method = http.MethodGet) && OnlyActiveTasks msg
  then match queryStats w (ID msg) with
       | Some stats =>
           Some match fold_left rangeStep stats (Ret None) with
                | Panic why => Panic why
                | Ret resp => Ret (Some (MarshalStatus resp), http.StatusOK, None)
                end
       | None => None
       end
  else None.

(** Lines 67-81: the loop over the result channel.  [inl] is the early
    return; [inr] carries [validResponses], [notFoundCnt] and [err]. *)
Fixpoint scanResults (results : list callResult) (validResponses : list callResult)
    (notFoundCnt : nat) (err0 : option error)
  : reply + (list callResult * nat * option error) :=
  match results with
  | [] => inr (validResponses, notFoundCnt, err0)
  | res :: rest =>
      if status res =? http.StatusOK
      then scanResults rest (validResponses ++ [res]) notFoundCnt err0
      else if negb (status res =? http.StatusNotFound)
      then inl (None, status res, err res)
      else scanResults rest validResponses (S notFoundCnt) (err res)
  end.

(** Lines 97-102: merge one target's job map into [aggregate]. *)
Definition mergeJobs (parsedResp : gmap string DlJobInfo) (aggregate : gmap string DlJobInfo)
  : gmap string DlJobInfo :=
  fold_left (fun agg kv =>
               match agg !! kv.1 with
               | Some oldMetric => <[kv.1 := JobAggregate kv.2 oldMetric]> agg
               | None => <[kv.1 := kv.2]> agg
               end) (range 4 parsedResp) aggregate.

(** Lines 92-103. *)
Fixpoint listJobs (validResponses : list callResult) (aggregate : gmap string DlJobInfo)
  : error + gmap string DlJobInfo :=
  match validResponses with
  | [] => inr aggregate
  | resp :: rest =>
      match UnmarshalJobs (bytes resp) with
      | inl e => inl e
      | inr parsedResp => listJobs rest (mergeJobs parsedResp aggregate)
      end
  end.

(** Lines 113-120. *)
Fixpoint statusOf (validResponses : list callResult) (stResp : option DlStatusResp)
  : error + option DlStatusResp :=
  match validResponses with
  | [] => inr stResp
  | resp :: rest =>
      match UnmarshalStatus (bytes resp) with
      | inl e => inl e
      | inr st => statusOf rest (StatusAggregate stResp st)
      end
  end.

(** Lines 87-129: the [switch method]. *)
Definition respond (method : string) (msg : DlAdminBody) (validResponses : list callResult)
  : outcome reply :=
  if bool_decide (method = http.MethodGet) then
    if bool_decide (ID msg = "") then
      match listJobs validResponses ∅ with
      | inl e => Ret (None, http.StatusInternalServerError, Some e)
      | inr aggregate =>
          (* listDownloads: the values, in the order the map yields them *)
          Ret (Some (MarshalJobs (range 5 aggregate).*2), http.StatusOK, None)
      end
    else
      match statusOf validResponses None with
      | inl e => Ret (None, http.StatusInternalServerError, Some e)
      | inr stResp => Ret (Some (MarshalStatus stResp), http.StatusOK, None)
      end
  else if bool_decide (method = http.MethodDelete) then
    match validResponses with
    | res :: _ => Ret (bytes res, status res, err res)
    | [] => Panic "index out of range"
    end
  else Panic "AssertMsg".

(** Lines 59-86 and the switch: what is done with the results. *)
Definition collect (method : string) (msg : DlAdminBody) (results : list callResult)
  : outcome reply :=
  let respCnt := length results in
  if bool_decide (respCnt = 0%nat)
  then Ret (None, http.StatusBadRequest, Some (ErrNoNodes Target))
  else match scanResults results [] 0%nat None with
       | inl early => Ret early
       | inr (validResponses, notFoundCnt, err0) =>
           if bool_decide (notFoundCnt = respCnt)
           then Ret (None, http.StatusNotFound, err0)
           else respond method msg validResponses
       end.

(** The function, together with the broadcasts it issued. *)
Definition broadcastDownloadAdminRequest (w : world) (method path : string)
    (msg : DlAdminBody) : outcome reply * list ReqArgs :=
  match fromListener w method msg with
  | Some r => (r, [])
  | None =>
      let req := {| Method := method; Path := path; Body := MarshalMsg msg |} in
      (collect method msg (bcastGroup w req), [req])
  end.

(** *** Observations on the replies, for stating properties *)

(** The two statuses the loop does not abort on. *)
Definition tolerated (r : callResult) : Prop :=
  status r = http.StatusOK \/ status r = http.StatusNotFound.

Definition is200 (r : callResult) : bool := bool_decide (status r = http.StatusOK).

(** The error of the last 404 reply, as the loop leaves it in [err]. *)
Fixpoint lastNotFoundErr (results : list callResult) (err0 : option error) : option error :=
  match results with
  | [] => err0
  | r :: rest =>
      lastNotFoundErr rest (if bool_decide (status r = http.StatusNotFound) then err r else err0)
  end.

Definition count404 (results : list callResult) : nat :=
  length (filter (fun r => status r = http.StatusNotFound) results).

(** A listener snapshot seen as a [DlStatusResp], the way the callback
    obtains it. *)
Definition asStatus (s : snapshot) : option DlStatusResp :=
  match s with
  | IsStatus st => Some st
  | IsOther x => MorphMarshal x
  end.

End Broadcast.

(** A small downloader to run the code on: a status (and a job) is a number
    of finished tasks, written in unary on the wire; aggregation adds. *)
Definition unary (n : nat) : string := String.concat "" (replicate n "|").

Definition tally : Downloader := {|
  DlStatusResp := nat;
  DlJobInfo := nat;
  StatusAggregate := fun d rhs => Some (default 0%nat d + rhs)%nat;
  JobAggregate := fun v old => (v + old)%nat;
  UnmarshalStatus := fun b =>
    match b with Some s => inr (String.length s) | None => inl (ErrJSON "unexpected end of input") end;
  UnmarshalJobs := fun b =>
    match b with
    | Some s => inr {[ "job" := String.length s ]}
    | None => inl (ErrJSON "unexpected end of input")
    end;
  MarshalStatus := fun d => match d with Some n => unary n | None => "null" end;
  MarshalJobs := fun l => unary (foldr Nat.add 0%nat l);
  MarshalMsg := fun msg => ID msg;
  raw := string;
  MorphMarshal := fun x => Some (String.length x)
|}.

End Dl.

(** * The proxy runner: metadata, owners, effects *)

Module Prx.

(** ** Metadata *)

(** Versions are [int64]: addition wraps around. *)
Definition wrap64 (z : Z) : Z := (z + 2 ^ 63) mod 2 ^ 64 - 2 ^ 63.
Definition add64 (a b : Z) : Z := wrap64 (a + b).

(** The cluster map. *)
Record smapX := mkSmap {
  SmapVersion : Z;
  SmapUUID : string;
  Primary : option Snode;          (* a pointer, nil when unset *)
  Pmap : gmap string Snode;
  Tmap : gmap string Snode;
  IC : gmap string Z               (* council member id => age *)
}.

(** Bucket properties (the field read here). *)
Record BucketProps := mkProps {
  Renamed : string
}.

(** Bucket metadata. *)
Record bucketMD := mkBMD {
  BMDVersion : Z;
  BMDUUID : string;
  Buckets : gmap string BucketProps
}.

(** Rebalance metadata. *)
Record rebMD := mkRMD {
  RMDVersion : Z;
  TargetIDs : list string
}.

#[global] Instance BucketProps_eq_dec : EqDecision BucketProps.
Proof. solve_decision. Defined.
#[global] Instance bucketMD_eq_dec : EqDecision bucketMD.
Proof. solve_decision. Defined.
#[global] Instance rebMD_eq_dec : EqDecision rebMD.
Proof. solve_decision. Defined.
#[global] Instance smapX_eq_dec : EqDecision smapX.
Proof. solve_decision. Defined.

(** What metasync carries (the [revs] interface). *)
Inductive revs :=
| RevSmap (m : smapX)
| RevBMD (b : bucketMD)
| RevRMD (r : rebMD).

(** cmn.ActionMsg *)
Record ActionMsg := mkAct {
  Action : string;
  Name : string;
  Value : string
}.

(** The message made by [p.newAisMsg] / [p.newAisMsgStr]: the action and the
    metadata it was stamped from. *)
Record aisMsg := mkAisMsg {
  MsgAction : string;
  MsgSmap : option smapX;
  MsgBMD : option bucketMD
}.

(** ** Owners

    Each metadata kind has an owner holding its latest version.  The owners
    are declared outside this file; the proxy uses [get] and [put]. *)
Class Owner (V : Type) := {
  store : Type;
  get : store -> V;
  put : V -> store -> store
}.

(** The plain owner: a cell that [put] overwrites. *)
Definition cell (V : Type) : Owner V :=
  {| store := V; get := fun s => s; put := fun v _ => v |}.

(** ** Methods of the cluster map, package cmn, and the peers

    Declared outside this file. *)
Class SmapOps := {
  isValid : smapX -> bool;
  isPrimary : smapX -> Snode -> bool;
  isPresent : smapX -> Snode -> bool;
  IsIC : smapX -> option Snode -> bool;
  delProxy : string -> smapX -> smapX;
  (* Modelled from the spec: staffIC is not under src/; by section 4.L it
     "re-staffs IC": it yields the council of the map it is called on, and
     the map's other fields stay as they are *)
  staffIC : smapX -> gmap string Z
}.

(** [smap.GetProxy(id)]: the entry of [Pmap], nil when there is none (the
    lookup line 2664 does by hand). *)
Definition GetProxy (m : smapX) (id : string) : option Snode := Pmap m !! id.

(** What the other nodes answer to calls made outside a broadcast. *)
Class Peers := {
  (* p.ic.sendOwnershipTbl(node) *)
  sendOwnershipTbl : option Snode -> option error;
  (* the Smap a GET /v1/daemon?what=smap on that URL returns (p.call) *)
  fetchSmap : string -> error + smapX;
  (* p.registerToURL(url, ...) *)
  registerToURL : string -> option error
}.

Class Cmn := {
  ParseBool : string -> error + bool;
  MustMarshalMsg : ActionMsg -> string;
  (* url.Parse(s): its error, if any *)
  url_Parse : string -> option error;
  (* what fmt prints for %q *)
  Quote : string -> string;
  ActRenameLB : string;
  ActNewPrimary : string;
  URLParamPrimaryCandidate : string
}.

(** Methods of the bucket metadata and of [cluster.Bck]. *)
Class BmdOps := {
  (* bck.Init for the ais bucket of that name in the global namespace:
     its properties, or the error when the BMD does not have it *)
  bckInit : bucketMD -> string -> error + BucketProps;
  (* clone.del(bck) *)
  bmdDel : string -> bucketMD -> bucketMD
}.

Definition IsParseBool `{Cmn} (s : string) : bool :=
  match ParseBool s with inr yes => yes | inl _ => false end.

(** Modelled from the spec: the cmn constants are not under src/; section 6
    of the spec lists the query parameters by name and the routes by path. *)
Definition URLParamPrepare : string := "prepare".
Definition URLParamForce : string := "force".
Definition URLParamProxyID : string := "proxy-id".
Definition URLParamUnixTime : string := "unix-time".
Definition URLParamCheckExists : string := "check-exists".
Definition cmnProxy : string := "proxy".

(** [url.Values] with one value per key; [Get] of an absent key is empty. *)
Definition Values := gmap string string.
Definition Get (q : Values) (k : string) : string := default "" (q !! k).

(** ** Requests *)
Record request := mkRequest {
  Method : string;
  Path : string;             (* r.URL.Path *)
  RawQuery : string;         (* r.URL.RawQuery *)
  Query : Values;            (* r.URL.Query(), the parse of RawQuery *)
  RemoteAddr : string;
  Body : string;             (* what r.Body still holds *)
  ContentLength : Z
}.

(** ** Effects *)
Inductive ownerKind := OSmap | OBmd | ORmd | ORproxy.

#[global] Instance ownerKind_eq_dec : EqDecision ownerKind.
Proof. solve_decision. Defined.

Inductive severity := Info | Warning | Error.

Inductive event :=
| EvLock (o : ownerKind)
| EvUnlock (o : ownerKind)
| EvSync (pairs : list (revs * aisMsg))      (* p.metasyncer.sync(pairs...) *)
| EvBecomeNonPrimary                         (* p.metasyncer.becomeNonPrimary() *)
| EvSendOwnershipTbl (node : option Snode)   (* p.ic.sendOwnershipTbl(node) *)
| EvLog (sev : severity) (what : string)     (* glog *)
| EvInval (msg : string) (code : option Z)   (* p.invalmsghdlr(w, r, msg, code...) *)
| EvForward (url : string) (r : request)     (* primary.rp.ServeHTTP(w, r) *)
| EvRegister (url : string).                 (* p.registerToURL *)

Section Runner.
Context {OS : Owner smapX} {OB : Owner bucketMD} {OR : Owner rebMD}.

(** The proxy's own state: identity, the owners, and the forwarder to the
    primary: the URL it currently points at ([rproxy.primary.url]) and its
    reverse proxy ([rproxy.primary.rp]), nil or the one made for the URL
    given. *)
Record proxyrunner := mkProxy {
  si : Snode;
  owner_smap : @store smapX OS;
  owner_bmd : @store bucketMD OB;
  owner_rmd : @store rebMD OR;
  rproxy_primary_url : string;
  rproxy_primary_rp : option string
}.

(** A run: how the call ended, the state it left, what it did. *)
Record run (A : Type) := mkRun {
  value : outcome A;
  final : proxyrunner;
  trace : list event
}.
Arguments mkRun {A} value final trace.
Arguments value {A} r.
Arguments final {A} r.
Arguments trace {A} r.

Definition prx (A : Type) : Type := proxyrunner -> run A.

Definition pure {A} (a : A) : prx A := fun p => mkRun (Ret a) p [].

Definition andThen {A B} (m : prx A) (k : A -> prx B) : prx B := fun p =>
  let r := m p in
  match value r with
  | Ret a => let r' := k a (final r) in mkRun (value r') (final r') (trace r ++ trace r')
  | Panic why => mkRun (Panic why) (final r) (trace r)
  end.

Definition emit (e : event) : prx unit := fun p => mkRun (Ret tt) p [e].
Definition panic {A} (why : string) : prx A := fun p => mkRun (Panic why) p [].
Definition reads {A} (f : proxyrunner -> A) : prx A := fun p => mkRun (Ret (f p)) p [].
Definition update (f : proxyrunner -> proxyrunner) : prx unit := fun p => mkRun (Ret tt) (f p) [].

(** A deferred call runs when the function returns, also when it panics. *)
Definition defer {A} (e : event) (m : prx A) : prx A := fun p =>
  let r := m p in mkRun (value r) (final r) (trace r ++ [e]).

(** Sequencing is written [x ← m; k] and [m;; k]. *)
#[global] Instance prx_ret : MRet prx := @pure.
#[global] Instance prx_bind : MBind prx := fun A B k m => andThen m k.

Definition set_smap (f : @store smapX OS -> @store smapX OS) (p : proxyrunner) : proxyrunner :=
  mkProxy (si p) (f (owner_smap p)) (owner_bmd p) (owner_rmd p) (rproxy_primary_url p)
    (rproxy_primary_rp p).
Definition set_bmd (f : @store bucketMD OB -> @store bucketMD OB) (p : proxyrunner) : proxyrunner :=
  mkProxy (si p) (owner_smap p) (f (owner_bmd p)) (owner_rmd p) (rproxy_primary_url p)
    (rproxy_primary_rp p).
Definition set_rmd (f : @store rebMD OR -> @store rebMD OR) (p : proxyrunner) : proxyrunner :=
  mkProxy (si p) (owner_smap p) (owner_bmd p) (f (owner_rmd p)) (rproxy_primary_url p)
    (rproxy_primary_rp p).
Definition set_primary_url (u : string) (p : proxyrunner) : proxyrunner :=
  mkProxy (si p) (owner_smap p) (owner_bmd p) (owner_rmd p) u (rproxy_primary_rp p).
Definition set_primary_rp (rp : option string) (p : proxyrunner) : proxyrunner :=
  mkProxy (si p) (owner_smap p) (owner_bmd p) (owner_rmd p) (rproxy_primary_url p) rp.

Definition getSmap : prx smapX := reads (fun p => get (owner_smap p)).
Definition getBMD : prx bucketMD := reads (fun p => get (owner_bmd p)).
Definition getRMD : prx rebMD := reads (fun p => get (owner_rmd p)).

Context {SO : SmapOps} {C : Cmn} {BO : BmdOps} {MR : MapRange} {PE : Peers}.

(** [p.newAisMsgStr(action, smap, bmd)] *)
Definition newAisMsgStr (action : string) (smap : option smapX) (bmd : option bucketMD) : aisMsg :=
  mkAisMsg action smap bmd.

(** [p.newAisMsg(msg, smap, bmd)] *)
Definition newAisMsg (msg : ActionMsg) (smap : option smapX) (bmd : option bucketMD) : aisMsg :=
  mkAisMsg (Action msg) smap bmd.

(** *** handlePendingRenamedLB (lines 2287-2307) *)
Definition handlePendingRenamedLB (renamedBucket : string) : prx unit :=
  emit (EvLock OBmd);;
  defer (EvUnlock OBmd)
    (bmd ← getBMD;
     match bckInit bmd renamedBucket with
     | inl _ =>
         (* Already removed via the very first target calling here. *)
         mret tt
     | inr props =>
         if bool_decide (Renamed props = "") then
           emit (EvLog Error "renamed bucket: unexpected props");;
           emit (EvUnlock OBmd)
         else
           let clone := bmdDel renamedBucket bmd in
           update (set_bmd (put clone));;
           let msg := newAisMsgStr ActRenameLB None (Some clone) in
           emit (EvSync [(RevBMD clone, msg)])
     end).

(** *** receiveRMD (lines 3548-3569) *)
Definition receiveRMD (newRMD : rebMD) (msg : aisMsg) : prx (option error) :=
  emit (EvLock ORmd);;
  rmd ← getRMD;
  if RMDVersion newRMD <=? RMDVersion rmd then
    emit (EvUnlock ORmd);;
    if RMDVersion newRMD <? RMDVersion rmd
    then mret (Some (ErrMsg "attempt to downgrade"))
    else mret None
  else
    update (set_rmd (put newRMD));;
    emit (EvUnlock ORmd);;
    mret None.

(** Modelled from the spec: [validateUUID] is not under src/.  By section
    4.B it "fails with ClusterIntegrity when UUIDs differ AND both sides
    have non-zero version". *)
Definition validateUUID (m nbmd : bucketMD) (self : Snode) (nsi : option Snode)
    (caller : string) : option error :=
  if bool_decide (BMDUUID m <> BMDUUID nbmd)
     && bool_decide (BMDVersion m <> 0) && bool_decide (BMDVersion nbmd <> 0)
  then Some (errPrxBmdUUIDDiffer "BMDs have different uuids")
  else None.

(** *** receiveBMD (lines 3571-3596) *)
Definition receiveBMD (newBMD : bucketMD) (msg : aisMsg) (caller : string) : prx (option error) :=
  emit (EvLock OBmd);;
  bmd ← getBMD;
  self ← reads si;
  match validateUUID bmd newBMD self None caller with
  | Some err =>
      smap ← getSmap;
      (if isPrimary smap self then panic "Assert" else mret tt);;
      (* cluster integrity error: making exception for non-primary proxies *)
      emit (EvLog Error "(non-primary): proceeding to override BMD");;
      update (set_bmd (put newBMD));;
      emit (EvUnlock OBmd);;
      mret (Some err)
  | None =>
      if BMDVersion newBMD <=? BMDVersion bmd then
        emit (EvUnlock OBmd);;
        if BMDVersion newBMD <? BMDVersion bmd
        then mret (Some (ErrMsg "attempt to downgrade"))
        else mret None
      else
        update (set_bmd (put newBMD));;
        emit (EvUnlock OBmd);;
        mret None
  end.

(** *** The Smap owner's modify

    Modelled from the spec: [modify] of the Smap owner is not under src/.
    By section 4.A, modify(pre, post) "atomically clone -> apply pre ->
    install -> call post outside lock"; an error of [pre] installs
    nothing. *)
Definition smap_modify (pre : smapX -> prx (error + smapX)) (post : smapX -> prx unit)
  : prx (option error) :=
  emit (EvLock OSmap);;
  clone ← getSmap;
  res ← pre clone;
  match res with
  | inl err => emit (EvUnlock OSmap);; mret (Some err)
  | inr clone => update (set_smap (put clone));; emit (EvUnlock OSmap);; post clone;; mret None
  end.

(** [cmn.AssertNoErr] *)
Definition AssertNoErr (err : option error) : prx unit :=
  match err with Some _ => panic "AssertNoErr" | None => mret tt end.

(** *** syncNewICOwners (lines 997-1012) *)
Definition syncNewICOwners (smap newSmap : smapX) : prx unit :=
  self ← reads si;
  if negb (IsIC smap (Some self)) || negb (IsIC newSmap (Some self)) then mret tt
  else
    (* node is IC member in both old and new smap:
       send ownership table to newly added members *)
    foldr (fun kv rest =>
             let node := GetProxy newSmap kv.1 in
             (if negb (IsIC smap node) then
                emit (EvSendOwnershipTbl node);;
                match sendOwnershipTbl node with
                | Some _ => emit (EvLog Error "failed to send ownership table")
                | None => mret tt
                end
              else mret tt);;
             rest)
          (mret tt) (range 0 (IC newSmap)).

(** *** becomeNewPrimary (lines 2613-2651) *)
Definition becomeNewPrimary (proxyIDToRemove : string) : prx unit :=
  smap ← getSmap;
  self ← reads si;
  err ← smap_modify
    (fun clone =>
       (if negb (isPresent clone self)
        then panic "AssertMsg: this proxy must always be present in the Smap"
        else mret tt);;
       (* FIXME: may be premature at this point *)
       clone ← (if bool_decide (proxyIDToRemove <> "") then
                  emit (EvLog Info "removing failed primary");;
                  mret (delProxy proxyIDToRemove clone)
                else mret clone);
       let clone := mkSmap (add64 (SmapVersion clone) 100) (SmapUUID clone) (Some self)
                      (Pmap clone) (Tmap clone) (delete proxyIDToRemove (IC clone)) in
       let clone := mkSmap (SmapVersion clone) (SmapUUID clone) (Primary clone)
                      (Pmap clone) (Tmap clone) (staffIC clone) in
       mret (inr clone))
    (fun clone =>
       bmd ← getBMD;
       rmd ← getRMD;
       let msg := newAisMsgStr ActNewPrimary (Some clone) (Some bmd) in
       emit (EvSync [(RevSmap clone, msg); (RevBMD bmd, msg); (RevRMD rmd, msg)]);;
       syncNewICOwners smap clone);
  AssertNoErr err.

(** *** smapFromURL (lines 2484-2503) *)
Definition smapFromURL (baseURL : string) : error + smapX :=
  match fetchSmap baseURL with
  | inl _ => inl (ErrMsg ("failed to get smap from " +:+ baseURL))
  | inr smap =>
      if negb (isValid smap) then inl (ErrMsg ("invalid Smap from " +:+ baseURL))
      else inr smap
  end.

(** *** forcefulJoin (lines 2510-2551) *)
Definition forcefulJoin (query : Values) (proxyID : string) : prx unit :=
  let newPrimaryURL := Get query URLParamPrimaryCandidate in
  emit (EvLog Info "force new primary");;
  self ← reads si;
  if bool_decide (DaemonID self = proxyID) then
    emit (EvLog Warning "is already the primary")
  else
    smap ← getSmap;
    let psi := GetProxy smap proxyID in
    if bool_decide (psi = None) && bool_decide (newPrimaryURL = "") then
      emit (EvInval "failed to find new primary" (Some http.StatusNotFound))
    else
      newPrimaryURL ← (if bool_decide (newPrimaryURL = "") then
                         match psi with
                         | Some psi => mret (IntraControlNet psi)
                         | None => panic "nil pointer dereference"
                         end
                       else mret newPrimaryURL);
      if bool_decide (newPrimaryURL = "") then
        emit (EvInval "failed to get new primary's direct URL" None)
      else
        match smapFromURL newPrimaryURL with
        | inl _ => emit (EvInval "failed to get smap" None)
        | inr newSmap =>
            match Primary newSmap with
            | None => panic "nil pointer dereference"
            | Some npsi =>
                if bool_decide (proxyID <> DaemonID npsi) then
                  emit (EvInval "proxy is not the primary" None)
                else
                  (* notify metasync to cancel all pending sync requests *)
                  emit EvBecomeNonPrimary;;
                  update (set_smap (put newSmap));;
                  emit (EvRegister (IntraControlNet npsi));;
                  match registerToURL (IntraControlNet npsi) with
                  | Some _ => emit (EvInval "failed to register" None)
                  | None => mret tt
                  end
            end
        end.

(** *** httpdaesetprimaryproxy (lines 2553-2611)

    [apiItems] is what [checkRESTItems(w, r, 2, false, Version, Daemon)]
    returns: the path items after /v1/daemon, or an error it has already
    answered the request with. *)
Definition httpdaesetprimaryproxy (apiItems : error + list string) (query : Values)
  : prx unit :=
  match apiItems with
  | inl _ => mret tt
  | inr items =>
      match items !! 0%nat, items !! 1%nat with
      | Some item0, Some proxyID =>
          let force := IsParseBool (Get query URLParamForce) in
          (* forceful primary change *)
          if force && bool_decide (item0 = cmnProxy) then
            smap ← getSmap;
            self ← reads si;
            (if negb (isPrimary smap self)
             then emit (EvInval "is not the primary" None) else mret tt);;
            forcefulJoin query proxyID
          else
            match ParseBool (Get query URLParamPrepare) with
            | inl _ => emit (EvInval "failed to parse prepare URL parameter" None)
            | inr prepare =>
                smap ← getSmap;
                self ← reads si;
                if isPrimary smap self then
                  emit (EvInval "expecting 'cluster' (RESTful) resource when designating primary proxy via API" None)
                else if bool_decide (DaemonID self = proxyID) then
                  if negb prepare then becomeNewPrimary "" else mret tt
                else
                  smap ← getSmap;
                  match GetProxy smap proxyID with
                  | None => emit (EvInval "cannot set new primary: node not found" None)
                  | Some psi =>
                      if prepare then
                        (* Preparation step: do nothing *)
                        mret tt
                      else
                        err ← smap_modify
                          (fun clone =>
                             mret (inr (mkSmap (SmapVersion clone) (SmapUUID clone) (Some psi)
                                          (Pmap clone) (Tmap clone) (IC clone))))
                          (fun _ => mret tt);
                        AssertNoErr err
                  end
            end
      | _, _ => panic "index out of range"
      end
  end.

(** *** forwardCP (lines 1741-1790)

    Returns [forf] ("forwarded or failed").  What reaches the primary is the
    request of the [EvForward] event, served by the reverse proxy that the
    forwarder holds. *)
Definition bodyLen (body : option string) : nat := from_option String.length 0%nat body.

(** The double quote of the format strings. *)
Definition dquote : string :=
  String (Ascii.Ascii false true false false false true false false) EmptyString.

(** Lines 1744-1748. *)
Definition startingUp (self : Snode) (msg : option ActionMsg) (s : string) : string :=
  match msg with
  | Some m =>
      DaemonID self +:+ " must be starting up: cannot execute " +:+ dquote +:+ Action m
      +:+ ":" +:+ s +:+ dquote
  | None => DaemonID self +:+ " must be starting up: cannot execute " +:+ Quote s
  end.

(** Lines 1783-1787. *)
Definition forwardingTo (self : Snode) (msg : option ActionMsg) (s : string) (psi : Snode)
  : string :=
  match msg with
  | Some m =>
      DaemonID self +:+ ": forwarding " +:+ dquote +:+ Action m +:+ ":" +:+ s +:+ dquote
      +:+ " to the primary " +:+ DaemonID psi
  | None =>
      DaemonID self +:+ ": forwarding " +:+ Quote s +:+ " to the primary " +:+ DaemonID psi
  end.

Definition forwardCP (r : request) (msg : option ActionMsg) (s : string)
    (body : option string) : prx bool :=
  smap ← getSmap;
  self ← reads si;
  if negb (isValid smap) then
    emit (EvInval (startingUp self msg s) None);;
    mret true
  else if isPrimary smap self then mret false
  else
    body ← (if bool_decide (Method r = http.MethodHead) then
              (* We must not send any request body when doing HEAD request. *)
              if bool_decide (0 < bodyLen body)%nat then
                emit (EvLog Error "forwarded HEAD request contained non-empty body");;
                mret None
              else mret body
            else
              match body, msg with
              | None, Some m => mret (Some (MustMarshalMsg m))
              | _, _ => mret body
              end);
    emit (EvLock ORproxy);;
    match Primary smap with
    | None => panic "nil pointer dereference"
    | Some psi =>
        url ← reads rproxy_primary_url;
        (if bool_decide (url <> PublicNet psi) then
           update (set_primary_url (PublicNet psi));;
           AssertNoErr (url_Parse (PublicNet psi));;
           update (set_primary_rp (Some (PublicNet psi)))
         else mret tt);;
        emit (EvUnlock ORproxy);;
        let r' := if bool_decide (0 < bodyLen body)%nat
                  then mkRequest (Method r) (Path r) (RawQuery r) (Query r) (RemoteAddr r)
                         (default "" body) (Z.of_nat (bodyLen body))
                  else r in
        emit (EvLog Info (forwardingTo self msg s psi));;
        rp ← reads rproxy_primary_rp;
        match rp with
        | None => panic "nil pointer dereference"
        | Some served => emit (EvForward served r');; mret true
        end
    end.

(** *** resolveUUIDBMD (lines 3820-3863) *)
Record nodeRegMeta := mkRegMeta {
  RegSmap : option smapX;
  RegBMD : bucketMD;
  RegSI : Snode
}.

(** [ciError] (lines 3865-3868) *)
Definition ciePrefix : string := "cluster integrity error: cie#".
Definition githubHome : string := "https://github.com/NVIDIA/aistore".
Definition ciError (num : Z) : string :=
  "[" +:+ ciePrefix +:+ pretty num +:+ " - for details, see " +:+ githubHome
  +:+ "/blob/master/docs/troubleshooting.md]".

(** The texts of the two errors; the dump of [mlist] that follows them in
    the source is left out. *)
Definition splitText : string :=
  ciError 60 +:+ ": BMDs have different uuids with no simple majority".
Definition differText (uuid : string) : string :=
  ciError 70 +:+ ": BMDs have different uuids with simple majority: " +:+ uuid.

(** Lines 3826-3837, one round: results => (mlist, maxor). *)
Definition gather (st : gmap string (list nodeRegMeta) * gmap string bucketMD)
    (kv : string * (Snode * bucketMD))
  : gmap string (list nodeRegMeta) * gmap string bucketMD :=
  let bmd := kv.2.2 in
  if bool_decide (BMDVersion bmd = 0) then st
  else
    let mlist := <[BMDUUID bmd := default [] (st.1 !! BMDUUID bmd) ++ [mkRegMeta None bmd kv.2.1]]> st.1 in
    match st.2 !! BMDUUID bmd with
    | None => (mlist, <[BMDUUID bmd := bmd]> st.2)
    | Some rbmd =>
        if BMDVersion rbmd <? BMDVersion bmd
        then (mlist, <[BMDUUID bmd := bmd]> st.2)
        else (mlist, st.2)
    end.

(** Lines 3843-3848, one round: by simple majority. *)
Definition majority (acc : string * nat) (kv : string * list nodeRegMeta) : string * nat :=
  if (acc.2 <? length kv.2)%nat then (kv.1, length kv.2) else acc.

(** Lines 3849-3854: another uuid with as many BMDs. *)
Definition tied (uuid : string) (l : nat) (entries : list (string * list nodeRegMeta)) : bool :=
  existsb (fun kv => (l =? length kv.2)%nat && bool_decide (kv.1 <> uuid)) entries.

(** [bmds] is keyed by node: the source's key is the node pointer, here its
    id.  The result pairs the BMD (nil when there is none) with the error. *)
Definition resolveUUIDBMD (bmds : gmap string (Snode * bucketMD))
  : outcome (option bucketMD * option error) :=
  let st := fold_left gather (range 1 bmds) (∅, ∅) in
  let mlist := st.1 in
  let maxor := st.2 in
  if negb (size maxor =? size mlist)%nat then Panic "Assert"
  else if (size maxor =? 0)%nat then Ret (None, Some errNoBMD)
  else
    let ul := fold_left majority (range 2 mlist) ("", 0%nat) in
    if tied ul.1 ul.2 (range 3 mlist) then Ret (None, Some (errBmdUUIDSplit splitText))
    else
      let err := if (1 <? size mlist)%nat
                 then Some (errTgtBmdUUIDDiffer (differText ul.1)) else None in
      match maxor !! ul.1 with
      | None => Panic "nil pointer dereference"
      | Some bmd =>
          if bool_decide (BMDUUID bmd = "") then Panic "Assert" else Ret (Some bmd, err)
      end.

(** [err.Error()] *)
Definition errorText (e : error) : string :=
  match e with
  | ErrNoNodes _ => "no nodes"
  | ErrMsg s | ErrJSON s | errBmdUUIDSplit s | errTgtBmdUUIDDiffer s | errPrxBmdUUIDDiffer s => s
  | errNoBMD => "no BMD"
  | errNodeNotFound what id => what +:+ ": " +:+ id
  end.

(** *** recoverBuckets (lines 3628-3684) *)

(** One result of the broadcast for the targets' BMDs; [b_v] is [res.v]. *)
Record bmdResult := mkBmdResult {
  b_si : Snode;
  b_status : Z;
  b_err : option error;
  b_v : bucketMD
}.

(** The loop variables [uuid], [rbmd], [slowp] and [bmds]. *)
Record survey := mkSurvey {
  sv_uuid : string;
  sv_rbmd : option bucketMD;
  sv_slowp : bool;
  sv_bmds : gmap string (Snode * bucketMD)
}.

(** Lines 3646-3663. *)
Fixpoint surveyBMDs (results : list bmdResult) (sv : survey) : prx survey :=
  match results with
  | [] => mret sv
  | res :: rest =>
      match b_err res with
      | Some _ => emit (EvLog Error "recover-buckets: target failed");; surveyBMDs rest sv
      | None =>
          let bmd := b_v res in
          let bmds := <[DaemonID (b_si res) := (b_si res, bmd)]> (sv_bmds sv) in
          surveyBMDs rest
            match sv_rbmd sv with
            | None => (* 1. init *)
                mkSurvey (BMDUUID bmd) (Some bmd) (sv_slowp sv) bmds
            | Some rbmd =>
                if bool_decide (sv_uuid sv <> BMDUUID bmd) then (* 2. slow path *)
                  mkSurvey (sv_uuid sv) (sv_rbmd sv) true bmds
                else if negb (sv_slowp sv) && (BMDVersion rbmd <? BMDVersion bmd) then
                  (* 3. fast path max(version) *)
                  mkSurvey (sv_uuid sv) (Some bmd) (sv_slowp sv) bmds
                else mkSurvey (sv_uuid sv) (sv_rbmd sv) (sv_slowp sv) bmds
            end
      end
  end.

(** [results] is what the broadcast to the targets returned, in arrival
    order. *)
Definition recoverBuckets (r : request) (msg : ActionMsg) (results : list bmdResult)
  : prx unit :=
  forf ← forwardCP r (Some msg) "recover-buckets" None;
  if forf : bool then mret tt
  else
    sv ← surveyBMDs results (mkSurvey "" None false ∅);
    (* [None]: the request has been answered with an error *)
    chosen ← (if sv_slowp sv then
                let force := IsParseBool (Get (Query r) URLParamForce) in
                match resolveUUIDBMD (sv_bmds sv) with
                | Panic why => panic why
                | Ret (rbmd, None) => mret (Some rbmd)
                | Ret (rbmd, Some err) =>
                    let split := match err with errBmdUUIDSplit _ => true | _ => false end in
                    let noBMD := match err with errNoBMD => true | _ => false end in
                    if negb force || noBMD || split then
                      emit (EvInval (errorText err) None);; mret None
                    else
                      (match err with
                       | errTgtBmdUUIDDiffer _ => emit (EvLog Error (errorText err))
                       | _ => mret tt
                       end);;
                      mret (Some rbmd)
                end
              else mret (Some (sv_rbmd sv)));
    match chosen with
    | None => mret tt
    | Some None => panic "nil pointer dereference"
    | Some (Some rbmd) =>
        let rbmd := mkBMD (add64 (BMDVersion rbmd) 100) (BMDUUID rbmd) (Buckets rbmd) in
        emit (EvLock OBmd);;
        update (set_bmd (put rbmd));;
        emit (EvSync [(RevBMD rbmd, newAisMsg msg None (Some rbmd))]);;
        emit (EvUnlock OBmd)
    end.

(** *** The two-phase primary change (lines 2653-2710)

    The coordinator calls every other node.  A peer that is a proxy runs
    the code of this file; a target's handler is outside it and shows only
    through its reply.  Modelled from the spec: [callAll] is not under
    src/; it "call[s] every node", and a node that is down, that answers
    through invalmsghdlr or whose handler panics shows as [res.err]. *)
Inductive peer :=
| PeerProxy (up : bool) (p : proxyrunner)
| PeerTarget (t : Snode) (reply : Values -> option error).

Record callResult := mkCallResult {
  res_si : Snode;
  res_err : option error
}.

Definition firstInval (t : list event) : option error :=
  head (omap (fun e => match e with EvInval msg _ => Some (ErrMsg msg) | _ => None end) t).

(** PUT /v1/daemon/proxy/<proxyid>?q arriving at one peer: the peer
    afterwards, the result the caller sees, and what the peer did. *)
Definition deliver (proxyid : string) (q : Values) (x : peer)
  : peer * callResult * list event :=
  match x with
  | PeerProxy false p => (x, mkCallResult (si p) (Some (ErrMsg "connection refused")), [])
  | PeerProxy true p =>
      let out := httpdaesetprimaryproxy (inr [cmnProxy; proxyid]) q p in
      (PeerProxy true (final out),
       mkCallResult (si p)
         match value out with
         | Panic why => Some (ErrMsg why)
         | Ret _ => firstInval (trace out)
         end,
       trace out)
  | PeerTarget t reply => (x, mkCallResult t (reply q), [])
  end.

(** What [callAll] leaves behind: the peers, the results in arrival order,
    the calls that went out, and what the peers did meanwhile. *)
Record wave := mkWave {
  peers_after : list peer;
  results : list callResult;
  calls : list (Snode * Values);
  peer_events : list event
}.

Fixpoint callAll (proxyid : string) (q : Values) (peers : list peer) : wave :=
  match peers with
  | [] => mkWave [] [] [] []
  | x :: rest =>
      let '(x', res, evs) := deliver proxyid q x in
      let w := callAll proxyid q rest in
      mkWave (x' :: peers_after w) (res :: results w)
        ((res_si res, q) :: calls w) (evs ++ peer_events w)
  end.

(** Lines 2654-2673: [inr (proxyid, psi)] when the change goes ahead. *)
Definition designate (apiItems : error + list string) (r : request)
  : prx (unit + string * Snode) :=
  match apiItems with
  | inl _ => mret (inl tt)
  | inr items =>
      match items !! 0%nat with
      | None => panic "index out of range"
      | Some proxyid =>
          forf ← forwardCP r None ("designate new primary proxy '" +:+ proxyid +:+ "'") None;
          if forf : bool then mret (inl tt)
          else
            smap ← getSmap;
            self ← reads si;
            match Pmap smap !! proxyid with
            | None =>
                emit (EvInval ("new primary proxy " +:+ proxyid +:+ " not present in the Smap") None);;
                mret (inl tt)
            | Some psi =>
                if bool_decide (proxyid = DaemonID self) then
                  (* must be forwardCP-ed *)
                  match Primary smap with
                  | None => panic "nil pointer dereference"
                  | Some cur =>
                      if bool_decide (DaemonID self = DaemonID cur) then
                        emit (EvLog Warning "Request to set primary = self: nothing to do");;
                        mret (inl tt)
                      else panic "Assert"
                  end
                else mret (inr (proxyid, psi))
            end
      end
  end.

(** Lines 2680-2685: [true] when no node failed in the prepare phase. *)
Fixpoint prepareVerdict (proxyid : string) (results : list callResult) : prx bool :=
  match results with
  | [] => mret true
  | res :: rest =>
      match res_err res with
      | Some _ =>
          emit (EvInval ("Failed to set primary " +:+ proxyid +:+ ": err from "
                         +:+ DaemonID (res_si res) +:+ " in the prepare phase") None);;
          mret false
      | None => prepareVerdict proxyid rest
      end
  end.

(** Lines 2688-2693: commit locally. *)
Definition commitLocally (psi : Snode) : prx unit :=
  err ← smap_modify
    (fun clone =>
       emit EvBecomeNonPrimary;;
       mret (inr (mkSmap (SmapVersion clone) (SmapUUID clone) (Some psi)
                    (Pmap clone) (Tmap clone) (IC clone))))
    (fun _ => mret tt);
  AssertNoErr err.

(** Lines 2700-2709.  [glog.Fatalf] ends the process. *)
Fixpoint commitVerdict (proxyid : string) (results : list callResult) : prx unit :=
  match results with
  | [] => mret tt
  | res :: rest =>
      match res_err res with
      | Some _ =>
          (if bool_decide (DaemonID (res_si res) = proxyid)
           then panic "Fatalf: commit phase failure: new primary returned err"
           else emit (EvLog Error "Commit phase failure"));;
          commitVerdict proxyid rest
      | None => commitVerdict proxyid rest
      end
  end.

(** The coordinator's run together with the rest of the cluster. *)
Record clusterRun := mkClusterRun {
  coordinator : run unit;
  cluster_after : list peer;
  cluster_calls : list (Snode * Values)
}.

Definition httpclusetprimaryproxy (apiItems : error + list string) (r : request)
    (peers : list peer) (p : proxyrunner) : clusterRun :=
  let d := designate apiItems r p in
  match value d with
  | Panic why => mkClusterRun (mkRun (Panic why) (final d) (trace d)) peers []
  | Ret (inl _) => mkClusterRun (mkRun (Ret tt) (final d) (trace d)) peers []
  | Ret (inr (proxyid, psi)) =>
      (* (I) prepare phase *)
      let q := <[URLParamPrepare := "true"]> (∅ : Values) in
      let w1 := callAll proxyid q peers in
      let v := prepareVerdict proxyid (results w1) (final d) in
      match value v with
      | Panic why =>
          mkClusterRun (mkRun (Panic why) (final v) (trace d ++ trace v))
            (peers_after w1) (calls w1)
      | Ret false =>
          mkClusterRun (mkRun (Ret tt) (final v) (trace d ++ trace v))
            (peers_after w1) (calls w1)
      | Ret true =>
          (* (I.5) commit locally *)
          let c := commitLocally psi (final v) in
          match value c with
          | Panic why =>
              mkClusterRun (mkRun (Panic why) (final c) (trace d ++ trace v ++ trace c))
                (peers_after w1) (calls w1)
          | Ret _ =>
              (* (II) commit phase *)
              let q := <[URLParamPrepare := "false"]> q in
              let w2 := callAll proxyid q (peers_after w1) in
              let f := commitVerdict proxyid (results w2) (final c) in
              mkClusterRun
                (mkRun (value f) (final f) (trace d ++ trace v ++ trace c ++ trace f))
                (peers_after w2) (calls w1 ++ calls w2)
          end
      end
  end.

(** *** Observations on runs and traces, for stating properties *)

(** How often an owner's lock is released in a trace. *)
Definition isUnlock (o : ownerKind) (e : event) : bool :=
  match e with EvUnlock o' => bool_decide (o' = o) | _ => false end.
Definition isLock (o : ownerKind) (e : event) : bool :=
  match e with EvLock o' => bool_decide (o' = o) | _ => false end.
Definition unlocks (o : ownerKind) (t : list event) : nat :=
  length (filter (fun e => isUnlock o e = true) t).
Definition locks (o : ownerKind) (t : list event) : nat :=
  length (filter (fun e => isLock o e = true) t).

(** The requests a trace hands to the primary's reverse proxy. *)
Definition forwarded (t : list event) : list (string * request) :=
  omap (fun e => match e with EvForward url r => Some (url, r) | _ => None end) t.





(** The metasync waves of a trace. *)
Definition syncs (t : list event) : list (list (revs * aisMsg)) :=
  omap (fun e => match e with EvSync pairs => Some pairs | _ => None end) t.

(** The query of the prepare phase. *)
Definition prepareQuery : Values := <[URLParamPrepare := "true"]> ∅.

Definition isInval (e : event) : bool :=
  match e with EvInval _ _ => true | _ => false end.

End Runner.

Arguments mkRun {OS OB OR A} value final trace.
Arguments value {OS OB OR A} r.
Arguments final {OS OB OR A} r.
Arguments trace {OS OB OR A} r.

End Prx.

(** * Reference instances of the interfaces, to run the model on *)

Module Ref.
Import Prx.

Definition smapOps : SmapOps := {|
  isValid := fun m =>
    match Primary m with
    | Some psi => bool_decide (is_Some (Pmap m !! DaemonID psi))
    | None => false
    end;
  isPrimary := fun m self =>
    match Primary m with
    | Some psi => bool_decide (DaemonID psi = DaemonID self)
    | None => false
    end;
  isPresent := fun m node =>
    match DaemonType node with
    | Proxy => bool_decide (is_Some (Pmap m !! DaemonID node))
    | Target => bool_decide (is_Some (Tmap m !! DaemonID node))
    end;
  IsIC := fun m node =>
    match node with
    | Some n => bool_decide (is_Some (IC m !! DaemonID n))
    | None => false
    end;
  delProxy := fun id m =>
    mkSmap (SmapVersion m) (SmapUUID m) (Primary m) (delete id (Pmap m)) (Tmap m) (IC m);
  staffIC := fun m =>
    match Primary m with
    | Some psi => <[DaemonID psi := default 0 (IC m !! DaemonID psi)]> (IC m)
    | None => IC m
    end
|}.

Definition peers : Peers := {|
  sendOwnershipTbl := fun _ => None;
  fetchSmap := fun _ => inl (ErrMsg "connection refused");
  registerToURL := fun _ => None
|}.

(** [strconv.ParseBool], with the empty string read as false. *)
Definition parseBool (s : string) : error + bool :=
  if bool_decide (s = "") then inr false
  else if bool_decide (s ∈ ["1"; "t"; "T"; "true"; "TRUE"; "True"]) then inr true
  else if bool_decide (s ∈ ["0"; "f"; "F"; "false"; "FALSE"; "False"]) then inr false
  else inl (ErrMsg "invalid syntax").

Definition cmn : Cmn := {|
  ParseBool := parseBool;
  MustMarshalMsg := fun m => "{action:" +:+ Action m +:+ "}";
  url_Parse := fun s =>
    if String.prefix "http://" s then None else Some (ErrMsg "missing protocol scheme");
  Quote := fun s => dquote +:+ s +:+ dquote;
  ActRenameLB := "renamelb";
  ActNewPrimary := "newprimary";
  URLParamPrimaryCandidate := "candidate"
|}.

Definition bmdOps : BmdOps := {|
  bckInit := fun bmd name =>
    match Buckets bmd !! name with
    | Some props => inr props
    | None => inl (ErrMsg "bucket does not exist")
    end;
  bmdDel := fun name bmd => mkBMD (BMDVersion bmd) (BMDUUID bmd) (delete name (Buckets bmd))
|}.

(** A three-proxy, three-target cluster. *)
Definition P1 : Snode := mkSnode "p1" Proxy "http://p1:8080" "http://p1:9080" "http://p1:10080".
Definition P2 : Snode := mkSnode "p2" Proxy "http://p2:8080" "http://p2:9080" "http://p2:10080".
Definition P3 : Snode := mkSnode "p3" Proxy "http://p3:8080" "http://p3:9080" "http://p3:10080".
Definition T1 : Snode := mkSnode "t1" Target "http://t1:8081" "http://t1:9081" "http://t1:10081".
Definition T2 : Snode := mkSnode "t2" Target "http://t2:8081" "http://t2:9081" "http://t2:10081".
Definition T3 : Snode := mkSnode "t3" Target "http://t3:8081" "http://t3:9081" "http://t3:10081".

Definition smap0 : smapX :=
  mkSmap 12 "cluster-uuid" (Some P1)
    (<["p1" := P1]> (<["p2" := P2]> (<["p3" := P3]> ∅)))
    (<["t1" := T1]> (<["t2" := T2]> (<["t3" := T3]> ∅)))
    (<["p1" := 3]> (<["p2" := 2]> ∅)).

Definition bmd0 : bucketMD :=
  mkBMD 5 "A" (<["old" := mkProps "new"]> (<["odd" := mkProps ""]> ∅)).

Definition rmd0 : rebMD := mkRMD 5 [].

(** A proxy with plain cells for owners. *)
Definition proxy (self : Snode) (smap : smapX) (bmd : bucketMD) (rmd : rebMD)
  : @proxyrunner (cell smapX) (cell bucketMD) (cell rebMD) :=
  mkProxy (OS := cell smapX) (OB := cell bucketMD) (OR := cell rebMD) self smap bmd rmd ""
    None.

End Ref.

(** * Object requests: redirects to the target *)

Module Obj.
Import Prx.

(** The three networks of a node ([cmn.NetworkPublic] and so on). *)
Inductive network := NetworkPublic | NetworkIntraControl | NetworkIntraData.

(** Modelled from the spec: [Snode.URL] is not under src/.  By section 3 a
    node has "three network endpoints (public, intra-control,
    intra-data)"; URL(net) is the endpoint on that network. *)
Definition URL (node : Snode) (net : network) : string :=
  match net with
  | NetworkPublic => PublicNet node
  | NetworkIntraControl => IntraControlNet node
  | NetworkIntraData => IntraDataNet node
  end.

Definition URLParamAppendType : string := "append-type".
Definition URLParamAppendHandle : string := "append-handle".

Definition StatusUnauthorized : Z := 401.
Definition StatusForbidden : Z := 403.

(** Packages net, net/url and cmn, as far as redirects use them. *)
Class Net := {
  IPNet : Type;
  IP : Type;
  ParseIP : string -> option IP;
  Contains : IPNet -> IP -> bool;
  QueryEscape : string -> string;
  UnixNano2S : Z -> string
}.

Inductive access := AccessGET | AccessPUT | AccessAPPEND | AccessObjDELETE | AccessObjHEAD.

(** What a handler leaves in the response writer. *)
Inductive response :=
| Answered                                   (* a callee has replied *)
| Inval (msg : string) (code : option Z)     (* p.invalmsghdlr(w, r, msg, code...) *)
| Redirect (url : string) (code : Z).        (* http.Redirect(w, r, url, code) *)

(** What the handlers call before they redirect: REST parsing, bucket
    lookup, permissions and the rendezvous hash are outside this file. *)
Class Checks := {
  Bck : Type;
  (* checkRESTItems(w, r, 2, false, Version, Objects): the bucket and object
     names, or nothing when it has answered the request with an error *)
  checkRESTItems : request -> option (string * string);
  newBckFromQuery : string -> Values -> error + Bck;
  (* bck.Init(p.owner.bmd, p.si) *)
  bckInit : Bck -> option error;
  (* remBckAddArgs.try(): the bucket added on the fly, or nothing when the
     request has been answered or forwarded *)
  tryRemote : request -> Bck -> error -> option Bck;
  checkPermissions : request -> Bck -> access -> option error;
  Allow : Bck -> access -> option error;
  IsHTTP : Bck -> bool;
  (* bck.MakeUname(objName) *)
  MakeUname : Bck -> string -> string;
  (* cluster.HrwTarget(uname, &smap.Smap) *)
  HrwTarget : string -> smapX -> error + Snode;
  (* parseAppendHandle(handle).nodeID *)
  parseAppendHandle : string -> error + string;
  (* POST (rename, promote) is not part of what is stated here *)
  httpobjpost : request -> smapX -> Z -> response
}.

Section Redirects.
Context {N : Net} {K : Checks} {C : Cmn}.

(** [url.Values.Encode]: "key=value" pairs joined by "&", sorted by key. *)
Fixpoint insertByKey (kv : string * string) (l : list (string * string))
  : list (string * string) :=
  match l with
  | [] => [kv]
  | kv' :: rest =>
      if String.leb kv.1 kv'.1 then kv :: l else kv' :: insertByKey kv rest
  end.

Definition sortByKey (l : list (string * string)) : list (string * string) :=
  foldr insertByKey [] l.

Fixpoint joinPairs (l : list (string * string)) : string :=
  match l with
  | [] => ""
  | [kv] => QueryEscape kv.1 +:+ "=" +:+ QueryEscape kv.2
  | kv :: rest => QueryEscape kv.1 +:+ "=" +:+ QueryEscape kv.2 +:+ "&" +:+ joinPairs rest
  end.

Definition Encode (q : list (string * string)) : string := joinPairs (sortByKey q).

(** The proxy as redirects see it: its node and [p.si.LocalNet]. *)
Record gateway := mkGateway {
  self : Snode;
  LocalNet : option IPNet
}.

(** *** redirectURL (lines 1876-1907) *)
Definition nodeURL (g : gateway) (r : request) (node : Snode) (netName : network) : string :=
  match LocalNet g with
  | None => URL node NetworkPublic
  | Some localNet =>
      let remote := RemoteAddr r in
      let remote := match String.index 0 ":" remote with
                    | Some colon => String.substring 0 colon remote
                    | None => remote
                    end in
      let local := match ParseIP remote with
                   | Some ip => Contains localNet ip
                   | None => false
                   end in
      if local then URL node netName else URL node NetworkPublic
  end.

Definition redirectURL (g : gateway) (r : request) (node : Snode) (ts : Z)
    (netName : network) : string :=
  let redirect := nodeURL g r node netName +:+ Path r +:+ "?" in
  let redirect := if bool_decide (RawQuery r <> "")
                  then redirect +:+ RawQuery r +:+ "&" else redirect in
  redirect +:+ Encode [(URLParamProxyID, DaemonID (self g));
                       (URLParamUnixTime, UnixNano2S ts)].

(** The bucket a handler works on: named by the request, initialized, or
    looked up remotely and added on the fly. *)
Definition initBck (r : request) (bucket : string) (badRequest : option Z)
  : response + Bck :=
  match newBckFromQuery bucket (Query r) with
  | inl err => inl (Inval (errorText err) badRequest)
  | inr bck =>
      match bckInit bck with
      | None => inr bck
      | Some err =>
          match tryRemote r bck err with
          | Some bck => inr bck
          | None => inl Answered
          end
      end
  end.

(** *** httpobjget (lines 652-696); [started] is time.Now() in nanoseconds. *)
Definition httpobjget (g : gateway) (smap : smapX) (started : Z) (r : request) : response :=
  match checkRESTItems r with
  | None => Answered
  | Some (bucket, objName) =>
      match initBck r bucket (Some http.StatusBadRequest) with
      | inl resp => resp
      | inr bck =>
          match checkPermissions r bck AccessGET with
          | Some err => Inval (errorText err) (Some StatusUnauthorized)
          | None =>
              match Allow bck AccessGET with
              | Some err => Inval (errorText err) (Some StatusForbidden)
              | None =>
                  match HrwTarget (MakeUname bck objName) smap with
                  | inl err => Inval (errorText err) None
                  | inr node =>
                      Redirect (redirectURL g r node started NetworkIntraData)
                        http.StatusMovedPermanently
                  end
              end
          end
      end
  end.

(** *** httpobjput (lines 699-783) *)
Definition httpobjput (g : gateway) (smap : smapX) (started : Z) (r : request) : response :=
  match checkRESTItems r with
  | None => Answered
  | Some (bucket, objName) =>
      match initBck r bucket None with
      | inl resp => resp
      | inr bck =>
          if IsHTTP bck then Inval "provider doesn't support PUT" None
          else
            let appendTy := Get (Query r) URLParamAppendType in
            (* the permission check, then [nodeID] and the error of Allow *)
            let checked : response + string * option error :=
              if bool_decide (appendTy = "") then
                match checkPermissions r bck AccessPUT with
                | Some err => inl (Inval (errorText err) (Some StatusUnauthorized))
                | None => inr ("", Allow bck AccessPUT)
                end
              else
                match checkPermissions r bck AccessAPPEND with
                | Some err => inl (Inval (errorText err) (Some StatusUnauthorized))
                | None =>
                    match parseAppendHandle (Get (Query r) URLParamAppendHandle) with
                    | inl err => inl (Inval (errorText err) None)
                    | inr nodeID => inr (nodeID, Allow bck AccessAPPEND)
                    end
                end in
            match checked with
            | inl resp => resp
            | inr (_, Some err) => Inval (errorText err) (Some StatusForbidden)
            | inr (nodeID, None) =>
                let chosen : response + Snode :=
                  if bool_decide (nodeID = "") then
                    match HrwTarget (MakeUname bck objName) smap with
                    | inl err => inl (Inval (errorText err) None)
                    | inr node => inr node
                    end
                  else
                    match Tmap smap !! nodeID with
                    | None => inl (Inval ("PUT failure: " +:+ nodeID) None)
                    | Some node => inr node
                    end in
                match chosen with
                | inl resp => resp
                | inr node =>
                    Redirect (redirectURL g r node started NetworkIntraData)
                      http.StatusTemporaryRedirect
                end
            end
      end
  end.

(** *** httpobjdelete (lines 786-828) *)
Definition httpobjdelete (g : gateway) (smap : smapX) (started : Z) (r : request) : response :=
  match checkRESTItems r with
  | None => Answered
  | Some (bucket, objName) =>
      match initBck r bucket (Some http.StatusBadRequest) with
      | inl resp => resp
      | inr bck =>
          match checkPermissions r bck AccessObjDELETE with
          | Some err => Inval (errorText err) (Some StatusUnauthorized)
          | None =>
              match Allow bck AccessObjDELETE with
              | Some err => Inval (errorText err) (Some StatusForbidden)
              | None =>
                  match HrwTarget (MakeUname bck objName) smap with
                  | inl err => Inval (errorText err) None
                  | inr node =>
                      Redirect (redirectURL g r node started NetworkIntraControl)
                        http.StatusTemporaryRedirect
                  end
              end
          end
      end
  end.

(** *** httpobjhead (lines 1685-1732) *)
Definition httpobjhead (g : gateway) (smap : smapX) (started : Z) (r : request) : response :=
  let checkExists := IsParseBool (Get (Query r) URLParamCheckExists) in
  match checkRESTItems r with
  | None => Answered
  | Some (bucket, objName) =>
      match initBck r bucket (Some http.StatusBadRequest) with
      | inl resp => resp
      | inr bck =>
          match checkPermissions r bck AccessObjHEAD with
          | Some err => Inval (errorText err) (Some StatusUnauthorized)
          | None =>
              match Allow bck AccessObjHEAD with
              | Some err => Inval (errorText err) (Some StatusForbidden)
              | None =>
                  match HrwTarget (MakeUname bck objName) smap with
                  | inl err => Inval (errorText err) (Some http.StatusInternalServerError)
                  | inr node =>
                      let redirectURL := redirectURL g r node started NetworkIntraControl in
                      let redirectURL := if checkExists
                                         then redirectURL +:+ "&" +:+ URLParamCheckExists +:+ "=true"
                                         else redirectURL in
                      Redirect redirectURL http.StatusTemporaryRedirect
                  end
              end
          end
      end
  end.

(** *** objectHandler (lines 604-619) *)
Definition objectHandler (g : gateway) (smap : smapX) (started : Z) (r : request) : response :=
  if bool_decide (Method r = http.MethodGet) then httpobjget g smap started r
  else if bool_decide (Method r = http.MethodPut) then httpobjput g smap started r
  else if bool_decide (Method r = http.MethodDelete) then httpobjdelete g smap started r
  else if bool_decide (Method r = http.MethodPost) then httpobjpost r smap started
  else if bool_decide (Method r = http.MethodHead) then httpobjhead g smap started r
  else Inval "invalid method for /objects path" None.

(** *** Observations on redirects, for stating properties *)

(** The two parameters a redirect adds, as [Encode] writes them. *)
Definition stamp (g : gateway) (ts : Z) : string :=
  QueryEscape URLParamProxyID +:+ "=" +:+ QueryEscape (DaemonID (self g)) +:+ "&"
  +:+ QueryEscape URLParamUnixTime +:+ "=" +:+ QueryEscape (UnixNano2S ts).

(** The original path and query of a request, ready for more parameters. *)
Definition pathAndQuery (r : request) : string :=
  Path r +:+ "?" +:+ (if bool_decide (RawQuery r <> "") then RawQuery r +:+ "&" else "").

(** The bucket of a request, when there is one to work on. *)
Definition bucketOf (r : request) (bucket : string) : option Bck :=
  match initBck r bucket None with
  | inr bck => Some bck
  | inl _ => None
  end.

(** The access a request needs: by its method, and for a PUT by whether it
    appends. *)
Definition accessOf (r : request) : access :=
  if bool_decide (Method r = http.MethodGet) then AccessGET
  else if bool_decide (Method r = http.MethodPut) then
    if bool_decide (Get (Query r) URLParamAppendType = "") then AccessPUT else AccessAPPEND
  else if bool_decide (Method r = http.MethodDelete) then AccessObjDELETE
  else AccessObjHEAD.

(** The node an appending PUT names through its handle; "" otherwise. *)
Definition appendNode (r : request) : error + string :=
  if bool_decide (Method r = http.MethodPut)
     && negb (bool_decide (Get (Query r) URLParamAppendType = ""))
  then parseAppendHandle (Get (Query r) URLParamAppendHandle)
  else inr "".

(** The target of a request for object objName of bucket bck: the node its
    append handle names, looked up in the map, else the rendezvous hash of
    the object's unique name over the map. *)
Definition targetOf (smap : smapX) (r : request) (bck : Bck) (objName : string)
  : option Snode :=
  match appendNode r with
  | inl _ => None
  | inr nodeID =>
      if bool_decide (nodeID = "") then
        match HrwTarget (MakeUname bck objName) smap with
        | inr node => Some node
        | inl _ => None
        end
      else Tmap smap !! nodeID
  end.

(** A request is routed to a target: its path names a bucket and an object,
    the bucket is there (and, for a PUT, not an HTTP bucket), the access is
    permitted and allowed, and the request's target is that node. *)
Definition routed (smap : smapX) (r : request) (node : Snode) : Prop :=
  exists bucket objName bck,
    checkRESTItems r = Some (bucket, objName)
    /\ bucketOf r bucket = Some bck
    /\ (Method r = http.MethodPut -> IsHTTP bck = false)
    /\ checkPermissions r bck (accessOf r) = None
    /\ Allow bck (accessOf r) = None
    /\ targetOf smap r bck objName = Some node.

(** Whether redirectURL takes the client for a local one (lines 1881-1891). *)
Definition localClient (g : gateway) (r : request) : bool :=
  match LocalNet g with
  | None => false
  | Some localNet =>
      let remote := RemoteAddr r in
      let remote := match String.index 0 ":" remote with
                    | Some colon => String.substring 0 colon remote
                    | None => remote
                    end in
      match ParseIP remote with
      | Some ip => Contains localNet ip
      | None => false
      end
  end.

Definition redirectCode (method : string) : Z :=
  if bool_decide (method = http.MethodGet)
  then http.StatusMovedPermanently else http.StatusTemporaryRedirect.

Definition redirectNet (method : string) : network :=
  if bool_decide (method = http.MethodGet) || bool_decide (method = http.MethodPut)
  then NetworkIntraData else NetworkIntraControl.

(** What httpobjhead appends when the query asks to check existence. *)
Definition checkExistsSuffix (r : request) : string :=
  if bool_decide (Method r = http.MethodHead) && IsParseBool (Get (Query r) URLParamCheckExists)
  then "&" +:+ URLParamCheckExists +:+ "=true" else "".

End Redirects.

(** *** Reference instances, to run the handlers on *)

(** Addresses are compared as text, a network is a prefix; nothing needs
    escaping in the identifiers used here. *)
Definition refNet : Net := {|
  IPNet := string;
  IP := string;
  ParseIP := fun s => if bool_decide (s = "") then None else Some s;
  Contains := fun net ip => String.prefix net ip;
  QueryEscape := fun s => s;
  UnixNano2S := fun ns => pretty ns
|}.

(** "/v1/objects/<bucket>/<object>" split into its two items. *)
Definition splitObjectPath (path : string) : option (string * string) :=
  if String.prefix "/v1/objects/" path then
    let rest := String.substring 12 (String.length path - 12) path in
    match String.index 0 "/" rest with
    | Some i =>
        Some (String.substring 0 i rest,
              String.substring (S i) (String.length rest - S i) rest)
    | None => None
    end
  else None.

(** Every bucket exists and is open to all; every object hashes to t2. *)
Definition refChecks : Checks := {|
  Bck := string;
  checkRESTItems := fun r => splitObjectPath (Path r);
  newBckFromQuery := fun bucket _ => inr bucket;
  bckInit := fun _ => None;
  tryRemote := fun _ _ _ => None;
  checkPermissions := fun _ _ _ => None;
  Allow := fun _ _ => None;
  IsHTTP := fun _ => false;
  MakeUname := fun bck objName => bck +:+ "/" +:+ objName;
  HrwTarget := fun _ smap =>
    match Tmap smap !! "t2" with
    | Some node => inr node
    | None => inl (ErrNoNodes Target)
    end;
  parseAppendHandle := fun h => inr h;
  httpobjpost := fun _ _ _ => Answered
|}.

End Obj.

(** * Calls to other nodes, as the rest of the file sees them *)

Module Call.
Import Prx.

(** cmn.ReqArgs *)
Record ReqArgs := mkReqArgs {
  Method : string;
  Base : string;
  Path : string;
  Query : Values;
  Body : option string
}.

(** One result of a call or of a broadcast ([callResult]). *)
Record callResult := mkResult {
  si : Snode;
  status : Z;
  bytes : option string;
  err : option error;
  details : string
}.

End Call.

(** * The /v1/download front end *)

Module DlFront.
Import Prx.

Definition StatusServiceUnavailable : Z := 503.

(** Modelled from the spec: the cmn constants are not under src/; section 6
    of the spec lists the query parameter "uuid". *)
Definition URLParamUUID : string := "uuid".

(** What a handler does to the response and to the information council;
    the broadcasts it issues are listed apart. *)
Inductive effect :=
| WriteHeader (code : Z)                       (* w.WriteHeader(code) *)
| Inval (msg : string) (code : option Z)       (* p.invalmsghdlr(w, r, msg, code...) *)
| InvalidHandler (msg : string)                (* cmn.InvalidHandlerWithMsg(w, r, msg) *)
| Write (body : option string)                 (* w.Write(body) *)
| LeftTo (callee : string)                     (* return after a callee's error or redirect *)
| RegisterEqual (id kind : string) (smap : smapX) (interval : Z)
                                               (* p.ic.registerEqual of a new download listener *)
| RespondWithID (id : string).                 (* p.respondWithID(w, id) *)

(** Code outside this file that the front end calls. *)
Class Front := {
  DlBody : Type;
  DlBase : Type;
  (* p.checkPermissions(r.Header, nil, cmn.AccessDOWNLOAD) *)
  checkPermissions : request -> option error;
  (* cmn.ReadJSON(w, r, &payload): nothing when it has answered with an error *)
  ReadJSON : request -> option Dl.DlAdminBody;
  (* payload.Validate(requireID) *)
  Validate : Dl.DlAdminBody -> bool -> option error;
  (* cmn.MatchRESTItems(r.URL.Path, 1, false, cmn.URLPathDownload.L) *)
  MatchRESTItems : string -> error + list string;
  Abort : string;
  Remove : string;
  (* p.ic.redirectToIC(w, r) *)
  redirectToIC : request -> bool;
  (* p.checkRESTItems(w, r, 0, false, cmn.URLPathDownload.L) *)
  checkRESTItems : request -> error + list string;
  (* ioutil.ReadAll(r.Body) *)
  ReadAll : request -> error + string;
  UnmarshalBody : string -> error + DlBody;
  (* jsoniter.Unmarshal(dlb.RawMessage, &dlBase) *)
  UnmarshalBase : DlBody -> error + DlBase;
  (* bckInitArgs.initAndTry for the bucket of dlBase *)
  initAndTry : request -> string -> DlBase -> option error;
  ProgressInterval : DlBase -> string;
  DlType : DlBody -> string;
  ParseDuration : string -> error + Z;
  DownloadProgressInterval : Z
}.

Section Handlers.
Context `{Dl.Downloader} {MR : MapRange} {F : Front}.

(** *** broadcastStartDownloadRequest (lines 132-150) *)

(** The loop over the results: the status and error to return. *)
Fixpoint firstError (results : list Call.callResult) : Z * option error :=
  match results with
  | [] => (http.StatusOK, None)
  | res :: rest =>
      match Call.err res with
      | None => firstError rest
      | Some e => (Call.status res, Some e)
      end
  end.

(** [bcastGroup] is [p.bcastGroup]: the results of a broadcast, in arrival
    order.  The function returns [(errCode, err)]; the broadcast it issued
    is returned with them. *)
Definition broadcastStartDownloadRequest (bcastGroup : Call.ReqArgs -> list Call.callResult)
    (r : request) (id : string) (body : string) : Z * option error * list Call.ReqArgs :=
  let query := <[URLParamUUID := id]> (Query r) in
  let req := Call.mkReqArgs http.MethodPost "" (Path r) query (Some body) in
  (firstError (bcastGroup req), [req]).

(** *** validateStartDownloadRequest (lines 275-294) *)
Definition validateStartDownloadRequest (r : request) (body : string)
  : list effect * option (DlBody * DlBase) :=
  match UnmarshalBody body with
  | inl e => ([Inval (errorText e) (Some http.StatusBadRequest)], None)
  | inr dlb =>
      match UnmarshalBase dlb with
      | inl e => ([Inval (errorText e) (Some http.StatusBadRequest)], None)
      | inr dlBase =>
          match initAndTry r body dlBase with
          | Some _ => ([LeftTo "initAndTry"], None)
          | None => ([], Some (dlb, dlBase))
          end
      end
  end.

(** *** httpDownloadPost (lines 225-271)

    [smap] is [p.owner.smap.get()] and [id] what [cmn.GenUUID()] returns. *)
Definition httpDownloadPost (bcastGroup : Call.ReqArgs -> list Call.callResult)
    (smap : smapX) (id : string) (r : request) : list effect * list Call.ReqArgs :=
  match checkRESTItems r with
  | inl _ => ([LeftTo "checkRESTItems"], [])
  | inr _ =>
      match ReadAll r with
      | inl e =>
          ([Inval ("Error starting download: " +:+ errorText e)
              (Some http.StatusInternalServerError)], [])
      | inr body =>
          match validateStartDownloadRequest r body with
          | (effs, None) => (effs, [])
          | (effs, Some (dlb, dlBase)) =>
              let interval : error + Z :=
                if bool_decide (ProgressInterval dlBase <> "")
                then ParseDuration (ProgressInterval dlBase)
                else inr DownloadProgressInterval in
              match interval with
              | inl _ => (effs ++ [Inval "invalid progress interval" None], [])
              | inr progressInterval =>
                  let '(errCode, err, reqs) := broadcastStartDownloadRequest bcastGroup r id body in
                  match err with
                  | Some e =>
                      (effs ++ [Inval ("Error starting download: " +:+ errorText e) (Some errCode)],
                       reqs)
                  | None =>
                      (effs ++ [RegisterEqual id (DlType dlb) smap progressInterval;
                                RespondWithID id],
                       reqs)
                  end
              end
          end
      end
  end.

(** *** httpDownloadAdmin (lines 177-222)

    [w] holds the listeners and the targets; [started] is
    [p.ClusterStarted()]. *)
Definition httpDownloadAdmin (w : Dl.world) (started : bool) (r : request)
  : outcome (list effect) * list Dl.ReqArgs :=
  if negb started then (Ret [WriteHeader StatusServiceUnavailable], [])
  else
    match ReadJSON r with
    | None => (Ret [LeftTo "ReadJSON"], [])
    | Some payload =>
        match Validate payload (bool_decide (Method r = http.MethodDelete)) with
        | Some e => (Ret [Inval (errorText e) None], [])
        | None =>
            (* [inl]: the request ends here *)
            let action : outcome (list effect) + unit :=
              if bool_decide (Method r = http.MethodDelete) then
                match MatchRESTItems (Path r) with
                | inl e => inl (Ret [InvalidHandler (errorText e)])
                | inr items =>
                    match items !! 0%nat with
                    | None => inl (Panic "index out of range")
                    | Some item0 =>
                        if bool_decide (item0 <> Abort) && bool_decide (item0 <> Remove)
                        then inl (Ret [InvalidHandler
                                         ("Invalid action for DELETE request: " +:+ item0)])
                        else inr tt
                    end
                end
              else inr tt in
            match action with
            | inl out => (out, [])
            | inr _ =>
                if bool_decide (Dl.ID payload <> "") && redirectToIC r
                then (Ret [LeftTo "redirectToIC"], [])
                else
                  let '(res, reqs) :=
                    Dl.broadcastDownloadAdminRequest w (Method r) (Path r) payload in
                  match res with
                  | Panic why => (Panic why, reqs)
                  | Ret (resp, statusCode, Some e) =>
                      (Ret [Inval (errorText e) (Some statusCode)], reqs)
                  | Ret (resp, _, None) => (Ret [Write resp], reqs)
                  end
            end
        end
    end.

(** *** downloadHandler (lines 153-172)

    The two branches issue broadcasts of different shapes. *)
Definition downloadHandler (w : Dl.world)
    (bcastGroup : Call.ReqArgs -> list Call.callResult)
    (started : bool) (smap : smapX) (id : string) (r : request)
  : outcome (list effect) * list (Dl.ReqArgs + Call.ReqArgs) :=
  if negb started then (Ret [WriteHeader StatusServiceUnavailable], [])
  else
    match checkPermissions r with
    | Some e => (Ret [Inval (errorText e) (Some Obj.StatusUnauthorized)], [])
    | None =>
        if bool_decide (Method r = http.MethodGet) || bool_decide (Method r = http.MethodDelete)
        then let '(out, reqs) := httpDownloadAdmin w started r in (out, inl <$> reqs)
        else if bool_decide (Method r = http.MethodPost)
        then let '(effs, reqs) := httpDownloadPost bcastGroup smap id r in (Ret effs, inr <$> reqs)
        else (Ret [InvalidHandler ("invalid method " +:+ Method r +:+ " for /download path")], [])
    end.

(** *** Observations, for stating properties *)

Definition isRegister (e : effect) : bool :=
  match e with RegisterEqual _ _ _ _ => true | _ => false end.

Definition isRespond (e : effect) : bool :=
  match e with RespondWithID _ => true | _ => false end.

(** The answers that carry an error to the client. *)
Definition isError (e : effect) : bool :=
  match e with Inval _ _ | InvalidHandler _ => true | _ => false end.

End Handlers.

End DlFront.

(** * Asynchronous bucket tasks and queries to all targets *)

Module Task.
Import Prx.

Definition StatusAccepted : Z := 202.

(** Modelled from the spec: the cmn constants are not under src/; section 6
    of the spec lists the query parameters "uuid", "task-action" and
    "silent" and the route /v1/buckets/<name>. *)
Definition URLParamUUID : string := "uuid".
Definition URLParamTaskAction : string := "task-action".
Definition URLParamSilent : string := "silent".
Definition bucketsPath (name : string) : string := "/v1/buckets/" +:+ name.

(** cmn.BucketSummaryMsg: the task id and the other fields. *)
Record BucketSummaryMsg (Rest : Type) := mkSummaryMsg {
  UUID : string;
  rest : Rest
}.
Arguments mkSummaryMsg {Rest} UUID rest.
Arguments UUID {Rest} b.
Arguments rest {Rest} b.

(** Packages cmn and cluster, as far as the tasks use them. *)
Class Tasks := {
  Bck : Type;
  BckName : Bck -> string;
  AddBckToQuery : Values -> Bck -> Values;
  Rest : Type;
  BucketSummary : Type;
  (* BucketsSummaries.Aggregate *)
  Aggregate : list BucketSummary -> BucketSummary -> list BucketSummary;
  (* cmn.MustMarshal of the aisMsg made from the summary message and the Smap *)
  MarshalSummary : BucketSummaryMsg Rest -> smapX -> string;
  (* the summary message held by an action message's value *)
  UnmarshalSummary : ActionMsg -> error + BucketSummaryMsg Rest;
  (* cmn.MustMarshal of the aisMsg made from an action message, the Smap and a uuid *)
  MarshalAction : ActionMsg -> smapX -> string -> string;
  TaskStart : string;
  TaskStatus : string;
  TaskResult : string;
  DoesNotExist : string
}.

Section Tasks.
Context {T : Tasks}.

(** What a handler does to the response. *)
Inductive effect :=
| WriteHeader (code : Z)
| Write (body : string)
| WriteSummaries (summaries : option (list BucketSummary))   (* p.writeJSON(w, r, summaries, ...) *)
| Inval (msg : string) (code : option Z).

(** *** initAsyncQuery (lines 1909-1929): [isNew], the query, and the
    message with its id filled in. *)
Definition initAsyncQuery (bck : Bck) (msg : BucketSummaryMsg Rest) (newTaskID : string)
  : bool * Values * BucketSummaryMsg Rest :=
  let isNew := bool_decide (UUID msg = "") in
  let q : Values := ∅ in
  let '(msg, q) := if isNew
                   then (mkSummaryMsg newTaskID (rest msg), <[URLParamTaskAction := TaskStart]> q)
                   else (msg, <[URLParamTaskAction := TaskStatus]> q) in
  (isNew, AddBckToQuery q bck, msg).

(** *** checkBckTaskResp (lines 1931-1954)

    The loop: [inl] is the return from inside it, [inr] carries [allOK],
    [status] and [allNotFound] to the code after it. *)
Fixpoint checkLoop (results : list Call.callResult) (allNotFound : bool)
  : (bool * Z * option error) + (bool * Z * bool) :=
  match results with
  | [] => inr (true, 0, allNotFound)
  | res :: rest =>
      if Call.status res =? http.StatusNotFound then checkLoop rest allNotFound
      else
        match Call.err res with
        | Some e => inl (false, Call.status res, Some e)
        | None =>
            if negb (Call.status res =? http.StatusOK)
            then inr (false, Call.status res, false)
            else checkLoop rest false
        end
  end.

Definition taskNotFound (uuid : string) : error :=
  ErrMsg ("task " +:+ uuid +:+ " " +:+ DoesNotExist).

Definition checkBckTaskResp (uuid : string) (results : list Call.callResult)
  : bool * Z * option error :=
  match checkLoop results true with
  | inl out => out
  | inr (allOK, status, allNotFound) =>
      (allOK, status, if allNotFound : bool then Some (taskNotFound uuid) else None)
  end.

(** *** gatherBucketSummary (lines 1474-1527) *)

(** One result of the second broadcast; [sv] is [*result.v]. *)
Record summaryResult := mkSummaryResult {
  s_err : option error;
  sv : list BucketSummary
}.

(** Lines 1515-1524. *)
Fixpoint collectSummaries (results : list summaryResult) (summaries : list BucketSummary)
  : error + list BucketSummary :=
  match results with
  | [] => inr summaries
  | result :: rest =>
      match s_err result with
      | Some e => inl e
      | None => collectSummaries rest (fold_left Aggregate (sv result) summaries)
      end
  end.

(** The targets, for the two broadcasts of a summary. *)
Record targets := mkTargets {
  bcastToGroup : Call.ReqArgs -> list Call.callResult;
  bcastSummaries : Call.ReqArgs -> list summaryResult
}.

(** The query of the second broadcast (lines 1508-1511). *)
Definition resultQuery (bck : Bck) : Values :=
  <[URLParamSilent := "true"]> (<[URLParamTaskAction := TaskResult]> (AddBckToQuery ∅ bck)).

(** Returns [(summaries, uuid, err)] and the broadcasts issued; [newID] is
    what [cmn.GenUUID()] returns and [smap] is [p.owner.smap.get()]. *)
Definition gatherBucketSummary (t : targets) (smap : smapX) (newID : string)
    (bck : Bck) (msg : BucketSummaryMsg Rest)
  : option (list BucketSummary) * string * option error * list Call.ReqArgs :=
  let '(isNew, q, msg) := initAsyncQuery bck msg newID in
  let body := MarshalSummary msg smap in
  let req := Call.mkReqArgs http.MethodPost "" (bucketsPath (BckName bck)) q (Some body) in
  let '(allOK, _, err) := checkBckTaskResp (UUID msg) (bcastToGroup t req) in
  match err with
  | Some e => (None, "", Some e, [req])
  | None =>
      (* some targets are still executing their tasks or it is request to
         start an async task *)
      if negb allOK || isNew then (None, UUID msg, None, [req])
      else
        let req2 := Call.mkReqArgs http.MethodPost "" (bucketsPath (BckName bck))
                      (resultQuery bck) (Some body) in
        match collectSummaries (bcastSummaries t req2) [] with
        | inl e => (None, "", Some e, [req; req2])
        | inr summaries => (Some summaries, "", None, [req; req2])
        end
  end.

(** *** bucketSummary (lines 1440-1472) *)
Definition bucketSummary (t : targets) (smap : smapX) (newID : string)
    (r : request) (bck : Bck) (amsg : ActionMsg) : list effect * list Call.ReqArgs :=
  match UnmarshalSummary amsg with
  | inl e => ([Inval (errorText e) None], [])
  | inr smsg =>
      let id := Get (Query r) URLParamUUID in
      let smsg := if bool_decide (id <> "") then mkSummaryMsg id (rest smsg) else smsg in
      match gatherBucketSummary t smap newID bck smsg with
      | (_, _, Some e, reqs) => ([Inval (errorText e) None], reqs)
      | (summaries, uuid, None, reqs) =>
          if bool_decide (uuid <> "")
          then ([WriteHeader StatusAccepted; Write uuid], reqs)
          else ([WriteSummaries summaries], reqs)
      end
  end.

(** *** doListRange (lines 2193-2223)

    The node of the error text is written by its id. *)
Definition listRangeError (msg : ActionMsg) (res : Call.callResult) (e : error) : error :=
  ErrMsg (DaemonID (Call.si res) +:+ " failed to " +:+ Action msg +:+ " List/Range: "
          +:+ errorText e +:+ " (" +:+ pretty (Call.status res) +:+ ": "
          +:+ Call.details res +:+ ")").

(** Returns [(xactID, err)] and the broadcast; [uuid] is what
    [cmn.GenUUID()] returns. *)
Definition doListRange (bcast : Call.ReqArgs -> list Call.callResult) (smap : smapX)
    (uuid : string) (method bucket : string) (msg : ActionMsg) (query : Values)
  : string * option error * Call.ReqArgs :=
  let body := MarshalAction msg smap uuid in
  let req := Call.mkReqArgs method "" (bucketsPath bucket) query (Some body) in
  let err := fold_left (fun err res =>
                          match Call.err res with
                          | Some e => Some (listRangeError msg res e)
                          | None => err
                          end) (bcast req) None in
  (uuid, err, req).

(** *** _queryResults (lines 2960-2970): the answer on an error, and the
    map of the targets' bodies (nil after an error). *)
Fixpoint _queryResults (results : list Call.callResult)
    (targetResults : gmap string (option string))
  : list effect * option (gmap string (option string)) :=
  match results with
  | [] => ([], Some targetResults)
  | res :: rest =>
      match Call.err res with
      | Some _ => ([Inval (Call.details res) None], None)
      | None =>
          _queryResults rest (<[DaemonID (Call.si res) := Call.bytes res]> targetResults)
      end
  end.

(** *** Observations, for stating properties *)

(** A result the loop of checkBckTaskResp passes over: a 404, or a 200
    without an error. *)
Definition settled (res : Call.callResult) : Prop :=
  Call.status res = http.StatusNotFound
  \/ (Call.status res = http.StatusOK /\ Call.err res = None).

Definition noError (res : Call.callResult) : Prop := Call.err res = None.

Definition all404 (results : list Call.callResult) : bool :=
  forallb (fun res => Call.status res =? http.StatusNotFound) results.

End Tasks.

End Task.

(** * Observations on the primary change, for stating properties *)

Module Handover.
Import Prx.

Section Handover.
Context {OS : Owner smapX} {OB : Owner bucketMD} {OR : Owner rebMD}.
Context {SO : SmapOps} {C : Cmn} {BO : BmdOps} {MR : MapRange} {PE : Peers}.

(** A cluster map with another primary and nothing else changed. *)
Definition withPrimary (m : smapX) (psi : Snode) : smapX :=
  mkSmap (SmapVersion m) (SmapUUID m) (Some psi) (Pmap m) (Tmap m) (IC m).

(** The query of the commit phase. *)
Definition commitQuery : Values := <[URLParamPrepare := "false"]> prepareQuery.

(** The URL forcefulJoin fetches the new primary's map from: the candidate
    URL of the query, else the intra-control URL of the proxy as the local
    map has it. *)
Definition candidateURL (query : Values) (smap : smapX) (proxyID : string) : option string :=
  let url := Get query URLParamPrimaryCandidate in
  if bool_decide (url <> "") then Some url
  else match GetProxy smap proxyID with
       | Some psi =>
           if bool_decide (IntraControlNet psi <> "") then Some (IntraControlNet psi) else None
       | None => None
       end.

(** The node a proxy takes for the designated primary: itself when it is
    the one designated, else what its own map holds under that id. *)
Definition designated (proxyid : string) (q : proxyrunner) : option Snode :=
  if bool_decide (DaemonID (si q) = proxyid) then Some (si q)
  else GetProxy (get (owner_smap q)) proxyid.

(** A proxy that will go along with the change: it is not the primary in
    its own map; it either is the designated proxy and present in its map,
    or has the designated proxy in its map. *)
Definition follows (proxyid : string) (q : proxyrunner) : Prop :=
  isPrimary (get (owner_smap q)) (si q) = false
  /\ (DaemonID (si q) = proxyid -> isPresent (get (owner_smap q)) (si q) = true)
  /\ is_Some (designated proxyid q).

(** The node a peer is called as. *)
Definition peerNode (x : peer) : Snode :=
  match x with
  | PeerProxy _ q => si q
  | PeerTarget t _ => t
  end.

(** The cluster map a peer holds, when the peer is a proxy. *)
Definition peerSmap (x : peer) : option smapX :=
  match x with
  | PeerProxy _ q => Some (get (owner_smap q))
  | PeerTarget _ _ => None
  end.

Definition isBecomeNonPrimary (e : event) : bool :=
  match e with EvBecomeNonPrimary => true | _ => false end.

End Handover.

End Handover.

(** * Receiving metadata: metasync, registration, joining *)

Module Sync.
Import Prx.

(** Modelled from the spec: the cmn constants are not under src/; section 6
    of the spec lists the query parameter "non-electable". *)
Definition URLParamNonElectable : string := "non-electable".

Section Sync.
Context {OS : Owner smapX} {OB : Owner bucketMD} {OR : Owner rebMD}.
Context {SO : SmapOps} {C : Cmn} {BO : BmdOps} {MR : MapRange} {PE : Peers}.

(** Code outside this file that the receiving side calls.  What the
    extractors return may depend on what the proxy holds when they are
    called. *)
Class Receiver := {
  Payload : Type;                      (* msPayload *)
  Tokens : Type;                       (* the list of revoked tokens *)
  ReverseProxy : Type;                 (* httputil.ReverseProxy *)
  (* p.owner.smap.synchronize(newSmap, lesserIsErr) *)
  synchronize : option smapX -> bool -> @store smapX OS -> option error * @store smapX OS;
  (* jsp.Decode(r.Body, &payload, jsp.CCSign(), "metasync put") *)
  Decode : string -> error + Payload;
  extractSmap : Payload -> string -> proxyrunner -> error + option smapX;
  extractRMD : Payload -> proxyrunner -> error + option (rebMD * aisMsg);
  extractBMD : Payload -> proxyrunner -> error + option (bucketMD * aisMsg);
  extractRevokedTokenList : Payload -> proxyrunner -> error + Tokens;
  containsID : smapX -> string -> bool;
  UnmarshalRegMeta : string -> error + nodeRegMeta;
  ActRegTarget : string;
  (* p.join(query, primaryURLs...) *)
  join : Values -> list string -> Call.callResult;
  (* p.httprunner.sendKeepalive(timeout) *)
  httprunner_sendKeepalive : Z -> Z * option error
}.

Context {RX : Receiver}.

(** *** sendKeepalive (lines 482-488): the result, and whether a keepalive
    went out. *)
Definition sendKeepalive (timeout : Z) : prx (Z * option error * bool) :=
  smap ← getSmap;
  self ← reads si;
  if isPrimary smap self then mret (0, None, false)
  else mret (httprunner_sendKeepalive timeout, true).

(** *** applyRegMeta (lines 510-529) *)
Definition applyRegMeta (body : string) (caller : string) : prx (option error) :=
  match UnmarshalRegMeta body with
  | inl e =>
      mret (Some (ErrMsg ("unexpected: failed to unmarshal reg-meta, err: " +:+ errorText e)))
  | inr regMeta =>
      (* BMD *)
      let msg := newAisMsgStr ActRegTarget (RegSmap regMeta) (Some (RegBMD regMeta)) in
      err ← receiveBMD (RegBMD regMeta) msg caller;
      (match err with
       | Some _ => emit (EvLog Info "bmd")
       | None => mret tt
       end);;
      (* Smap *)
      st ← reads owner_smap;
      update (set_smap (fun _ => (synchronize (RegSmap regMeta) true st).2));;
      (match (synchronize (RegSmap regMeta) true st).1 with
       | Some _ => emit (EvLog Error "sync Smap err")
       | None => emit (EvLog Info "sync Smap")
       end);;
      mret err
  end.

(** *** joinCluster (lines 490-508): status and error, and the join calls
    made.  [nonElectable] is the configuration's Proxy.NonElectable. *)
Definition joinCluster (nonElectable : bool) (primaryURLs : list string)
  : prx (Z * option error * list (Values * list string)) :=
  smap ← getSmap;
  self ← reads si;
  if isPrimary smap self
  then mret (0, Some (ErrMsg (DaemonID self +:+ " should not be joining: is primary")), [])
  else
    let query : Values := if nonElectable then <[URLParamNonElectable := "true"]> ∅ else ∅ in
    let res := join query primaryURLs in
    match Call.err res with
    | Some e => mret (Call.status res, Some e, [(query, primaryURLs)])
    | None =>
        (* not being sent at cluster startup and keepalive *)
        match Call.bytes res with
        | None | Some "" => mret (0, None, [(query, primaryURLs)])
        | Some body =>
            err ← applyRegMeta body "";
            mret (0, err, [(query, primaryURLs)])
        end
    end.

(** *** metasyncHandler (lines 905-995)

    [caller] is the Caller-Name header; [nodes] is [p.rproxy.nodes], the
    reverse proxies by node id.  The handler returns the reverse proxies it
    keeps and the revoked tokens it has handed to the token manager, if
    any.  An error of the decoder is answered through
    cmn.InvalidHandlerDetailed. *)
Definition errsText (errs : list error) : string :=
  "[" +:+ String.concat " " (errorText <$> errs) +:+ "]".

Definition cleanup (smap newSmap : smapX) (nodes : gmap string ReverseProxy)
  : gmap string ReverseProxy :=
  filter (fun kv => negb (containsID smap kv.1 && negb (containsID newSmap kv.1)) = true) nodes.

(** Lines 934-957: the errors so far and the reverse proxies kept. *)
Definition receiveSmap (payload : Payload) (caller : string) (smap : smapX)
    (nodes : gmap string ReverseProxy) : prx (list error * gmap string ReverseProxy) :=
  p0 ← reads (fun p => p);
  match extractSmap payload caller p0 with
  | inl e => mret ([e], nodes)
  | inr None => mret ([], nodes)
  | inr (Some newSmap) =>
      st ← reads owner_smap;
      update (set_smap (fun _ => (synchronize (Some newSmap) true st).2));;
      match (synchronize (Some newSmap) true st).1 with
      | Some e => mret ([e], nodes)
      | None =>
          (* When some node was removed from the cluster we need to clean up
             the reverse proxy structure. *)
          syncNewICOwners smap newSmap;;
          mret ([], cleanup smap newSmap nodes)
      end
  end.

Definition metasyncHandler (r : request) (caller : string) (nodes : gmap string ReverseProxy)
  : prx (gmap string ReverseProxy * option Tokens) :=
  if bool_decide (Method r <> http.MethodPut) then
    emit (EvInval ("invalid method " +:+ Method r) None);;
    mret (nodes, None)
  else
    smap ← getSmap;
    self ← reads si;
    if isPrimary smap self then
      emit (EvInval (DaemonID self
                     +:+ ": is primary, cannot be on the receiving side of metasync") None);;
      mret (nodes, None)
    else
      match Decode (Body r) with
      | inl e => emit (EvInval (errorText e) None);; mret (nodes, None)
      | inr payload =>
          sm ← receiveSmap payload caller smap nodes;
          (* ExtractRMD *)
          p1 ← reads (fun p => p);
          errsR ← match extractRMD payload p1 with
                  | inl e => mret [e]
                  | inr None => mret []
                  | inr (Some (newRMD, msgRMD)) =>
                      err ← receiveRMD newRMD msgRMD; mret (option_list err)
                  end;
          p2 ← reads (fun p => p);
          errsB ← match extractBMD payload p2 with
                  | inl e => mret [e]
                  | inr None => mret []
                  | inr (Some (newBMD, msgBMD)) =>
                      err ← receiveBMD newBMD msgBMD caller; mret (option_list err)
                  end;
          p3 ← reads (fun p => p);
          let tk := extractRevokedTokenList payload p3 in
          let errs := sm.1 ++ errsR ++ errsB
                      ++ match tk with inl e => [e] | inr _ => [] end in
          (if bool_decide (errs <> []) then emit (EvInval (errsText errs) None) else mret tt);;
          mret (sm.2, match tk with inl _ => None | inr t => Some t end)
      end.

(** *** Observations, for stating properties *)

Definition invals (t : list event) : list event := filter (fun e => isInval e = true) t.

End Sync.

End Sync.

(** * Observations on bucket recovery, for stating properties *)

Module Recovery.
Import Prx.

(** The BMDs of the results that came without an error, in arrival order. *)
Definition usable (results : list bmdResult) : list bucketMD :=
  omap (fun res => match b_err res with None => Some (b_v res) | Some _ => None end) results.

(** The BMD that recoverBuckets puts: [rbmd] with its version raised. *)
Definition raised (rbmd : bucketMD) : bucketMD :=
  mkBMD (add64 (BMDVersion rbmd) 100) (BMDUUID rbmd) (Buckets rbmd).

(** The BMDs that resolveUUIDBMD counts: those of a version other than 0. *)
Definition counted (bmds : gmap string (Snode * bucketMD)) : list bucketMD :=
  filter (fun bmd => BMDVersion bmd <> 0) ((fun kv => kv.2.2) <$> map_to_list bmds).

(** What the first loop of resolveUUIDBMD has established once it has
    visited the entries [seen]: [mlist] and [maxor] have the same keys, no
    list of [mlist] is empty, the BMD that [maxor] holds for a UUID is a
    visited one of that UUID and of a version other than 0, and no visited
    BMD of that UUID and of a version other than 0 is newer. *)
Definition gathered (seen : list (string * (Snode * bucketMD)))
    (st : gmap string (list nodeRegMeta) * gmap string bucketMD) : Prop :=
  (forall u, is_Some (st.1 !! u) <-> is_Some (st.2 !! u))
  /\ (forall u lst, st.1 !! u = Some lst -> lst <> [])
  /\ (forall u b, st.2 !! u = Some b ->
        BMDUUID b = u /\ BMDVersion b <> 0 /\ exists kv, kv ∈ seen /\ kv.2.2 = b)
  /\ (forall kv, kv ∈ seen -> BMDVersion kv.2.2 <> 0 ->
        exists b, st.2 !! BMDUUID kv.2.2 = Some b /\ BMDVersion kv.2.2 <= BMDVersion b).

End Recovery.

(** * Membership: join, keepalive, unregister, and when to rebalance *)

Module Member.
Import Prx.

(** What the daemon knows about itself when the call is made. *)
Record daemon := mkDaemon {
  NodeStarted : bool;        (* p.NodeStarted() *)
  ClusterStarted : bool;     (* p.ClusterStarted() *)
  sinceStarted : Z;          (* time.Since(p.NodeStartedTime()) *)
  RebalanceEnabled : bool;   (* cmn.GCO.Get().Rebalance.Enabled *)
  DontRunTime : Z;           (* cmn.GCO.Get().Rebalance.DontRunTime *)
  revokedTokens : nat        (* len(p.authn.revokedTokenList().Tokens) *)
}.

(** [si.IsProxy()], [si.IsTarget()]: the type of the node. *)
Definition IsProxy (node : Snode) : bool := bool_decide (DaemonType node = Proxy).
Definition IsTarget (node : Snode) : bool := bool_decide (DaemonType node = Target).

(** *** canStartRebalance (lines 3686-3700) *)
Definition canStartRebalance (d : daemon) : option error :=
  if negb (RebalanceEnabled d) then
    Some (ErrMsg "rebalance is not enabled in the configuration")
  else if 0 <? DontRunTime d then
    if negb (NodeStarted d) then
      Some (ErrMsg "primary is not yet ready to start rebalance")
    else if sinceStarted d <? DontRunTime d then
      Some (ErrMsg "rebalance cannot be started before the end of the quiet time")
    else None
  else None.

Section Member.
Context {OS : Owner smapX} {OB : Owner bucketMD} {OR : Owner rebMD}.
Context {SO : SmapOps} {C : Cmn} {BO : BmdOps} {MR : MapRange} {PE : Peers}.

(** Code outside this file that the membership handlers call. *)
Class Cluster := {
  (* methods of the cluster map *)
  GetNode : smapX -> string -> option Snode;
  GetTarget : smapX -> string -> option Snode;
  CountTargets : smapX -> Z;
  delTarget : string -> smapX -> smapX;
  (* clone.putNode(nsi, nonElectable): the map after it, and what it returns
     (whether the id was there) *)
  putNode : Snode -> bool -> smapX -> smapX * bool;
  IsDuplicateURL : smapX -> Snode -> option error;
  (* smap.validateUUID(regSmap, p.si, nsi, caller) *)
  smapValidateUUID : smapX -> option smapX -> Snode -> Snode -> string -> option error;
  (* osi.Equals(nsi) *)
  Equals : Snode -> Snode -> bool;
  (* bmd.IsECUsed() *)
  IsECUsed : bucketMD -> bool;
  (* clone.inc() of the RMD *)
  inc : rebMD -> rebMD;
  (* p.owner.rmd.modify(f): the clone it returns, and the owner after it *)
  modifyRMD : (rebMD -> rebMD) -> @store rebMD OR -> rebMD * @store rebMD OR;
  (* p.call(args): the reply to a call, given how many calls the request has
     made before *)
  call : Snode -> Call.ReqArgs -> nat -> Call.callResult;
  (* res.v of a call that asked for a cluster.Snode *)
  snodeOf : Call.callResult -> Snode;
  IsErrConnectionRefused : error -> bool;
  (* cmn.MustMarshal(meta) *)
  MustMarshalRegMeta : nodeRegMeta -> string;
  (* constants of package cmn *)
  ActUnregTarget : string;
  ActUnregProxy : string;
  ActStartGFN : string;
  URLParamWhat : string;
  GetWhatSnode : string;
  (* cmn.URLPath(cmn.Version, cmn.Daemon) and below *)
  pathDaemon : string;
  pathUnregister : string;
  pathUserRegister : string
}.

Context {CL : Cluster}.

(** What a handler does besides what the trace of the proxy shows. *)
Inductive effect :=
| Called (node : Snode) (req : Call.ReqArgs)       (* p.call(args) *)
| HeardFrom (id : string) (reset : bool)           (* p.keepalive.heardFrom(id, reset) *)
| Notified (pairs : list (revs * aisMsg))          (* p.metasyncer.notify(true, pairs) *)
| TokensPair (msg : aisMsg).                       (* revsPair{tokens, aisMsg}, in the sync *)

Definition isCalled (e : effect) : bool :=
  match e with Called _ _ => true | _ => false end.

(** The calls made so far. *)
Definition made (effs : list effect) : nat := length (filter (fun e => isCalled e = true) effs).

(** [clone.staffIC()] *)
Definition staffed (m : smapX) : smapX :=
  mkSmap (SmapVersion m) (SmapUUID m) (Primary m) (Pmap m) (Tmap m) (staffIC m).

(** *** requiresRebalance (lines 3702-3726)

    The two loops over a target map stop at the first node that the other
    map does not have. *)
Fixpoint anyAbsent (m : smapX) (nodes : list (string * Snode)) : bool :=
  match nodes with
  | [] => false
  | kv :: rest => if negb (isPresent m kv.2) then true else anyAbsent m rest
  end.

Definition requiresRebalance (d : daemon) (prev cur : smapX) : prx bool :=
  match canStartRebalance d with
  | Some _ => mret false
  | None =>
      if CountTargets prev <? CountTargets cur then mret true
      else if anyAbsent prev (range 6 (Tmap cur)) then mret true
      else
        bmd ← getBMD;
        if IsECUsed bmd then
          (* If there is any target missing we must start rebalance. *)
          if anyAbsent cur (range 7 (Tmap prev)) then mret true else mret false
        else mret false
  end.

(** *** detectDaemonDuplicate (lines 3600-3619): the answer, and the call
    made; [n] calls went before. *)
Definition detectDaemonDuplicate (osi nsi : Snode) (n : nat) : bool * list effect :=
  let req := Call.mkReqArgs http.MethodGet "" pathDaemon (<[URLParamWhat := GetWhatSnode]> ∅) None in
  let res := call osi req n in
  (match Call.err res with
   | Some _ => false
   | None => negb (Equals nsi (snodeOf res))
   end, [Called osi req]).

(** *** addOrUpdateNode (lines 3204-3235) *)
Definition addOrUpdateNode (d : daemon) (nsi : Snode) (osi : option Snode) (keepalive : bool)
  : prx (bool * list effect) :=
  if keepalive then
    match osi with
    | None =>
        emit (EvLog Warning "register/keepalive: adding back to the cluster map");;
        mret (true, [])
    | Some osi =>
        if negb (Equals osi nsi) then
          let dup := detectDaemonDuplicate osi nsi 0 in
          if dup.1 then
            emit (EvLog Error "is trying to register/keepalive with duplicate ID");;
            mret (false, dup.2)
          else
            emit (EvLog Warning "renewing registration (info changed!)");;
            mret (true, dup.2)
        else mret (false, [HeardFrom (DaemonID nsi) (negb keepalive)])
    end
  else
    match osi with
    | Some osi =>
        if negb (NodeStarted d) then mret (true, [])
        else if Equals osi nsi then
          emit (EvLog Info "is already registered");;
          mret (false, [])
        else
          emit (EvLog Warning "renewing registration");;
          mret (true, [])
    | None => mret (true, [])
    end.

(** *** handleJoinKalive (lines 3076-3142)

    Lines 3086-3125, what depends on the type of the node.  [inl]: the
    function returns at this point, with that error and code. *)
Definition nodeChecks (d : daemon) (smap : smapX) (nsi : Snode) (tag : string)
    (keepalive userRegister : bool)
  : prx ((option error * Z * list effect) + list effect) :=
  let code := http.StatusBadRequest in
  self ← reads si;
  if IsProxy nsi then
    ok ← addOrUpdateNode d nsi (GetProxy smap (DaemonID nsi)) keepalive;
    if negb ok.1 then mret (inl (None, code, ok.2)) else mret (inr ok.2)
  else
    ok ← (if keepalive then addOrUpdateNode d nsi (GetTarget smap (DaemonID nsi)) keepalive
          else mret (true, []));
    if keepalive && negb ok.1 then mret (inl (None, code, ok.2))
    else if userRegister then
      (* join(node) => cluster via API:
         send the joining node the current BMD and Smap as well *)
      bmd ← getBMD;
      let body := MustMarshalRegMeta (mkRegMeta (Some smap) bmd self) in
      let req := Call.mkReqArgs http.MethodPost "" pathUserRegister ∅ (Some body) in
      let res := call nsi req (made ok.2) in
      match Call.err res with
      | Some e =>
          let err := if IsErrConnectionRefused e
                     then ErrMsg ("failed to reach " +:+ DaemonID nsi +:+ " at "
                                  +:+ PublicNet nsi)
                     else ErrMsg (DaemonID self +:+ ": failed to " +:+ tag +:+ " "
                                  +:+ DaemonID nsi +:+ ": " +:+ errorText e +:+ ", "
                                  +:+ Call.details res) in
          mret (inl (Some err, Call.status res, ok.2 ++ [Called nsi req]))
      | None => mret (inr (ok.2 ++ [Called nsi req]))
      end
    else mret (inr ok.2).

(** Returns [smap], [err], [code], [update], and the calls and heartbeats. *)
Definition handleJoinKalive (d : daemon) (nsi : Snode) (regSmap : option smapX) (tag : string)
    (keepalive userRegister nonElectable : bool)
  : prx (smapX * option error * Z * bool * list effect) :=
  let code := http.StatusBadRequest in
  smap ← getSmap;
  self ← reads si;
  if negb (isPrimary smap self) then
    mret (smap, Some (ErrMsg (DaemonID self +:+ " is not the primary: cannot " +:+ tag
                                +:+ " " +:+ DaemonID nsi)), code, false, [])
  else
    checked ← nodeChecks d smap nsi tag keepalive userRegister;
    match checked with
    | inl (err, code, effs) => mret (smap, err, code, false, effs)
    | inr effs =>
        (* check for cluster integrity errors (cie) *)
        match smapValidateUUID smap regSmap self nsi "" with
        | Some err => mret (smap, Some err, code, false, effs)
        | None =>
            (* no further checks join when cluster's starting up *)
            if negb (ClusterStarted d) then
              update (set_smap (put (putNode nsi nonElectable smap).1));;
              mret (smap, None, code, false, effs)
            else
              match IsDuplicateURL smap nsi with
              | Some err =>
                  mret (smap, Some (ErrMsg (DaemonID self +:+ ": " +:+ errorText err)),
                        code, false, effs)
              | None => mret (smap, None, code, true, effs)
              end
        end
    end.

(** *** The Smap owner's modify, with what its callbacks share

    As [smap_modify]; the callbacks of the callers below assign variables
    of the enclosing function: [pre] hands them on ([X]), and [post]
    returns what it has to show ([Y]). *)
Definition smap_modify_with {X Y : Type} (pre : smapX -> prx (X * (error + smapX)))
    (post : X -> smapX -> prx Y) : prx (X * (error + Y)) :=
  emit (EvLock OSmap);;
  clone ← getSmap;
  res ← pre clone;
  match res.2 with
  | inl err => emit (EvUnlock OSmap);; mret (res.1, inl err)
  | inr clone =>
      update (set_smap (put clone));;
      emit (EvUnlock OSmap);;
      y ← post res.1 clone;
      mret (res.1, inr y)
  end.

(** [p.owner.rmd.modify(f)] *)
Definition rmd_modify (f : rebMD -> rebMD) : prx rebMD :=
  st ← reads owner_rmd;
  update (set_rmd (fun _ => (modifyRMD f st).2));;
  mret (modifyRMD f st).1.

(** *** updateAndDistribute (lines 3144-3202)

    The result lists the notification sent and, when revoked tokens ride
    the sync, their pair (which [revs] has no constructor for). *)
Definition updateAndDistribute (d : daemon) (nsi : Snode) (msg : ActionMsg)
    (nonElectable : bool) : prx (list effect) :=
  res ← smap_modify_with
    (fun clone =>
       smap ← getSmap;
       self ← reads si;
       if negb (isPrimary smap self) then
         mret ((smap, false, []),
               inl (ErrMsg (DaemonID self +:+ " is not primary: cannot add " +:+ DaemonID nsi)))
       else
         let added := putNode nsi nonElectable clone in
         let notes := if IsTarget nsi then
                        (* Notify targets that they need to set up GFN *)
                        [Notified [(RevSmap added.1,
                                    newAisMsg (mkAct ActStartGFN "" "") (Some added.1) None)]]
                      else [] in
         mret ((smap, added.2, notes), inr (staffed added.1)))
    (fun shared clone =>
       let smap := shared.1.1 in
       let exists_ := shared.1.2 in
       bmd ← getBMD;
       (* metasync *)
       let aisMsg := newAisMsg msg (Some clone) (Some bmd) in
       let pairs := [(RevSmap clone, aisMsg); (RevBMD bmd, aisMsg)] in
       pairs ← (if IsTarget nsi then
                  (* Trigger rebalance (in case target with given ID already
                     exists we must trigger the rebalance and assume it is a
                     new target with the same ID). *)
                  reb ← (if exists_ : bool then mret true
                         else requiresRebalance d smap clone);
                  if reb : bool then
                    rmd ← rmd_modify (fun clone =>
                                        inc (mkRMD (RMDVersion clone) [DaemonID nsi]));
                    mret (pairs ++ [(RevRMD rmd, aisMsg)])
                  else mret pairs
                else
                  (* Send RMD to proxies to make sure that they have the
                     latest one - newly joined can become primary in a second. *)
                  rmd ← getRMD;
                  mret (pairs ++ [(RevRMD rmd, aisMsg)]));
       emit (EvSync pairs);;
       syncNewICOwners smap clone;;
       mret (if bool_decide (0 < revokedTokens d)%nat then [TokensPair aisMsg] else []));
  match res.2 with
  | inl err => emit (EvLog Error "FATAL");; mret res.1.2
  | inr tokens => mret (res.1.2 ++ tokens)
  end.

(** *** unregisterNode (lines 3287-3342)

    Lines 3309-3317: up to [retries] calls, the first of them the [i]-th of
    the request; the pause after a failed call is not shown. *)
Fixpoint tellLeaving (node : Snode) (req : Call.ReqArgs) (retries i : nat) : prx (list effect) :=
  match retries with
  | O => mret []
  | S n =>
      let res := call node req i in
      match Call.err res with
      | None => mret [Called node req]
      | Some _ =>
          emit (EvLog Warning "node that is being unregistered failed to respond back");;
          rest ← tellLeaving node req n (S i);
          mret (Called node req :: rest)
      end
  end.

(** Returns [status] and [err], the clone as the function leaves it, and
    the calls made. *)
Definition unregisterNode (d : daemon) (clone : smapX) (sid : string)
  : prx (Z * option error * smapX * list effect) :=
  smap ← getSmap;
  match GetNode smap sid with
  | None =>
      mret (http.StatusNotFound, Some (errNodeNotFound "cannot unregister" sid), clone, [])
  | Some node =>
      (* Synchronously call the node to inform it that it no longer is part
         of the cluster. *)
      let req := Call.mkReqArgs http.MethodDelete "" pathUnregister ∅ None in
      calls ← tellLeaving node req 3 0;
      (* NOTE: "failure to respond back" may have legitimate reasons -
         proceeding even when all retries fail *)
      match GetNode clone sid with
      | None =>
          mret (http.StatusNotFound, Some (errNodeNotFound "failed to unregister" sid),
                clone, calls)
      | Some node =>
          clone ← (if IsProxy node then
                     emit (EvLog Info "unregistered proxy");;
                     mret (delProxy sid clone)
                   else
                     emit (EvLog Info "unregistered target");;
                     mret (delTarget sid clone));
          let clone := staffed clone in
          if negb (NodeStarted d) then mret (0, None, clone, calls)
          else
            self ← reads si;
            if negb (isPrimary clone self) then
              mret (http.StatusInternalServerError,
                    Some (ErrMsg (DaemonID self +:+ ": is not a primary")), clone, calls)
            else mret (0, None, clone, calls)
      end
  end.

(** *** httpcludel (lines 3238-3285)

    [apiItems] is what [checkRESTItems(w, r, 1, false, Version, Cluster,
    Daemon)] returns.  The result lists the calls made. *)
Definition httpcludel (d : daemon) (apiItems : error + list string) (r : request)
  : prx (list effect) :=
  match apiItems with
  | inl _ => mret []
  | inr items =>
      match items !! 0%nat with
      | None => panic "index out of range"
      | Some sid =>
          smap ← getSmap;
          match GetNode smap sid with
          | None =>
              emit (EvInval (errorText (errNodeNotFound "cannot remove" sid))
                      (Some http.StatusNotFound));;
              mret []
          | Some node =>
              let msg := mkAct (if IsProxy node then ActUnregProxy else ActUnregTarget) "" "" in
              forf ← forwardCP r (Some msg) sid None;
              if forf : bool then mret []
              else
                res ← smap_modify_with
                  (fun clone =>
                     smap ← getSmap;
                     out ← unregisterNode d clone sid;
                     mret ((smap, out.1.1.1, out.2),
                           match out.1.1.2 with
                           | Some err => inl err
                           | None => inr out.1.2
                           end))
                  (fun shared clone =>
                     let smap := shared.1.1 in
                     let aisMsg := newAisMsg msg (Some clone) None in
                     reb ← requiresRebalance d smap clone;
                     if reb : bool then
                       rmd ← rmd_modify inc;
                       emit (EvSync [(RevSmap clone, aisMsg); (RevRMD rmd, aisMsg)])
                     else emit (EvSync [(RevSmap clone, aisMsg)]));
                match res.2 with
                | inl err =>
                    emit (EvInval (errorText err) (Some res.1.1.2));;
                    mret res.1.2
                | inr _ => mret res.1.2
                end
          end
      end
  end.

(** *** Observations, for stating properties *)

(** The nodes of a target map. *)
Definition targetsOf (m : smapX) : list Snode := (map_to_list (Tmap m)).*2.

(** How many attempts it takes to tell the node, at most three: one more
    than the failed attempts before the first that succeeds. *)
Fixpoint attempts (node : Snode) (req : Call.ReqArgs) (retries i : nat) : nat :=
  match retries with
  | O => O
  | S n =>
      match Call.err (call node req i) with
      | None => 1
      | Some _ => S (attempts node req n (S i))
      end
  end.

Definition unregisterReq : Call.ReqArgs :=
  Call.mkReqArgs http.MethodDelete "" pathUnregister ∅ None.

(** The call of detectDaemonDuplicate. *)
Definition snodeReq : Call.ReqArgs :=
  Call.mkReqArgs http.MethodGet "" pathDaemon (<[URLParamWhat := GetWhatSnode]> ∅) None.

(** The node of that id and type that a map has. *)
Definition known (smap : smapX) (nsi : Snode) : option Snode :=
  if IsProxy nsi then GetProxy smap (DaemonID nsi) else GetTarget smap (DaemonID nsi).

Definition isWarning (e : event) : bool :=
  match e with EvLog Warning _ => true | _ => false end.

(** Events that change nothing and answer nothing: log lines and the
    ownership tables sent to new members of the council. *)
Definition isQuiet (e : event) : bool :=
  match e with EvLog _ _ | EvSendOwnershipTbl _ => true | _ => false end.

(** What requiresRebalance answers in a state. *)
Definition rebalances (d : daemon) (prev cur : smapX) (p : proxyrunner) : bool :=
  match value (requiresRebalance d prev cur p) with Ret b => b | Panic _ => false end.

End Member.

End Member.

(** * The reverse-proxy fabric, and stopping *)

Module Reverse.
Import Prx.

Section Reverse.
Context {OS : Owner smapX} {OB : Owner bucketMD} {OR : Owner rebMD}.
Context {SO : SmapOps} {C : Cmn} {BO : BmdOps} {MR : MapRange} {PE : Peers}.
Context {RX : Sync.Receiver} {CL : Member.Cluster}.

(** Code outside this file that the reverse proxies are made with. *)
Class Fabric := {
  URL : Type;                                     (* url.URL *)
  urlParse : string -> error + URL;               (* url.Parse *)
  (* httputil.NewSingleHostReverseProxy(parsedURL), with the transport of
     the configuration *)
  NewSingleHostReverseProxy : URL -> Sync.ReverseProxy;
  (* cmn.URLPath(cmn.Version, item) *)
  versionPath : string -> string
}.

Context {FB : Fabric}.

(** [rproxy.ServeHTTP(w, r)] *)
Definition served : Type := Sync.ReverseProxy * request.

(** *** reverseRequest (lines 1799-1818): [p.rproxy.nodes] after the call,
    and who serves the request. *)
Definition reverseRequest (r : request) (nodeID : string) (parsedURL : URL)
    (nodes : gmap string Sync.ReverseProxy) : gmap string Sync.ReverseProxy * served :=
  match nodes !! nodeID with
  | Some rproxy => (nodes, (rproxy, r))
  | None =>
      let rproxy := NewSingleHostReverseProxy parsedURL in
      (<[nodeID := rproxy]> nodes, (rproxy, r))
  end.

(** *** reverseNodeRequest (lines 1793-1797) *)
Definition reverseNodeRequest (r : request) (node : Snode)
    (nodes : gmap string Sync.ReverseProxy)
  : prx (gmap string Sync.ReverseProxy * option served) :=
  match urlParse (PublicNet node) with
  | inl _ => panic "AssertNoErr"
  | inr parsedURL =>
      let out := reverseRequest r (DaemonID node) parsedURL nodes in
      mret (out.1, Some out.2)
  end.

(** *** reverseHandler (lines 2225-2264)

    [apiItems] is what [checkRESTItems(w, r, 1, false, Version, Reverse)]
    returns; [nodeID] and [nodeURL] are the request's headers of the node
    id and of the node URL. *)
Definition reverseHandler (apiItems : error + list string) (r : request)
    (nodeID nodeURL : string) (nodes : gmap string Sync.ReverseProxy)
  : prx (gmap string Sync.ReverseProxy * option served) :=
  match apiItems with
  | inl _ => mret (nodes, None)
  | inr items =>
      match items !! 0%nat with
      | None => panic "index out of range"
      | Some item0 =>
          (* rewrite URL path (removing cmn.Reverse) *)
          let r := mkRequest (Method r) (versionPath item0) (RawQuery r) (Query r)
                     (RemoteAddr r) (Body r) (ContentLength r) in
          if bool_decide (nodeID = "") then
            emit (EvInval "missing node ID" None);;
            mret (nodes, None)
          else
            smap ← getSmap;
            match Member.GetNode smap nodeID with
            | Some node => reverseNodeRequest r node nodes
            | None =>
                (* Node not found but maybe we could contact it directly. *)
                if bool_decide (nodeURL = "") then
                  emit (EvInval (errorText (errNodeNotFound "cannot rproxy" nodeID)) None);;
                  mret (nodes, None)
                else
                  match urlParse nodeURL with
                  | inl _ =>
                      emit (EvInval ("invalid URL " +:+ nodeURL +:+ " for node " +:+ nodeID)
                              None);;
                      mret (nodes, None)
                  | inr parsedURL =>
                      let out := reverseRequest r nodeID parsedURL nodes in
                      mret (out.1, Some out.2)
                  end
            end
      end
  end.

End Reverse.

End Reverse.

Module Shutdown.
Import Prx.

Section Shutdown.
Context {OS : Owner smapX} {OB : Owner bucketMD} {OR : Owner rebMD}.
Context {SO : SmapOps} {C : Cmn} {BO : BmdOps} {MR : MapRange} {PE : Peers}.

(** What stopping does besides what the trace of the proxy shows. *)
Inductive effect :=
| AbortAll                                            (* xaction.Registry.AbortAll() *)
| Sleep                                               (* time.Sleep(time.Second) *)
| Called (node : option Snode) (req : Call.ReqArgs)   (* p.call(args) *)
| StopRunner (err : option error).                    (* p.httprunner.stop(err) *)

(** Code outside this file. *)
Class Lifecycle := {
  (* p.call(args); the node is smap.Primary, a pointer *)
  call : option Snode -> Call.ReqArgs -> Call.callResult;
  (* cmn.URLPath(cmn.Version, cmn.Cluster, cmn.Daemon, id) *)
  pathClusterDaemon : string -> string
}.

Context {LC : Lifecycle}.

(** *** unregisterSelf (lines 531-543): status and error, and the call. *)
Definition unregisterSelf : prx (Z * option error * list effect) :=
  smap ← getSmap;
  self ← reads si;
  let req := Call.mkReqArgs http.MethodDelete "" (pathClusterDaemon (DaemonID self)) ∅ None in
  let res := call (Primary smap) req in
  mret (Call.status res, Call.err res, [Called (Primary smap) req]).

(** *** Stop (lines 546-577)

    Lines 558-566.  Other requests change the map while the primary waits:
    [seen i] is the version that the reading after the [i]-th pause finds.
    [n] rounds are left, [version] is the one read last. *)
Fixpoint settle (seen : nat -> Z) (version : Z) (n i : nat) : list effect :=
  match n with
  | O => []
  | S n' =>
      let v := seen i in
      if bool_decide (version = v) then [Sleep]
      else Sleep :: settle seen v n' (S i)
  end.

Definition Stop (seen : nat -> Z) (err : option error) : prx (list effect) :=
  smap ← getSmap;
  self ← reads si;
  let isPrimary := isPrimary smap self in
  emit (EvLog Info "Stopping");;
  let waited := if isPrimary then
                  (* give targets and non primary proxies some time to unregister *)
                  settle seen (SmapVersion smap) 20 0
                else [] in
  gone ← (if negb isPrimary then
            res ← unregisterSelf;
            match res.1.2 with
            | Some _ => emit (EvLog Warning "Failed to unregister when terminating");; mret res.2
            | None => mret res.2
            end
          else mret []);
  mret ([AbortAll] ++ waited ++ gone ++ [StopRunner err]).

(** *** Observations, for stating properties *)

Definition isSleep (e : effect) : bool :=
  match e with Sleep => true | _ => false end.

Definition pauses (effs : list effect) : nat :=
  length (filter (fun e => isSleep e = true) effs).

Definition calls (effs : list effect) : list (option Snode * Call.ReqArgs) :=
  omap (fun e => match e with Called node req => Some (node, req) | _ => None end) effs.

End Shutdown.

End Shutdown.

(** * Sample inputs *)

Module DlSamples.
Import Dl.

#[local] Existing Instance canonicalRange.

Definition T1 : Snode := mkSnode "t1" Target "http://t1:8081" "http://t1:9081" "http://t1:10081".
Definition T2 : Snode := mkSnode "t2" Target "http://t2:8081" "http://t2:9081" "http://t2:10081".
Definition T3 : Snode := mkSnode "t3" Target "http://t3:8081" "http://t3:9081" "http://t3:10081".

Definition ok (t : Snode) (b : string) : callResult := mkRes t 200 (Some b) None.
Definition notFound (t : Snode) : callResult := mkRes t 404 None (Some (ErrMsg "not found")).
Definition failed (t : Snode) : callResult := mkRes t 500 None (Some (ErrMsg "internal")).

Definition statusMsg : DlAdminBody := mkBody "dl-1" false.
Definition listMsg : DlAdminBody := mkBody "" false.

Definition listenerWorld : world (H := tally) :=
  {| queryStats := fun id =>
       if bool_decide (id = "dl-1")
       then Some [("t1", IsStatus (H := tally) 2%nat); ("t2", IsOther (H := tally) "|||")]
       else None;
     bcastGroup := fun _ => [failed T1] |}.

Definition emptyCluster : world (H := tally) :=
  {| queryStats := fun _ => None; bcastGroup := fun _ => [] |}.

End DlSamples.

Module PrxSamples.
Import Prx.

#[local] Existing Instance cell.
#[local] Existing Instance Ref.smapOps.
#[local] Existing Instance Ref.cmn.
#[local] Existing Instance Ref.bmdOps.
#[local] Existing Instance canonicalRange.
#[local] Existing Instance Ref.peers.

(** The scenario of C7: three targets and their BMDs. *)
Definition okBMD (t : Snode) (bmd : bucketMD) : bmdResult := mkBmdResult t 200 None bmd.

Definition threeBMDs (b1 b2 b3 : gmap string BucketProps) : list bmdResult :=
  [okBMD Ref.T1 (mkBMD 3 "A" b1); okBMD Ref.T2 (mkBMD 5 "A" b2); okBMD Ref.T3 (mkBMD 7 "B" b3)].

Definition threeMap (b1 b2 b3 : gmap string BucketProps) : gmap string (Snode * bucketMD) :=
  <["t1" := (Ref.T1, mkBMD 3 "A" b1)]>
    (<["t2" := (Ref.T2, mkBMD 5 "A" b2)]> (<["t3" := (Ref.T3, mkBMD 7 "B" b3)]> ∅)).

(** A non-primary proxy (P2 in a cluster whose primary is P1) and the primary. *)
Definition p2 := Ref.proxy Ref.P2 Ref.smap0 Ref.bmd0 Ref.rmd0.
Definition p1 := Ref.proxy Ref.P1 Ref.smap0 Ref.bmd0 Ref.rmd0.

Definition noMsg : aisMsg := mkAisMsg "" None None.


(** P1 hands over to P2 while P3 is down. *)
Definition p3 := Ref.proxy Ref.P3 Ref.smap0 Ref.bmd0 Ref.rmd0.
Definition cluster : list peer :=
  [PeerProxy false p3; PeerProxy true p2; PeerTarget Ref.T1 (fun _ => None)].
Definition putPrimary : request :=
  mkRequest "PUT" "/v1/cluster/proxy/p2" "" ∅ "10.0.0.7:51234" "" 0.

Definition recoverMsg : ActionMsg := mkAct "recover-buckets" "" "".
Definition recoverReq : request :=
  mkRequest "POST" "/v1/buckets" "" ∅ "10.0.0.7:51234" "" 0.
Definition recoverForce : request :=
  mkRequest "POST" "/v1/buckets" "force=true" (<["force" := "true"]> ∅) "10.0.0.7:51234" "" 0.
Definition arrival : list bmdResult :=
  [okBMD Ref.T3 (mkBMD 7 "B" ∅); okBMD Ref.T1 (mkBMD 3 "A" ∅); okBMD Ref.T2 (mkBMD 5 "A" ∅)].

End PrxSamples.

Module ObjSamples.
Import Prx Obj.

#[local] Existing Instance refNet.
#[local] Existing Instance refChecks.
#[local] Existing Instance Ref.cmn.

(** The proxy p1, whose local network is 10.0.0.0/8, and a local client. *)
Definition gw : gateway := mkGateway Ref.P1 (Some "10.").

Definition putObject : request :=
  mkRequest "PUT" "/v1/objects/b/o" "provider=ais" (<["provider" := "ais"]> ∅)
    "10.0.0.7:51234" "payload" 7.

Definition headObject : request :=
  mkRequest "HEAD" "/v1/objects/b/o" "check-exists=true" (<["check-exists" := "true"]> ∅)
    "10.0.0.7:51234" "" 0.

End ObjSamples.

Module DlFrontSamples.
Import Prx DlFront.

(** A front end whose JSON is read as it stands: a download body is its
    type, the base its progress interval; durations are in seconds. *)
Definition front : Front := {|
  DlBody := string;
  DlBase := string;
  checkPermissions := fun _ => None;
  ReadJSON := fun r => Some (Dl.mkBody (Get (Query r) "id") false);
  Validate := fun payload requireID =>
    if requireID && bool_decide (Dl.ID payload = "")
    then Some (ErrMsg "missing id") else None;
  MatchRESTItems := fun path =>
    if String.prefix "/v1/download/" path
    then inr [String.substring 13 (String.length path - 13) path]
    else inl (ErrMsg "too few path items");
  Abort := "abort";
  Remove := "remove";
  redirectToIC := fun _ => false;
  checkRESTItems := fun _ => inr [];
  ReadAll := fun r => inr (Body r);
  UnmarshalBody := fun s => if bool_decide (s = "") then inl (ErrJSON "empty") else inr s;
  UnmarshalBase := fun _ => inr "";
  initAndTry := fun _ _ _ => None;
  ProgressInterval := fun base => base;
  DlType := fun dlb => dlb;
  ParseDuration := fun s => if bool_decide (s = "10s") then inr 10 else inl (ErrMsg "bad duration");
  DownloadProgressInterval := 10
|}.

Definition startReq : request :=
  mkRequest "POST" "/v1/download" "" ∅ "10.0.0.7:51234" "single" 6.

Definition removeReq : request :=
  mkRequest "DELETE" "/v1/download/remove" "id=dl-1" (<["id" := "dl-1"]> ∅) "10.0.0.7:51234" "" 0.

Definition accepted (t : Snode) : Call.callResult := Call.mkResult t 200 None None "".
Definition refused (t : Snode) : Call.callResult :=
  Call.mkResult t 507 None (Some (ErrMsg "out of space")) "".

End DlFrontSamples.

Module SyncSamples.
Import Prx Sync PrxSamples.

#[local] Existing Instance cell.
#[local] Existing Instance Ref.smapOps.
#[local] Existing Instance Ref.cmn.
#[local] Existing Instance Ref.bmdOps.
#[local] Existing Instance canonicalRange.
#[local] Existing Instance Ref.peers.

(** Every peer is up and goes along with the change of primary to P2. *)
Definition willing : list peer := [PeerProxy true p3; PeerProxy true p2].

(** A receiving side to run the code on.  A metasync payload carries at
    most an RMD, whose version is written in unary in the body; the Smap
    owner synchronizes as section 4.A of the spec describes it. *)
Definition receiver : Receiver := {|
  Payload := nat;
  Tokens := list string;
  ReverseProxy := string;
  synchronize := fun incoming lesserIsErr (st : @store smapX (cell smapX)) =>
    match incoming with
    | None => (Some (ErrMsg "no Smap"), st)
    | Some m =>
        if SmapVersion st <? SmapVersion m then (None, m)
        else if lesserIsErr && (SmapVersion m <? SmapVersion st)
        then (Some (ErrMsg "attempt to downgrade"), st)
        else (None, st)
    end;
  Decode := fun body =>
    if bool_decide (body = "") then inl (ErrJSON "unexpected end of input")
    else inr (String.length body);
  extractSmap := fun _ _ _ => inr None;
  extractRMD := fun n _ => inr (Some (mkRMD (Z.of_nat n) [], noMsg));
  extractBMD := fun _ _ => inr None;
  extractRevokedTokenList := fun _ _ => inr [];
  containsID := fun m id => bool_decide (is_Some (Pmap m !! id) \/ is_Some (Tmap m !! id));
  UnmarshalRegMeta := fun _ => inl (ErrJSON "unexpected end of input");
  ActRegTarget := "register-target";
  join := fun _ _ => Call.mkResult Ref.P1 200 None None "";
  httprunner_sendKeepalive := fun _ => (200, None)
|}.

(** A metasync PUT that carries an RMD of version 7. *)
Definition putRMD7 : request :=
  mkRequest "PUT" "/v1/metasync" "" ∅ "10.0.0.2:51234" "|||||||" 7.

End SyncSamples.

Module RecoverySamples.
Import Prx PrxSamples.

(** Two targets hold the BMD of cluster A, a third one does not answer. *)
Definition unreachable (t : Snode) : bmdResult :=
  mkBmdResult t 0 (Some (ErrMsg "connection refused")) (mkBMD 0 "" ∅).

Definition agreeing : list bmdResult :=
  [okBMD Ref.T1 (mkBMD 3 "A" ∅); unreachable Ref.T3; okBMD Ref.T2 (mkBMD 5 "A" ∅)].

End RecoverySamples.

Module MemberSamples.
Import Prx PrxSamples Member.

#[local] Existing Instance cell.
#[local] Existing Instance Ref.smapOps.
#[local] Existing Instance Ref.cmn.
#[local] Existing Instance Ref.bmdOps.
#[local] Existing Instance canonicalRange.
#[local] Existing Instance Ref.peers.

(** A cluster whose nodes answer the third call of a request, and where
    nobody uses erasure coding. *)
Definition cluster : Cluster := {|
  GetNode := fun m id =>
    match Tmap m !! id with Some node => Some node | None => Pmap m !! id end;
  GetTarget := fun m id => Tmap m !! id;
  CountTargets := fun m => Z.of_nat (size (Tmap m));
  delTarget := fun id m =>
    mkSmap (SmapVersion m) (SmapUUID m) (Primary m) (Pmap m) (delete id (Tmap m)) (IC m);
  putNode := fun nsi _ m =>
    match DaemonType nsi with
    | Proxy =>
        (mkSmap (SmapVersion m) (SmapUUID m) (Primary m) (<[DaemonID nsi := nsi]> (Pmap m))
           (Tmap m) (IC m),
         bool_decide (is_Some (Pmap m !! DaemonID nsi)))
    | Target =>
        (mkSmap (SmapVersion m) (SmapUUID m) (Primary m) (Pmap m)
           (<[DaemonID nsi := nsi]> (Tmap m)) (IC m),
         bool_decide (is_Some (Tmap m !! DaemonID nsi)))
    end;
  IsDuplicateURL := fun _ _ => None;
  smapValidateUUID := fun _ _ _ _ _ => None;
  Equals := fun a b => bool_decide (a = b);
  IsECUsed := fun _ => false;
  inc := fun rmd => mkRMD (add64 (RMDVersion rmd) 1) (TargetIDs rmd);
  modifyRMD := fun f st => (f st, f st);
  call := fun node _ n =>
    if (n <? 2)%nat then Call.mkResult node 0 None (Some (ErrMsg "i/o timeout")) ""
    else Call.mkResult node 200 None None "";
  snodeOf := Call.si;
  IsErrConnectionRefused := fun _ => false;
  MustMarshalRegMeta := fun _ => "{}";
  ActUnregTarget := "unregtarget";
  ActUnregProxy := "unregproxy";
  ActStartGFN := "metasync-start-gfn";
  URLParamWhat := "what";
  GetWhatSnode := "snode";
  pathDaemon := "/v1/daemon";
  pathUnregister := "/v1/daemon/unregister";
  pathUserRegister := "/v1/daemon/register"
|}.

(** A node in a cluster that has started; rebalance is enabled. *)
Definition running : daemon := mkDaemon true true 1000 true 0 0.

Definition deleteT1 : request :=
  mkRequest "DELETE" "/v1/cluster/daemon/t1" "" ∅ "10.0.0.7:51234" "" 0.

End MemberSamples.

(* ================================================================== *)
(** * Properties *)
(* ================================================================== *)

Module DlFacts.
Import Dl DlSamples.

Section BroadcastFacts.
Context `{Downloader} {MR : MapRange}.

Lemma scanResults_abort pre r post valid n e :
  Forall tolerated pre ->
  status r <> http.StatusOK -> status r <> http.StatusNotFound ->
  scanResults (pre ++ r :: post) valid n e = inl (None, status r, err r).
Proof.
  intros Hpre Hok Hnf. revert valid n e.
  induction Hpre as [|x pre [Hx|Hx] _ IH]; intros valid n e; simpl.
  - destruct (Z.eqb_spec (status r) http.StatusOK); [contradiction|].
    destruct (Z.eqb_spec (status r) http.StatusNotFound); [contradiction|]. reflexivity.
  - rewrite Hx. simpl. apply IH.
  - rewrite Hx. simpl. apply IH.
Qed.

Lemma scanResults_all results valid n e :
  Forall tolerated results ->
  scanResults results valid n e
  = inr (valid ++ filter (fun r => is200 r = true) results,
         (n + count404 results)%nat, lastNotFoundErr results e).
Proof.
  intros Hall. revert valid n e.
  induction Hall as [|x rest [Hx|Hx] _ IH]; intros valid n e; simpl.
  - rewrite app_nil_r, Nat.add_0_r. reflexivity.
  - rewrite Hx. simpl. rewrite IH. unfold count404, is200.
    rewrite !filter_cons, Hx. simpl.
    rewrite <- app_assoc. reflexivity.
  - rewrite Hx. simpl. rewrite IH. unfold count404, is200.
    rewrite !filter_cons, Hx. simpl.
    rewrite Nat.add_succ_r. reflexivity.
Qed.

Lemma count404_le results : (count404 results <= length results)%nat.
Proof. unfold count404. apply length_filter. Qed.

Lemma count404_all results :
  count404 results = length results <-> Forall (fun r => status r = http.StatusNotFound) results.
Proof.
  unfold count404. induction results as [|x rest IH]; simpl.
  - split; [constructor | reflexivity].
  - rewrite filter_cons. destruct (decide (status x = http.StatusNotFound)) as [Hx|Hx]; simpl.
    + split.
      * intros Hl. constructor; [exact Hx|]. apply IH. lia.
      * intros Hf. inversion Hf; subst. f_equal. apply IH. assumption.
    + split.
      * intros Hl. pose proof (length_filter (fun r => status r = http.StatusNotFound) rest). lia.
      * intros Hf. inversion Hf; subst. contradiction.
Qed.

(** After a loop that did not abort, the switch sees exactly the 200
    replies, in arrival order, unless all replies were 404. *)
Lemma collect_tolerated method msg results :
  results <> [] -> Forall tolerated results ->
  collect method msg results
  = if bool_decide (Forall (fun r => status r = http.StatusNotFound) results)
    then Ret (None, http.StatusNotFound, lastNotFoundErr results None)
    else respond method msg (filter (fun r => is200 r = true) results).
Proof.
  intros Hne Hall. unfold collect.
  rewrite bool_decide_eq_false_2 by (destruct results; [contradiction | discriminate]).
  rewrite scanResults_all by assumption. simpl.
  destruct (decide (Forall (fun r => status r = http.StatusNotFound) results)) as [Hf|Hf].
  - rewrite (bool_decide_eq_true_2 _ Hf).
    rewrite bool_decide_eq_true_2 by (apply count404_all; assumption). reflexivity.
  - rewrite (bool_decide_eq_false_2 _ Hf).
    rewrite bool_decide_eq_false_2 by (rewrite count404_all; assumption). reflexivity.
Qed.

Lemma statusOf_fold valid sts acc :
  Forall2 (fun r st => UnmarshalStatus (bytes r) = inr st) valid sts ->
  statusOf valid acc = inr (fold_left StatusAggregate sts acc).
Proof.
  intros Hd. revert acc. induction Hd as [|r st valid sts Hr _ IH]; intros acc; simpl.
  - reflexivity.
  - rewrite Hr. apply IH.
Qed.

Lemma listJobs_fold valid maps acc :
  Forall2 (fun r m => UnmarshalJobs (bytes r) = inr m) valid maps ->
  listJobs valid acc = inr (fold_left (fun agg m => mergeJobs m agg) maps acc).
Proof.
  intros Hd. revert acc. induction Hd as [|r m valid maps Hr _ IH]; intros acc; simpl.
  - reflexivity.
  - rewrite Hr. apply IH.
Qed.

Lemma rangeStep_fold stats sts acc :
  Forall2 (fun kv st => asStatus kv.2 = Some st) stats sts ->
  fold_left rangeStep stats (Ret acc) = Ret (fold_left StatusAggregate sts acc).
Proof.
  intros Hd. revert acc. induction Hd as [|kv st stats sts Hkv _ IH]; intros acc; simpl.
  - reflexivity.
  - destruct kv as [k [s|x]]; simpl in *.
    + injection Hkv as ->. apply IH.
    + rewrite Hkv. apply IH.
Qed.

(** C1 (as amended).  Replies are taken in arrival order.  (1) The first
    reply whose status is neither 200 nor 404 ends the loop and its status
    and error are returned.  (2) When at least one target replied and every
    reply is 404 the result is 404.  (3) Otherwise only the 200 replies
    count: for GET they are aggregated (per-target statuses by
    DlStatusResp.Aggregate when an id is given, per-target job maps merged
    with DlJobInfo.Aggregate when it is not), provided their bodies decode;
    for DELETE the first 200 reply is returned as it is. *)
Theorem broadcast_error_policy (method : string) (msg : DlAdminBody) (results : list callResult) :
  (forall pre r post,
      results = pre ++ r :: post -> Forall tolerated pre ->
      status r <> http.StatusOK -> status r <> http.StatusNotFound ->
      collect method msg results = Ret (None, status r, err r))
  /\ (results <> [] -> Forall (fun r => status r = http.StatusNotFound) results ->
      collect method msg results
      = Ret (None, http.StatusNotFound, lastNotFoundErr results None))
  /\ (Forall tolerated results -> Exists (fun r => status r = http.StatusOK) results ->
      let valid := filter (fun r => is200 r = true) results in
      (method = http.MethodGet -> ID msg <> "" ->
       forall sts, Forall2 (fun r st => UnmarshalStatus (bytes r) = inr st) valid sts ->
         collect method msg results
         = Ret (Some (MarshalStatus (fold_left StatusAggregate sts None)), http.StatusOK, None))
      /\ (method = http.MethodGet -> ID msg = "" ->
          forall maps, Forall2 (fun r m => UnmarshalJobs (bytes r) = inr m) valid maps ->
            collect method msg results
            = Ret (Some (MarshalJobs
                           (range 5 (fold_left (fun agg m => mergeJobs m agg) maps ∅)).*2),
                   http.StatusOK, None))
      /\ (method = http.MethodDelete ->
          exists r rest, valid = r :: rest
                         /\ collect method msg results = Ret (bytes r, http.StatusOK, err r))).
Proof.
  split; [|split].
  - intros pre r post -> Hpre Hok Hnf. unfold collect.
    rewrite bool_decide_eq_false_2 by (destruct pre; discriminate).
    rewrite scanResults_abort by assumption. reflexivity.
  - intros Hne Hall. rewrite collect_tolerated.
    + rewrite bool_decide_eq_true_2 by assumption. reflexivity.
    + assumption.
    + eapply Forall_impl; [exact Hall|]. intros r Hr. right. exact Hr.
  - intros Htol Hex valid.
    assert (Hne : results <> []) by (destruct Hex; discriminate).
    assert (Hnot : ~ Forall (fun r => status r = http.StatusNotFound) results).
    { intros Hf. apply Exists_exists in Hex as (r & Hin & Hr).
      rewrite Forall_forall in Hf. specialize (Hf r Hin).
      rewrite Hr in Hf. discriminate. }
    assert (Hc : collect method msg results = respond method msg valid).
    { rewrite collect_tolerated by assumption.
      rewrite bool_decide_eq_false_2 by assumption. reflexivity. }
    rewrite Hc. unfold respond. split; [|split].
    + intros -> Hid sts Hd.
      rewrite bool_decide_eq_true_2 by reflexivity.
      rewrite bool_decide_eq_false_2 by assumption.
      rewrite (statusOf_fold _ _ _ Hd). reflexivity.
    + intros -> Hid maps Hd.
      rewrite bool_decide_eq_true_2 by reflexivity.
      rewrite bool_decide_eq_true_2 by assumption.
      rewrite (listJobs_fold _ _ _ Hd). reflexivity.
    + intros ->.
      rewrite bool_decide_eq_false_2 by discriminate.
      rewrite bool_decide_eq_true_2 by reflexivity.
      assert (Hv : exists r, r ∈ valid).
      { apply Exists_exists in Hex as (r & Hin & Hr). exists r.
        apply list_elem_of_filter. split; [|exact Hin].
        unfold is200. apply bool_decide_eq_true_2. exact Hr. }
      destruct valid as [|r rest] eqn:Ev.
      * destruct Hv as [r Hr]. inversion Hr.
      * exists r, rest. split; [reflexivity|].
        assert (Hr : r ∈ valid) by (rewrite Ev; left).
        apply list_elem_of_filter in Hr as [Hr _].
        unfold is200 in Hr. apply bool_decide_eq_true_1 in Hr. rewrite Hr. reflexivity.
Qed.

(** C2.  A GET with a non-empty id and only_active_tasks set, for an id
    the proxy holds a listener of, is answered with status 200 and the
    marshalled aggregate of the listener's per-target snapshots, and no
    broadcast is issued. *)
Theorem listener_answers_locally (w : world) (path : string) (msg : DlAdminBody)
    (stats : list (string * snapshot)) (sts : list DlStatusResp) :
  ID msg <> "" -> OnlyActiveTasks msg = true ->
  queryStats w (ID msg) = Some stats ->
  Forall2 (fun kv st => asStatus kv.2 = Some st) stats sts ->
  broadcastDownloadAdminRequest w http.MethodGet path msg
  = (Ret (Some (MarshalStatus (fold_left StatusAggregate sts None)), http.StatusOK, None), []).
Proof.
  intros Hid Hact Hq Hd. unfold broadcastDownloadAdminRequest, fromListener.
  rewrite bool_decide_eq_true_2 by assumption.
  rewrite bool_decide_eq_true_2 by reflexivity.
  rewrite Hact, Hq. simpl.
  rewrite (rangeStep_fold _ _ _ Hd). reflexivity.
Qed.

(** C10.  When the request is broadcast and the broadcast yields no result
    at all, the function returns status 400 with the no-nodes error for
    targets. *)
Theorem no_results_is_bad_request (w : world) (method path : string) (msg : DlAdminBody) :
  let req := {| Method := method; Path := path; Body := MarshalMsg msg |} in
  (broadcastDownloadAdminRequest w method path msg).2 = [req] ->
  bcastGroup w req = [] ->
  (broadcastDownloadAdminRequest w method path msg).1
  = Ret (None, http.StatusBadRequest, Some (ErrNoNodes Target)).
Proof.
  intros req Hb Hnone. unfold broadcastDownloadAdminRequest in *.
  destruct (fromListener w method msg); simpl in *; [discriminate|].
  fold req. rewrite Hnone. reflexivity.
Qed.

End BroadcastFacts.

(** *** The code on concrete replies *)

#[local] Existing Instance canonicalRange.

Lemma broadcast_error_policy_witness :
  collect (H := tally) "GET" statusMsg [ok T1 "||"; failed T2; notFound T3]
  = Ret (None, 500, Some (ErrMsg "internal"))
  /\ collect (H := tally) "GET" statusMsg [notFound T1; notFound T2]
     = Ret (None, 404, Some (ErrMsg "not found"))
  /\ collect (H := tally) "GET" statusMsg [notFound T1; ok T2 "||"; ok T3 "|||"]
     = Ret (Some "|||||", 200, None)
  /\ (exists r rest,
        filter (fun r => is200 r = true) [notFound T1; ok T2 "||"; ok T3 "|||"] = r :: rest
        /\ collect (H := tally) "DELETE" statusMsg [notFound T1; ok T2 "||"; ok T3 "|||"]
           = Ret (bytes r, 200, err r)).
Proof.
  split; [|split; [|split]].
  - apply (proj1 (broadcast_error_policy (H := tally) "GET" statusMsg
                    [ok T1 "||"; failed T2; notFound T3]) [ok T1 "||"] (failed T2) [notFound T3]).
    + reflexivity.
    + repeat constructor.
    + discriminate.
    + discriminate.
  - apply (proj1 (proj2 (broadcast_error_policy (H := tally) "GET" statusMsg
                           [notFound T1; notFound T2]))).
    + discriminate.
    + repeat constructor.
  - apply (proj1 (proj2 (proj2 (broadcast_error_policy (H := tally) "GET" statusMsg
                                   [notFound T1; ok T2 "||"; ok T3 "|||"]))
                    ltac:(repeat constructor; (left + right); reflexivity)
                    ltac:(right; left; reflexivity))
             eq_refl ltac:(discriminate) [2%nat; 3%nat]).
    repeat constructor.
  - apply (proj2 (proj2 (proj2 (proj2 (broadcast_error_policy (H := tally) "DELETE" statusMsg
                                          [notFound T1; ok T2 "||"; ok T3 "|||"]))
                           ltac:(repeat constructor; (left + right); reflexivity)
                           ltac:(right; left; reflexivity)))
             eq_refl).
Defined.

(** C1 as the specification words it does not hold for DELETE: two targets reply 200
    with the statuses 2 and 3; the aggregate of the 200 replies would be 5,
    the code returns the first reply alone. *)
Lemma delete_returns_first_reply_only :
  let results := [ok T1 "||"; ok T2 "|||"] in
  Forall tolerated results
  /\ Forall2 (fun r st => UnmarshalStatus (Downloader := tally) (bytes r) = inr st)
       (filter (fun r => is200 r = true) results) [2%nat; 3%nat]
  /\ collect (H := tally) "DELETE" statusMsg results = Ret (Some "||", 200, None)
  /\ collect (H := tally) "DELETE" statusMsg results
     <> Ret (Some (MarshalStatus (Downloader := tally)
                     (fold_left (StatusAggregate (Downloader := tally)) [2%nat; 3%nat] None)),
             200, None).
Proof.
  split; [|split; [|split]].
  - repeat constructor.
  - repeat constructor.
  - reflexivity.
  - discriminate.
Qed.

Lemma listener_answers_locally_witness :
  broadcastDownloadAdminRequest (H := tally) listenerWorld "GET" "/v1/download"
    (mkBody "dl-1" true)
  = (Ret (Some "|||||", 200, None), []).
Proof.
  apply (listener_answers_locally (H := tally) listenerWorld "/v1/download"
           (mkBody "dl-1" true)
           [("t1", IsStatus (H := tally) 2%nat); ("t2", IsOther (H := tally) "|||")]
           [2%nat; 3%nat]).
  - discriminate.
  - reflexivity.
  - reflexivity.
  - repeat constructor.
Defined.

Lemma no_results_is_bad_request_witness :
  (broadcastDownloadAdminRequest (H := tally) emptyCluster "GET" "/v1/download" statusMsg).1
  = Ret (None, 400, Some (ErrNoNodes Target)).
Proof.
  apply (no_results_is_bad_request (H := tally) emptyCluster "GET" "/v1/download" statusMsg).
  - reflexivity.
  - reflexivity.
Defined.

End DlFacts.

Module PrxFacts.
Import Prx PrxSamples.

(** ** Reasoning about runs *)

(** Unfold the sequencing of a run, and nothing of what it computes with. *)
Ltac run_step :=
  cbv beta iota zeta delta
    [mbind mret prx_bind prx_ret andThen pure emit panic reads update defer
     getSmap getBMD getRMD AssertNoErr value final trace];
  cbn [app].

Section RunnerFacts.
Context {OS : Owner smapX} {OB : Owner bucketMD} {OR : Owner rebMD}.
Context {SO : SmapOps} {C : Cmn} {BO : BmdOps} {MR : MapRange} {PE : Peers}.

(** C9.  In handlePendingRenamedLB the lock of the BMD owner is taken once
    on every path.  On the path where the bucket initializes but its
    Renamed property is empty the lock is released twice (the explicit
    Unlock and the deferred one); on the other two paths (the bucket is
    gone; the bucket is pending rename) it is released exactly once. *)
Theorem renamedLB_unlock_count (renamedBucket : string) (p : proxyrunner) :
  let t := trace (handlePendingRenamedLB renamedBucket p) in
  locks OBmd t = 1%nat
  /\ (forall props, bckInit (get (owner_bmd p)) renamedBucket = inr props ->
        Renamed props = "" -> unlocks OBmd t = 2%nat)
  /\ (forall props, bckInit (get (owner_bmd p)) renamedBucket = inr props ->
        Renamed props <> "" -> unlocks OBmd t = 1%nat)
  /\ (forall e, bckInit (get (owner_bmd p)) renamedBucket = inl e -> unlocks OBmd t = 1%nat).
Proof.
  intros t. subst t. unfold handlePendingRenamedLB. run_step.
  destruct (bckInit (get (owner_bmd p)) renamedBucket) as [e|props] eqn:Hinit; run_step.
  - repeat split; try reflexivity; intros; discriminate.
  - destruct (decide (Renamed props = "")) as [Hr|Hr].
    + rewrite (bool_decide_eq_true_2 _ Hr). run_step.
      repeat split; try reflexivity; intros; congruence.
    + rewrite (bool_decide_eq_false_2 _ Hr). run_step.
      repeat split; try reflexivity; intros; congruence.
Qed.

Lemma validateUUID_differ (m nbmd : bucketMD) (self : Snode) (nsi : option Snode)
    (caller : string) :
  is_Some (validateUUID m nbmd self nsi caller)
  <-> BMDUUID m <> BMDUUID nbmd /\ BMDVersion m <> 0 /\ BMDVersion nbmd <> 0.
Proof.
  unfold validateUUID.
  destruct (decide (BMDUUID m <> BMDUUID nbmd)) as [Hu|Hu];
    [rewrite (bool_decide_eq_true_2 _ Hu) | rewrite (bool_decide_eq_false_2 _ Hu)];
    (destruct (decide (BMDVersion m <> 0)) as [Hm|Hm];
     [rewrite (bool_decide_eq_true_2 _ Hm) | rewrite (bool_decide_eq_false_2 _ Hm)]);
    (destruct (decide (BMDVersion nbmd <> 0)) as [Hn|Hn];
     [rewrite (bool_decide_eq_true_2 _ Hn) | rewrite (bool_decide_eq_false_2 _ Hn)]);
    simpl; split; try (intros [? [=]]); try tauto; eauto.
Qed.

(** A strictly newer version is installed (the other half of C6's rule). *)
Lemma receiveRMD_newer (p : proxyrunner) (newRMD : rebMD) (msg : aisMsg) :
  RMDVersion (get (owner_rmd p)) < RMDVersion newRMD ->
  final (receiveRMD newRMD msg p) = set_rmd (put newRMD) p
  /\ value (receiveRMD newRMD msg p) = Ret None.
Proof.
  intros Hlt. unfold receiveRMD. run_step.
  destruct (Z.leb_spec (RMDVersion newRMD) (RMDVersion (get (owner_rmd p)))); [lia|].
  run_step. split; reflexivity.
Qed.

Lemma receiveBMD_newer (p : proxyrunner) (newBMD : bucketMD) (msg : aisMsg) (caller : string) :
  validateUUID (get (owner_bmd p)) newBMD (si p) None caller = None ->
  BMDVersion (get (owner_bmd p)) < BMDVersion newBMD ->
  final (receiveBMD newBMD msg caller p) = set_bmd (put newBMD) p
  /\ value (receiveBMD newBMD msg caller p) = Ret None.
Proof.
  intros Hv Hlt. unfold receiveBMD. run_step. rewrite Hv.
  destruct (Z.leb_spec (BMDVersion newBMD) (BMDVersion (get (owner_bmd p)))); [lia|].
  run_step. split; reflexivity.
Qed.

(** C6.  receiveRMD and receiveBMD leave the stored copy as it is when the
    incoming version is less than or equal to the stored one, and return an
    error exactly when it is strictly lower.  The exception: when
    validateUUID reports mismatching UUIDs and the proxy is not the
    primary, receiveBMD logs the error and overrides: the incoming BMD is
    put whatever its version, and the integrity error is returned. *)
Theorem receive_rejects_same_or_lower (p : proxyrunner) (newRMD : rebMD) (newBMD : bucketMD)
    (msg : aisMsg) (caller : string) :
  let rr := receiveRMD newRMD msg p in
  let rb := receiveBMD newBMD msg caller p in
  (RMDVersion newRMD <= RMDVersion (get (owner_rmd p)) ->
     final rr = p
     /\ (RMDVersion newRMD < RMDVersion (get (owner_rmd p)) -> exists e, value rr = Ret (Some e))
     /\ (RMDVersion newRMD = RMDVersion (get (owner_rmd p)) -> value rr = Ret None))
  /\ (validateUUID (get (owner_bmd p)) newBMD (si p) None caller = None ->
      BMDVersion newBMD <= BMDVersion (get (owner_bmd p)) ->
        final rb = p
        /\ (BMDVersion newBMD < BMDVersion (get (owner_bmd p)) -> exists e, value rb = Ret (Some e))
        /\ (BMDVersion newBMD = BMDVersion (get (owner_bmd p)) -> value rb = Ret None))
  /\ (forall cie, validateUUID (get (owner_bmd p)) newBMD (si p) None caller = Some cie ->
      isPrimary (get (owner_smap p)) (si p) = false ->
        final rb = set_bmd (put newBMD) p
        /\ EvLog Error "(non-primary): proceeding to override BMD" ∈ trace rb
        /\ value rb = Ret (Some cie)).
Proof.
  intros rr rb. subst rr rb. split; [|split].
  - intros Hle. unfold receiveRMD. run_step.
    destruct (Z.leb_spec (RMDVersion newRMD) (RMDVersion (get (owner_rmd p)))); [|lia].
    run_step.
    destruct (Z.ltb_spec (RMDVersion newRMD) (RMDVersion (get (owner_rmd p)))); run_step.
    + split; [reflexivity|]. split; [eauto | lia].
    + split; [reflexivity|]. split; [lia | reflexivity].
  - intros Hv Hle. unfold receiveBMD. run_step. rewrite Hv.
    destruct (Z.leb_spec (BMDVersion newBMD) (BMDVersion (get (owner_bmd p)))); [|lia].
    run_step.
    destruct (Z.ltb_spec (BMDVersion newBMD) (BMDVersion (get (owner_bmd p)))); run_step.
    + split; [reflexivity|]. split; [eauto | lia].
    + split; [reflexivity|]. split; [lia | reflexivity].
  - intros cie Hv Hnp. unfold receiveBMD. run_step. rewrite Hv. run_step.
    rewrite Hnp. run_step.
    split; [reflexivity|]. split; [|reflexivity].
    right; left.
Qed.





Lemma syncs_app (t1 t2 : list event) : syncs (t1 ++ t2) = syncs t1 ++ syncs t2.
Proof. unfold syncs. apply omap_app. Qed.

Lemma wrap64_id (z : Z) : - 2 ^ 63 <= z < 2 ^ 63 -> wrap64 z = z.
Proof.
  intros Hz. unfold wrap64. rewrite Z.mod_small by lia. lia.
Qed.

Lemma sendTables_quiet (smap newSmap : smapX) (l : list (string * Z)) (p : proxyrunner) :
  exists t,
    foldr (fun kv rest =>
             let node := GetProxy newSmap kv.1 in
             (if negb (IsIC smap node) then
                emit (EvSendOwnershipTbl node);;
                match sendOwnershipTbl node with
                | Some _ => emit (EvLog Error "failed to send ownership table")
                | None => mret tt
                end
              else mret tt);;
             rest)
          (mret tt) l p
    = mkRun (Ret tt) p t /\ syncs t = [].
Proof.
  revert p. induction l as [|kv l IH]; intros p; cbn [foldr].
  - eexists; split; reflexivity.
  - destruct (IH p) as (t & Ht & Hs). revert Ht. run_step. intros Ht.
    destruct (negb (IsIC smap (GetProxy newSmap kv.1))); run_step.
    + destruct (sendOwnershipTbl (GetProxy newSmap kv.1)); run_step.
      all: rewrite Ht; eexists; split; [reflexivity | exact Hs].
    + rewrite Ht. eexists; split; [reflexivity | exact Hs].
Qed.

Lemma syncNewICOwners_quiet (smap newSmap : smapX) (p : proxyrunner) :
  exists t, syncNewICOwners smap newSmap p = mkRun (Ret tt) p t /\ syncs t = [].
Proof.
  unfold syncNewICOwners.
  destruct (sendTables_quiet smap newSmap (range 0 (IC newSmap)) p) as (t & Ht & Hs).
  revert Ht. run_step. intros Ht.
  destruct (negb (IsIC smap (Some (si p))) || negb (IsIC newSmap (Some (si p)))).
  - eexists; split; reflexivity.
  - rewrite Ht. eexists; split; [reflexivity | exact Hs].
Qed.

(** C5.  When a proxy that is present in its cluster map becomes the new
    primary in the commit phase (nothing to remove), the map it installs
    has itself as Primary, a version exactly 100 higher (versions are
    int64: as long as that does not overflow) and a re-staffed IC; BMD and
    RMD are left alone; and exactly one metasync wave goes out, carrying
    the new Smap, the current BMD and the current RMD. *)
Theorem becomeNewPrimary_commit (p : proxyrunner) :
  let smap := get (owner_smap p) in
  let out := becomeNewPrimary "" p in
  isPresent smap (si p) = true ->
  - 2 ^ 63 <= SmapVersion smap < 2 ^ 63 - 100 ->
  exists clone msg,
    value out = Ret tt
    /\ final out = set_smap (put clone) p
    /\ Primary clone = Some (si p)
    /\ SmapVersion clone = SmapVersion smap + 100
    /\ IC clone = staffIC (mkSmap (SmapVersion smap + 100) (SmapUUID smap) (Some (si p))
                            (Pmap smap) (Tmap smap) (delete "" (IC smap)))
    /\ SmapUUID clone = SmapUUID smap /\ Pmap clone = Pmap smap /\ Tmap clone = Tmap smap
    /\ syncs (trace out)
       = [[(RevSmap clone, msg); (RevBMD (get (owner_bmd p)), msg);
           (RevRMD (get (owner_rmd p)), msg)]].
Proof.
  intros smap out Hpresent Hrange. subst smap out.
  set (clone := mkSmap (SmapVersion (get (owner_smap p)) + 100) (SmapUUID (get (owner_smap p)))
                  (Some (si p)) (Pmap (get (owner_smap p))) (Tmap (get (owner_smap p)))
                  (staffIC (mkSmap (SmapVersion (get (owner_smap p)) + 100)
                              (SmapUUID (get (owner_smap p))) (Some (si p))
                              (Pmap (get (owner_smap p))) (Tmap (get (owner_smap p)))
                              (delete "" (IC (get (owner_smap p))))))).
  exists clone, (newAisMsgStr ActNewPrimary (Some clone) (Some (get (owner_bmd p)))).
  destruct (syncNewICOwners_quiet (get (owner_smap p)) clone (set_smap (put clone) p))
    as (t & Ht & Hs).
  unfold becomeNewPrimary, smap_modify. revert Ht. run_step. intros Ht.
  rewrite Hpresent. cbn [negb].
  rewrite (bool_decide_eq_false_2 ("" <> "")) by (intros Hne; apply Hne; reflexivity).
  run_step.
  unfold add64. rewrite wrap64_id by lia.
  cbn [SmapVersion SmapUUID Primary Pmap Tmap IC]. fold clone.
  rewrite Ht. run_step.
  repeat split.
  rewrite !app_nil_r.
  change (syncs (?a :: ?b :: ?c :: t)) with (syncs [a; b; c] ++ syncs t) at 1.
  rewrite Hs. reflexivity.
Qed.

(** A proxy that receives the prepare call keeps its state, whichever
    branch it takes; all it may do is answer with an error. *)
Lemma prepare_call_keeps_state (node : proxyrunner) (apiItems : error + list string) :
  ParseBool "true" = inr true -> ParseBool "" = inr false ->
  final (httpdaesetprimaryproxy apiItems prepareQuery node) = node
  /\ Forall (fun e => isInval e = true) (trace (httpdaesetprimaryproxy apiItems prepareQuery node)).
Proof.
  intros Htrue Hempty. unfold httpdaesetprimaryproxy.
  destruct apiItems as [e|items]; [run_step; split; [reflexivity | constructor]|].
  destruct (items !! 0%nat) as [item0|]; [|run_step; split; [reflexivity | constructor]].
  destruct (items !! 1%nat) as [proxyID|]; [|run_step; split; [reflexivity | constructor]].
  change (Get prepareQuery URLParamForce) with "".
  change (Get prepareQuery URLParamPrepare) with "true".
  unfold IsParseBool. rewrite Hempty, Htrue. cbn [andb negb]. run_step.
  destruct (isPrimary (get (owner_smap node)) (si node)); run_step.
  - split; [reflexivity | repeat constructor].
  - destruct (bool_decide (DaemonID (si node) = proxyID)); run_step.
    + split; [reflexivity | constructor].
    + destruct (GetProxy (get (owner_smap node)) proxyID); run_step.
      * split; [reflexivity | constructor].
      * split; [reflexivity | repeat constructor].
Qed.

Lemma deliver_prepare (proxyid : string) (x : peer) :
  ParseBool "true" = inr true -> ParseBool "" = inr false ->
  (deliver proxyid prepareQuery x).1.1 = x.
Proof.
  intros Htrue Hempty. unfold deliver. destruct x as [[|] q|t reply]; cbn [fst].
  - rewrite (proj1 (prepare_call_keeps_state q _ Htrue Hempty)). reflexivity.
  - reflexivity.
  - reflexivity.
Qed.

Lemma callAll_prepare (proxyid : string) (peers : list peer) :
  ParseBool "true" = inr true -> ParseBool "" = inr false ->
  peers_after (callAll proxyid prepareQuery peers) = peers
  /\ Forall (fun c => c.2 = prepareQuery) (calls (callAll proxyid prepareQuery peers)).
Proof.
  intros Htrue Hempty. induction peers as [|x rest [IHp IHc]]; cbn [callAll].
  - split; [reflexivity | constructor].
  - pose proof (deliver_prepare proxyid x Htrue Hempty) as Hx.
    destruct (deliver proxyid prepareQuery x) as [[x' res] evs].
    cbn [fst] in Hx. subst x'. cbn [peers_after calls].
    rewrite IHp. split; [reflexivity|]. constructor; [reflexivity | exact IHc].
Qed.

Lemma prepareVerdict_fails (proxyid : string) (results : list callResult) (p : proxyrunner) :
  Exists (fun res => res_err res <> None) results ->
  exists msg, prepareVerdict proxyid results p = mkRun (Ret false) p [EvInval msg None].
Proof.
  intros Hex. induction results as [|res rest IH]; [inversion Hex|].
  cbn [prepareVerdict]. destruct (res_err res) as [e|] eqn:He.
  - run_step. eexists. reflexivity.
  - apply IH. inversion Hex as [? ? Hres|? ? Hrest]; subst; [|exact Hrest].
    rewrite He in Hres. contradiction.
Qed.

Lemma designate_goes_ahead (p : proxyrunner) (r : request) (proxyid : string) (psi : Snode) :
  isValid (get (owner_smap p)) = true -> isPrimary (get (owner_smap p)) (si p) = true ->
  Pmap (get (owner_smap p)) !! proxyid = Some psi -> proxyid <> DaemonID (si p) ->
  designate (inr [proxyid]) r p = mkRun (Ret (inr (proxyid, psi))) p [].
Proof.
  intros Hvalid Hprim Hpsi Hne. unfold designate, forwardCP. cbn [lookup list_lookup].
  run_step. rewrite Hvalid. cbn [negb]. rewrite Hprim. run_step. rewrite Hpsi.
  rewrite (bool_decide_eq_false_2 _ Hne). run_step. reflexivity.
Qed.

(** C4.  The coordinator is the primary, holds a valid map that has the
    designated proxy, and is asked to hand over to another proxy.  If any
    node returns an error in the prepare phase, the coordinator answers
    with an error and does nothing else: its own state (its Smap with it)
    is as before, every peer is as before, and every call that went out
    carried prepare=true, so no commit call was issued.  And a proxy that
    receives the prepare call keeps its state. *)
Theorem prepare_failure_aborts (p : proxyrunner) (peers : list peer) (r : request)
    (proxyid : string) (psi : Snode) :
  let smap := get (owner_smap p) in
  let out := httpclusetprimaryproxy (inr [proxyid]) r peers p in
  ParseBool "true" = inr true -> ParseBool "" = inr false ->
  isValid smap = true -> isPrimary smap (si p) = true ->
  Pmap smap !! proxyid = Some psi -> proxyid <> DaemonID (si p) ->
  Exists (fun res => res_err res <> None) (results (callAll proxyid prepareQuery peers)) ->
  (exists msg, trace (coordinator out) = [EvInval msg None])
  /\ final (coordinator out) = p
  /\ cluster_after out = peers
  /\ Forall (fun c => Get c.2 URLParamPrepare = "true") (cluster_calls out)
  /\ (forall (node : proxyrunner) (apiItems : error + list string),
        final (httpdaesetprimaryproxy apiItems prepareQuery node) = node).
Proof.
  intros smap out Htrue Hempty Hvalid Hprim Hpsi Hne Hfail. subst smap out.
  unfold httpclusetprimaryproxy.
  rewrite (designate_goes_ahead p r proxyid psi Hvalid Hprim Hpsi Hne).
  cbn [value final trace]. fold prepareQuery.
  destruct (prepareVerdict_fails proxyid _ p Hfail) as [msg ->].
  cbn [value final trace coordinator cluster_after cluster_calls app].
  destruct (callAll_prepare proxyid peers Htrue Hempty) as [Hpeers Hcalls].
  split; [eexists; reflexivity|]. split; [reflexivity|]. split; [exact Hpeers|]. split.
  - eapply Forall_impl; [exact Hcalls|]. intros c ->. reflexivity.
  - intros node apiItems. apply (prepare_call_keeps_state node apiItems Htrue Hempty).
Qed.

(** Every order in which a loop may visit a list of three or two entries. *)
Ltac orders H :=
  apply permutations_Permutation in H; vm_compute in H;
  repeat (apply elem_of_cons in H; destruct H as [H|H]);
  [.. | apply elem_of_nil in H; contradiction].

Lemma surveyBMDs_three (b1 b2 b3 : gmap string BucketProps) (results : list bmdResult)
    (p : proxyrunner) :
  results ≡ₚ threeBMDs b1 b2 b3 ->
  exists uuid rbmd,
    surveyBMDs results (mkSurvey "" None false ∅) p
    = mkRun (Ret (mkSurvey uuid rbmd true (threeMap b1 b2 b3))) p [].
Proof.
  intros Hperm. symmetry in Hperm. orders Hperm; subst results.
  all: do 2 eexists; vm_compute; reflexivity.
Qed.

Lemma resolveUUIDBMD_three (b1 b2 b3 : gmap string BucketProps) :
  resolveUUIDBMD (threeMap b1 b2 b3)
  = Ret (Some (mkBMD 5 "A" b2), Some (errTgtBmdUUIDDiffer (differText "A"))).
Proof.
  unfold resolveUUIDBMD. cbv zeta.
  pose proof (range_perm 1 _ (threeMap b1 b2 b3)) as H1. symmetry in H1.
  remember (range 1 (threeMap b1 b2 b3)) as l1 eqn:E1. clear E1.
  orders H1; subst l1.
  all: match goal with
       | |- context [range 2 ?m] =>
           pose proof (range_perm 2 _ m) as H2; symmetry in H2;
           pose proof (range_perm 3 _ m) as H3; symmetry in H3;
           remember (range 2 m) as l2 eqn:E2; clear E2;
           remember (range 3 m) as l3 eqn:E3; clear E3
       end.
  all: orders H2; subst l2; orders H3; subst l3.
  all: vm_compute; reflexivity.
Qed.

(** C7 (as amended).  Three targets return bmd{UUID=A,v=3},
    bmd{UUID=A,v=5} and bmd{UUID=B,v=7}, in any order of arrival, and the
    maps are visited in any order.  On the primary, recoverBuckets without
    force answers with the cluster-integrity error cie#70 "BMDs have
    different uuids with simple majority: A" and leaves its state as it
    is; with force it puts the BMD of UUID A at version 5+100 and
    metasyncs it, once. *)
Theorem recoverBuckets_three_targets (p : proxyrunner) (r : request) (msg : ActionMsg)
    (results : list bmdResult) (b1 b2 b3 : gmap string BucketProps) :
  let out := recoverBuckets r msg results p in
  let rbmd := mkBMD 105 "A" b2 in
  isValid (get (owner_smap p)) = true -> isPrimary (get (owner_smap p)) (si p) = true ->
  results ≡ₚ threeBMDs b1 b2 b3 ->
  (IsParseBool (Get (Query r) URLParamForce) = false ->
     trace out = [EvInval (differText "A") None] /\ final out = p /\ value out = Ret tt)
  /\ (IsParseBool (Get (Query r) URLParamForce) = true ->
      final out = set_bmd (put rbmd) p
      /\ syncs (trace out) = [[(RevBMD rbmd, newAisMsg msg None (Some rbmd))]]
      /\ value out = Ret tt).
Proof.
  intros out rbmd Hvalid Hprim Hperm. subst out rbmd.
  destruct (surveyBMDs_three b1 b2 b3 results p Hperm) as (uuid & rb & Hsv).
  unfold recoverBuckets, forwardCP. revert Hsv. run_step. intros Hsv.
  rewrite Hvalid. cbn [negb]. rewrite Hprim. rewrite Hsv. run_step.
  cbn [sv_slowp sv_bmds]. rewrite resolveUUIDBMD_three.
  split; intros Hforce; rewrite Hforce; cbn [negb orb]; run_step.
  - repeat split.
  - repeat split.
Qed.

End RunnerFacts.
End PrxFacts.

Module PrxExamples.
Import Prx PrxFacts PrxSamples.

#[local] Existing Instance cell.
#[local] Existing Instance Ref.smapOps.
#[local] Existing Instance Ref.cmn.
#[local] Existing Instance Ref.bmdOps.
#[local] Existing Instance canonicalRange.
#[local] Existing Instance Ref.peers.

Lemma renamedLB_unlock_count_witness :
  unlocks OBmd (trace (handlePendingRenamedLB "odd" p1)) = 2%nat
  /\ unlocks OBmd (trace (handlePendingRenamedLB "old" p1)) = 1%nat
  /\ unlocks OBmd (trace (handlePendingRenamedLB "gone" p1)) = 1%nat.
Proof.
  split; [|split].
  - apply (proj1 (proj2 (renamedLB_unlock_count "odd" p1)) (mkProps "")); reflexivity.
  - apply (proj1 (proj2 (proj2 (renamedLB_unlock_count "old" p1))) (mkProps "new"));
      [reflexivity | discriminate].
  - apply (proj2 (proj2 (proj2 (renamedLB_unlock_count "gone" p1)))
             (ErrMsg "bucket does not exist")); reflexivity.
Defined.

Lemma receive_rejects_same_or_lower_witness :
  (* an older RMD *)
  final (receiveRMD (mkRMD 3 []) noMsg p2) = p2
  /\ (exists e, value (receiveRMD (mkRMD 3 []) noMsg p2) = Ret (Some e))
  (* the same BMD version, same UUID *)
  /\ final (receiveBMD (mkBMD 5 "A" ∅) noMsg "p1" p2) = p2
  /\ value (receiveBMD (mkBMD 5 "A" ∅) noMsg "p1" p2) = Ret None
  (* an older BMD of another UUID, on a non-primary *)
  /\ final (receiveBMD (mkBMD 3 "B" ∅) noMsg "p1" p2) = set_bmd (put (mkBMD 3 "B" ∅)) p2.
Proof.
  pose proof (receive_rejects_same_or_lower p2 (mkRMD 3 []) (mkBMD 5 "A" ∅) noMsg "p1")
    as (Hr & Hb & _).
  pose proof (receive_rejects_same_or_lower p2 (mkRMD 3 []) (mkBMD 3 "B" ∅) noMsg "p1")
    as (_ & _ & Hx).
  destruct (Hr ltac:(simpl; lia)) as (Hr1 & Hr2 & _).
  destruct (Hb eq_refl ltac:(simpl; lia)) as (Hb1 & _ & Hb3).
  destruct (Hx _ eq_refl eq_refl) as (Hx1 & _ & _).
  split; [exact Hr1|]. split; [apply Hr2; simpl; lia|].
  split; [exact Hb1|]. split; [apply Hb3; reflexivity|]. exact Hx1.
Defined.



Lemma becomeNewPrimary_commit_witness :
  exists clone,
    final (becomeNewPrimary "" p2) = set_smap (put clone) p2
    /\ Primary clone = Some Ref.P2
    /\ SmapVersion clone = 112
    /\ length (syncs (trace (becomeNewPrimary "" p2))) = 1%nat.
Proof.
  pose proof (becomeNewPrimary_commit p2) as H. cbv zeta in H.
  destruct (H eq_refl ltac:(cbn; lia))
    as (clone & msg & _ & Hf & Hp & Hv & _ & _ & _ & _ & Hs).
  exists clone. split; [exact Hf|]. split; [exact Hp|]. split; [exact Hv|].
  rewrite Hs. reflexivity.
Defined.

Lemma prepare_failure_aborts_witness :
  final (coordinator (httpclusetprimaryproxy (inr ["p2"]) putPrimary cluster p1)) = p1
  /\ cluster_after (httpclusetprimaryproxy (inr ["p2"]) putPrimary cluster p1) = cluster
  /\ Forall (fun c => Get c.2 URLParamPrepare = "true")
       (cluster_calls (httpclusetprimaryproxy (inr ["p2"]) putPrimary cluster p1)).
Proof.
  pose proof (prepare_failure_aborts p1 cluster putPrimary "p2" Ref.P2) as H. cbv zeta in H.
  destruct (H eq_refl eq_refl eq_refl eq_refl eq_refl ltac:(discriminate)
              ltac:(apply Exists_cons_hd; discriminate))
    as (_ & Hf & Hc & Hq & _).
  split; [exact Hf|]. split; [exact Hc | exact Hq].
Defined.

Lemma arrival_perm : arrival ≡ₚ threeBMDs ∅ ∅ ∅.
Proof.
  unfold arrival, threeBMDs.
  etransitivity; [apply Permutation_swap|]. apply Permutation_skip. apply Permutation_swap.
Defined.

Lemma recoverBuckets_three_targets_witness :
  trace (recoverBuckets recoverReq recoverMsg arrival p1) = [EvInval (differText "A") None]
  /\ final (recoverBuckets recoverReq recoverMsg arrival p1) = p1
  /\ final (recoverBuckets recoverForce recoverMsg arrival p1)
     = set_bmd (put (mkBMD 105 "A" ∅)) p1.
Proof.
  pose proof (recoverBuckets_three_targets p1 recoverReq recoverMsg arrival ∅ ∅ ∅) as H.
  pose proof (recoverBuckets_three_targets p1 recoverForce recoverMsg arrival ∅ ∅ ∅) as Hf.
  cbv zeta in H, Hf.
  destruct (H eq_refl eq_refl arrival_perm) as [Hno _].
  destruct (Hf eq_refl eq_refl arrival_perm) as [_ Hyes].
  destruct (Hno eq_refl) as (Ht & Hs & _).
  destruct (Hyes eq_refl) as (Hp & _).
  split; [exact Ht|]. split; [exact Hs | exact Hp].
Defined.

(** C7 as the specification words it does not hold: without force the reply to the three
    BMDs is the error of the simple-majority case (cie#70), not the error
    "no simple majority" (cie#60), which resolveUUIDBMD keeps for a tie. *)
Lemma recoverBuckets_reports_majority :
  resolveUUIDBMD (threeMap ∅ ∅ ∅)
  = Ret (Some (mkBMD 5 "A" ∅), Some (errTgtBmdUUIDDiffer (differText "A")))
  /\ trace (recoverBuckets recoverReq recoverMsg (threeBMDs ∅ ∅ ∅) p1)
     = [EvInval (differText "A") None]
  /\ trace (recoverBuckets recoverReq recoverMsg (threeBMDs ∅ ∅ ∅) p1)
     <> [EvInval splitText None].
Proof.
  split; [|split].
  - vm_compute. reflexivity.
  - vm_compute. reflexivity.
  - vm_compute. discriminate.
Qed.

End PrxExamples.

Module ObjFacts.
Import Prx Obj ObjSamples.
Section RedirectFacts.
Context {N : Net} {K : Checks} {C : Cmn}.

Lemma append_assoc (a b c : string) : (a +:+ b) +:+ c = a +:+ (b +:+ c).
Proof.
  induction a as [|x a IH]; [reflexivity|].
  change (String x ((a +:+ b) +:+ c) = String x (a +:+ (b +:+ c))).
  rewrite IH. reflexivity.
Qed.

Lemma Encode_stamp (g : gateway) (ts : Z) :
  Encode [(URLParamProxyID, DaemonID (self g)); (URLParamUnixTime, UnixNano2S ts)] = stamp g ts.
Proof. reflexivity. Qed.

Lemma redirectURL_shape (g : gateway) (r : request) (node : Snode) (ts : Z) (net : network) :
  redirectURL g r node ts net = nodeURL g r node net +:+ pathAndQuery r +:+ stamp g ts.
Proof.
  unfold redirectURL, pathAndQuery. rewrite Encode_stamp.
  destruct (bool_decide (RawQuery r <> "")).
  - rewrite !append_assoc. reflexivity.
  - rewrite !append_assoc. reflexivity.
Qed.

Lemma nodeURL_cases (g : gateway) (r : request) (node : Snode) (net : network) :
  nodeURL g r node net = URL node net \/ nodeURL g r node net = URL node NetworkPublic.
Proof.
  unfold nodeURL. destruct (LocalNet g) as [localNet|]; [|right; reflexivity].
  destruct (String.index 0 ":" (RemoteAddr r)); (destruct (ParseIP _); [destruct (Contains _ _)|]);
    auto.
Qed.

Lemma append_empty (a : string) : a +:+ "" = a.
Proof.
  induction a as [|x a IH]; [reflexivity|].
  change (String x (a +:+ "") = String x a). rewrite IH. reflexivity.
Qed.

Lemma nodeURL_local (g : gateway) (r : request) (node : Snode) (net : network) :
  nodeURL g r node net = URL node (if localClient g r then net else NetworkPublic).
Proof.
  unfold nodeURL, localClient. destruct (LocalNet g) as [localNet|]; [|reflexivity].
  cbv zeta. destruct (ParseIP _); [destruct (Contains _ _)|]; reflexivity.
Qed.

Lemma initBck_bucketOf (r : request) (bucket : string) (c : option Z) (bck : Bck) :
  initBck r bucket c = inr bck <-> bucketOf r bucket = Some bck.
Proof.
  unfold bucketOf, initBck.
  destruct (newBckFromQuery bucket (Query r)) as [err|b]; [split; discriminate|].
  destruct (bckInit b) as [err|]; [|split; congruence].
  destruct (tryRemote r b err); split; congruence.
Qed.

Lemma initBck_no_redirect (r : request) (bucket : string) (c : option Z)
    (url : string) (code : Z) :
  initBck r bucket c <> inl (Redirect url code).
Proof.
  unfold initBck. destruct (newBckFromQuery bucket (Query r)) as [err|b]; [discriminate|].
  destruct (bckInit b) as [err|]; [|discriminate].
  destruct (tryRemote r b err); discriminate.
Qed.

(** Where the hash sends an object, for a request that names no node. *)
Lemma targetOf_hash (smap : smapX) (r : request) (bck : Bck) (objName : string) (node : Snode) :
  Method r <> http.MethodPut ->
  targetOf smap r bck objName = Some node <-> HrwTarget (MakeUname bck objName) smap = inr node.
Proof.
  intros Hm. unfold targetOf, appendNode. rewrite (bool_decide_eq_false_2 _ Hm). cbn [andb].
  change (bool_decide ("" = "")) with true. cbv iota.
  destruct (HrwTarget (MakeUname bck objName) smap); split; congruence.
Qed.

(** What the three handlers that hash have in common. *)
Lemma hashed_routed (smap : smapX) (r : request) (acc : access) (node : Snode) :
  Method r <> http.MethodPut -> accessOf r = acc ->
  routed smap r node
  <-> exists bucket objName bck,
        checkRESTItems r = Some (bucket, objName)
        /\ bucketOf r bucket = Some bck
        /\ checkPermissions r bck acc = None
        /\ Allow bck acc = None
        /\ HrwTarget (MakeUname bck objName) smap = inr node.
Proof.
  intros Hm <-. unfold routed. split.
  - intros (bucket & objName & bck & H1 & H2 & _ & H4 & H5 & H6).
    exists bucket, objName, bck. repeat (split; [assumption|]).
    apply (targetOf_hash _ _ _ _ _ Hm). exact H6.
  - intros (bucket & objName & bck & H1 & H2 & H4 & H5 & H6).
    exists bucket, objName, bck. repeat (split; [first [assumption | intros; contradiction]|]).
    apply (targetOf_hash _ _ _ _ _ Hm). exact H6.
Qed.

(** Follow every branch of a handler that ends in the given response. *)
Ltac branches H := cbv zeta in H; repeat (case_match; simplify_eq).

Lemma httpobjget_redirect (g : gateway) (smap : smapX) (started : Z) (r : request)
    (url : string) (code : Z) :
  Method r = http.MethodGet ->
  httpobjget g smap started r = Redirect url code
  <-> exists node, routed smap r node
        /\ code = http.StatusMovedPermanently
        /\ url = redirectURL g r node started NetworkIntraData.
Proof.
  intros Hm.
  assert (Hp : Method r <> http.MethodPut) by (rewrite Hm; discriminate).
  assert (Ha : accessOf r = AccessGET) by (unfold accessOf; rewrite Hm; reflexivity).
  split.
  - unfold httpobjget. intros H. branches H.
    + exfalso. eapply initBck_no_redirect; eassumption.
    + eexists. split; [|split; reflexivity].
      apply (hashed_routed _ _ _ _ Hp Ha). do 3 eexists.
      split; [eassumption|]. split; [eapply initBck_bucketOf; eassumption|].
      split; [eassumption|]. split; eassumption.
  - intros (node & Hr & -> & ->).
    apply (hashed_routed _ _ _ _ Hp Ha) in Hr as (bucket & objName & bck & H1 & H2 & H3 & H4 & H5).
    unfold httpobjget. rewrite H1.
    rewrite (proj2 (initBck_bucketOf r bucket (Some http.StatusBadRequest) bck) H2).
    rewrite H3, H4, H5. reflexivity.
Qed.

Lemma httpobjdelete_redirect (g : gateway) (smap : smapX) (started : Z) (r : request)
    (url : string) (code : Z) :
  Method r = http.MethodDelete ->
  httpobjdelete g smap started r = Redirect url code
  <-> exists node, routed smap r node
        /\ code = http.StatusTemporaryRedirect
        /\ url = redirectURL g r node started NetworkIntraControl.
Proof.
  intros Hm.
  assert (Hp : Method r <> http.MethodPut) by (rewrite Hm; discriminate).
  assert (Ha : accessOf r = AccessObjDELETE) by (unfold accessOf; rewrite Hm; reflexivity).
  split.
  - unfold httpobjdelete. intros H. branches H.
    + exfalso. eapply initBck_no_redirect; eassumption.
    + eexists. split; [|split; reflexivity].
      apply (hashed_routed _ _ _ _ Hp Ha). do 3 eexists.
      split; [eassumption|]. split; [eapply initBck_bucketOf; eassumption|].
      split; [eassumption|]. split; eassumption.
  - intros (node & Hr & -> & ->).
    apply (hashed_routed _ _ _ _ Hp Ha) in Hr as (bucket & objName & bck & H1 & H2 & H3 & H4 & H5).
    unfold httpobjdelete. rewrite H1.
    rewrite (proj2 (initBck_bucketOf r bucket (Some http.StatusBadRequest) bck) H2).
    rewrite H3, H4, H5. reflexivity.
Qed.

Lemma httpobjhead_redirect (g : gateway) (smap : smapX) (started : Z) (r : request)
    (url : string) (code : Z) :
  Method r = http.MethodHead ->
  httpobjhead g smap started r = Redirect url code
  <-> exists node, routed smap r node
        /\ code = http.StatusTemporaryRedirect
        /\ url = redirectURL g r node started NetworkIntraControl
                 +:+ (if IsParseBool (Get (Query r) URLParamCheckExists)
                      then "&" +:+ URLParamCheckExists +:+ "=true" else "").
Proof.
  intros Hm.
  assert (Hp : Method r <> http.MethodPut) by (rewrite Hm; discriminate).
  assert (Ha : accessOf r = AccessObjHEAD) by (unfold accessOf; rewrite Hm; reflexivity).
  split.
  - unfold httpobjhead. intros H. branches H.
    all: try (exfalso; eapply initBck_no_redirect; eassumption).
    all: eexists; split; [|split; [reflexivity | rewrite ?append_empty; reflexivity]].
    all: apply (hashed_routed _ _ _ _ Hp Ha); do 3 eexists.
    all: split; [eassumption|]; split; [eapply initBck_bucketOf; eassumption|].
    all: split; [eassumption|]; split; eassumption.
  - intros (node & Hr & -> & ->).
    apply (hashed_routed _ _ _ _ Hp Ha) in Hr as (bucket & objName & bck & H1 & H2 & H3 & H4 & H5).
    unfold httpobjhead. cbv zeta. rewrite H1.
    rewrite (proj2 (initBck_bucketOf r bucket (Some http.StatusBadRequest) bck) H2).
    rewrite H3, H4, H5.
    destruct (IsParseBool _); rewrite ?append_empty, ?append_assoc; reflexivity.
Qed.

Lemma httpobjput_redirect (g : gateway) (smap : smapX) (started : Z) (r : request)
    (url : string) (code : Z) :
  Method r = http.MethodPut ->
  httpobjput g smap started r = Redirect url code
  <-> exists node, routed smap r node
        /\ code = http.StatusTemporaryRedirect
        /\ url = redirectURL g r node started NetworkIntraData.
Proof.
  intros Hm.
  assert (Ha : accessOf r = if bool_decide (Get (Query r) URLParamAppendType = "")
                            then AccessPUT else AccessAPPEND)
    by (unfold accessOf; rewrite Hm; reflexivity).
  assert (Hnode : appendNode r = if bool_decide (Get (Query r) URLParamAppendType = "")
                                 then inr ""
                                 else parseAppendHandle (Get (Query r) URLParamAppendHandle))
    by (unfold appendNode; rewrite Hm; destruct (bool_decide (Get _ _ = "")); reflexivity).
  unfold routed, targetOf. split.
  - unfold httpobjput. intros H. cbv zeta in H.
    destruct (checkRESTItems r) as [[bucket objName]|] eqn:H1; [|discriminate].
    destruct (initBck r bucket None) as [resp|bck] eqn:H2.
    { exfalso. subst resp. eapply initBck_no_redirect; eassumption. }
    destruct (IsHTTP bck) eqn:H3; [discriminate|].
    destruct (bool_decide (Get (Query r) URLParamAppendType = "")) eqn:Happ.
    + destruct (checkPermissions r bck AccessPUT) eqn:H4; [discriminate|].
      destruct (Allow bck AccessPUT) eqn:H5; [discriminate|].
      change (bool_decide ("" = "")) with true in H. cbv iota in H.
      destruct (HrwTarget (MakeUname bck objName) smap) as [err|node] eqn:H6; [discriminate|].
      injection H as <- <-. exists node. split; [|split; reflexivity].
      exists bucket, objName, bck. rewrite Ha, Hnode. split; [reflexivity|].
      split; [apply (initBck_bucketOf r bucket None); exact H2|].
      split; [intros _; exact H3|]. split; [exact H4|]. split; [exact H5|].
      change (bool_decide ("" = "")) with true. cbv iota. rewrite H6. reflexivity.
    + destruct (checkPermissions r bck AccessAPPEND) eqn:H4; [discriminate|].
      destruct (parseAppendHandle (Get (Query r) URLParamAppendHandle)) as [err|nodeID] eqn:Hh;
        [discriminate|].
      destruct (Allow bck AccessAPPEND) eqn:H5; [discriminate|].
      destruct (bool_decide (nodeID = "")) eqn:Hn.
      * destruct (HrwTarget (MakeUname bck objName) smap) as [err|node] eqn:H6; [discriminate|].
        injection H as <- <-. exists node. split; [|split; reflexivity].
        exists bucket, objName, bck. rewrite Ha, Hnode. split; [reflexivity|].
        split; [apply (initBck_bucketOf r bucket None); exact H2|].
        split; [intros _; exact H3|]. split; [exact H4|]. split; [exact H5|].
        rewrite Hn, H6. reflexivity.
      * destruct (Tmap smap !! nodeID) as [node|] eqn:H6; [|discriminate].
        injection H as <- <-. exists node. split; [|split; reflexivity].
        exists bucket, objName, bck. rewrite Ha, Hnode. split; [reflexivity|].
        split; [apply (initBck_bucketOf r bucket None); exact H2|].
        split; [intros _; exact H3|]. split; [exact H4|]. split; [exact H5|].
        rewrite Hn. exact H6.
  - intros (node & (bucket & objName & bck & H1 & H2 & H3 & H4 & H5 & H6) & -> & ->).
    rewrite Ha in H4, H5. rewrite Hnode in H6.
    unfold httpobjput. cbv zeta. rewrite H1.
    rewrite (proj2 (initBck_bucketOf r bucket None bck) H2). rewrite (H3 Hm).
    destruct (bool_decide (Get (Query r) URLParamAppendType = "")) eqn:Happ.
    + rewrite H4, H5.
      change (bool_decide ("" = "")) with true in H6 |- *. cbv iota in H6 |- *.
      destruct (HrwTarget (MakeUname bck objName) smap) as [err|n]; [discriminate|].
      injection H6 as ->. reflexivity.
    + rewrite H4.
      destruct (parseAppendHandle (Get (Query r) URLParamAppendHandle)) as [err|nodeID];
        [discriminate|].
      rewrite H5. destruct (bool_decide (nodeID = "")).
      * destruct (HrwTarget (MakeUname bck objName) smap) as [err|n]; [discriminate|].
        injection H6 as ->. reflexivity.
      * rewrite H6. reflexivity.
Qed.

(** C3 (as amended).  For a GET, PUT, DELETE or HEAD, objectHandler answers
    with a redirect exactly when the request is routed to a target: its
    path names a bucket and an object, the bucket is there, the access is
    permitted, and the target is the rendezvous hash of the object's unique
    name over the cluster map (for an appending PUT whose handle names a
    node: that node of the map).  The status is then 301 for GET and 307
    for the other three, and the Location is: the URL of that target (on
    the intra-data network for GET and PUT, the intra-control network for
    DELETE and HEAD, when the client is local, else the public one), the
    request's path and query, the proxy-id and unix-time parameters, and,
    for a HEAD whose query sets check-exists, "&check-exists=true" after
    them. *)
Theorem object_redirects (g : gateway) (smap : smapX) (started : Z) (r : request)
    (url : string) (code : Z) :
  Method r ∈ [http.MethodGet; http.MethodPut; http.MethodDelete; http.MethodHead] ->
  objectHandler g smap started r = Redirect url code
  <-> exists node,
        routed smap r node
        /\ code = redirectCode (Method r)
        /\ url = URL node (if localClient g r then redirectNet (Method r) else NetworkPublic)
                 +:+ pathAndQuery r +:+ stamp g started +:+ checkExistsSuffix r.
Proof.
  intros Hm.
  repeat (apply elem_of_cons in Hm as [Hm|Hm]); [| | | |inversion Hm].
  - assert (Hh : objectHandler g smap started r = httpobjget g smap started r)
      by (unfold objectHandler; rewrite Hm; reflexivity).
    assert (Hs : checkExistsSuffix r = "")
      by (unfold checkExistsSuffix; rewrite Hm; reflexivity).
    rewrite Hh, (httpobjget_redirect g smap started r url code Hm), Hs, Hm.
    split; intros (node & Hr & Hc & Hu); exists node; (split; [exact Hr|]); (split; [exact Hc|]).
    + rewrite Hu, redirectURL_shape, nodeURL_local, append_empty. reflexivity.
    + rewrite Hu, redirectURL_shape, nodeURL_local, append_empty. reflexivity.
  - assert (Hh : objectHandler g smap started r = httpobjput g smap started r)
      by (unfold objectHandler; rewrite Hm; reflexivity).
    assert (Hs : checkExistsSuffix r = "")
      by (unfold checkExistsSuffix; rewrite Hm; reflexivity).
    rewrite Hh, (httpobjput_redirect g smap started r url code Hm), Hs, Hm.
    split; intros (node & Hr & Hc & Hu); exists node; (split; [exact Hr|]); (split; [exact Hc|]).
    + rewrite Hu, redirectURL_shape, nodeURL_local, append_empty. reflexivity.
    + rewrite Hu, redirectURL_shape, nodeURL_local, append_empty. reflexivity.
  - assert (Hh : objectHandler g smap started r = httpobjdelete g smap started r)
      by (unfold objectHandler; rewrite Hm; reflexivity).
    assert (Hs : checkExistsSuffix r = "")
      by (unfold checkExistsSuffix; rewrite Hm; reflexivity).
    rewrite Hh, (httpobjdelete_redirect g smap started r url code Hm), Hs, Hm.
    split; intros (node & Hr & Hc & Hu); exists node; (split; [exact Hr|]); (split; [exact Hc|]).
    + rewrite Hu, redirectURL_shape, nodeURL_local, append_empty. reflexivity.
    + rewrite Hu, redirectURL_shape, nodeURL_local, append_empty. reflexivity.
  - assert (Hh : objectHandler g smap started r = httpobjhead g smap started r)
      by (unfold objectHandler; rewrite Hm; reflexivity).
    assert (Hs : checkExistsSuffix r
                 = if IsParseBool (Get (Query r) URLParamCheckExists)
                   then "&" +:+ URLParamCheckExists +:+ "=true" else "")
      by (unfold checkExistsSuffix; rewrite Hm; reflexivity).
    rewrite Hh, (httpobjhead_redirect g smap started r url code Hm), Hs, Hm.
    split; intros (node & Hr & Hc & Hu); exists node; (split; [exact Hr|]); (split; [exact Hc|]).
    + rewrite Hu, redirectURL_shape, nodeURL_local, !append_assoc. reflexivity.
    + rewrite Hu, redirectURL_shape, nodeURL_local, !append_assoc. reflexivity.
Qed.

End RedirectFacts.

#[local] Existing Instance refNet.
#[local] Existing Instance refChecks.
#[local] Existing Instance Ref.cmn.

Lemma object_redirects_witness :
  objectHandler gw Ref.smap0 1600000000 putObject
  = Redirect "http://t2:10081/v1/objects/b/o?provider=ais&proxy-id=p1&unix-time=1600000000" 307
  /\ exists node,
       routed Ref.smap0 putObject node
       /\ 307 = redirectCode "PUT"
       /\ "http://t2:10081/v1/objects/b/o?provider=ais&proxy-id=p1&unix-time=1600000000"
          = URL node (if localClient gw putObject then redirectNet "PUT" else NetworkPublic)
            +:+ pathAndQuery putObject +:+ stamp gw 1600000000
            +:+ checkExistsSuffix putObject.
Proof.
  split; [vm_compute; reflexivity|].
  apply (object_redirects gw Ref.smap0 1600000000 putObject).
  - right; left.
  - vm_compute. reflexivity.
Defined.

(** C3 as the specification words it does not hold for HEAD with
    check-exists set: the
    Location is not the target's URL, path and query followed by proxy-id
    and unix-time (on whichever network): httpobjhead appends
    "&check-exists=true" after them. *)
Lemma head_check_exists_location :
  objectHandler gw Ref.smap0 1600000000 headObject
  = Redirect ("http://t2:9081/v1/objects/b/o?check-exists=true&proxy-id=p1&unix-time=1600000000"
              +:+ "&check-exists=true") 307
  /\ HrwTarget (MakeUname (Checks := refChecks) "b" "o") Ref.smap0 = inr Ref.T2
  /\ forall net,
       redirectURL gw headObject Ref.T2 1600000000 net
       <> "http://t2:9081/v1/objects/b/o?check-exists=true&proxy-id=p1&unix-time=1600000000"
          +:+ "&check-exists=true".
Proof.
  split; [vm_compute; reflexivity|]. split; [vm_compute; reflexivity|].
  intros net; destruct net; vm_compute; discriminate.
Qed.

End ObjFacts.

Module RunFacts.
Import Prx PrxFacts.

Section RunFacts.
Context {OS : Owner smapX} {OB : Owner bucketMD} {OR : Owner rebMD}.
Context {SO : SmapOps} {C : Cmn} {BO : BmdOps} {MR : MapRange} {PE : Peers}.

(** Sequencing, one step at a time. *)
Lemma bind_ret {A B : Type} (m : prx A) (k : A -> prx B) (p p1 p2 : proxyrunner)
    (a : A) (v : outcome B) (t1 t2 : list event) :
  m p = mkRun (Ret a) p1 t1 -> k a p1 = mkRun v p2 t2 ->
  (m ≫= k) p = mkRun v p2 (t1 ++ t2).
Proof.
  intros Hm Hk. unfold mbind, prx_bind, andThen. rewrite Hm. cbn [value final trace].
  rewrite Hk. reflexivity.
Qed.

Lemma bind_panic {A B : Type} (m : prx A) (k : A -> prx B) (p p1 : proxyrunner)
    (why : string) (t1 : list event) :
  m p = mkRun (Panic why) p1 t1 -> (m ≫= k) p = mkRun (Panic why) p1 t1.
Proof.
  intros Hm. unfold mbind, prx_bind, andThen. rewrite Hm. reflexivity.
Qed.

Lemma bind_reads {A B : Type} (f : proxyrunner -> A) (k : A -> prx B) (p : proxyrunner) :
  (reads f ≫= k) p = k (f p) p.
Proof.
  unfold mbind, prx_bind, andThen, reads. cbn [value final trace app].
  destruct (k (f p) p). reflexivity.
Qed.

(** On the primary, with a valid map, forwardCP does nothing. *)
Lemma forwardCP_primary (r : request) (msg : option ActionMsg) (s : string)
    (body : option string) (p : proxyrunner) :
  isValid (get (owner_smap p)) = true -> isPrimary (get (owner_smap p)) (si p) = true ->
  forwardCP r msg s body p = mkRun (Ret false) p [].
Proof.
  intros Hvalid Hprim. unfold forwardCP. run_step. rewrite Hvalid. cbn [negb].
  rewrite Hprim. reflexivity.
Qed.

End RunFacts.

End RunFacts.

Module DlFrontFacts.
Import Prx DlFront.

Section HandlerFacts.
Context `{Dl.Downloader} {MR : MapRange} {F : Front}.

Lemma firstError_spec (results : list Call.callResult) :
  (Forall (fun res => Call.err res = None) results
   /\ firstError results = (http.StatusOK, None))
  \/ (exists pre res post e,
        results = pre ++ res :: post
        /\ Forall (fun res => Call.err res = None) pre
        /\ Call.err res = Some e
        /\ firstError results = (Call.status res, Some e)).
Proof.
  induction results as [|res rest IH]; simpl.
  - left. split; [constructor | reflexivity].
  - destruct (Call.err res) as [e|] eqn:Ee.
    + right. exists [], res, rest, e. repeat split; [constructor | exact Ee].
    + destruct IH as [[Hall Hf] | (pre & res' & post & e & -> & Hpre & He & Hf)].
      * left. split; [constructor; assumption | exact Hf].
      * right. exists (res :: pre), res', post, e.
        repeat split; [constructor; assumption | exact He | exact Hf].
Qed.

(** X1.  broadcastStartDownloadRequest issues one broadcast: a POST to the
    request's path carrying the body, with the request's query in which
    uuid is set to the new id.  It returns the status and the error of the
    first result that has an error, whatever that status is, and 200 with
    no error when no result has one, which includes the case of no result
    at all. *)
Theorem start_download_first_error (bcastGroup : Call.ReqArgs -> list Call.callResult)
    (r : request) (id body : string) :
  let req := Call.mkReqArgs http.MethodPost "" (Path r)
               (<[URLParamUUID := id]> (Query r)) (Some body) in
  let out := broadcastStartDownloadRequest bcastGroup r id body in
  out.2 = [req]
  /\ (bcastGroup req = [] -> out.1 = (http.StatusOK, None))
  /\ ((Forall (fun res => Call.err res = None) (bcastGroup req)
       /\ out.1 = (http.StatusOK, None))
      \/ (exists pre res post e,
            bcastGroup req = pre ++ res :: post
            /\ Forall (fun res => Call.err res = None) pre
            /\ Call.err res = Some e
            /\ out.1 = (Call.status res, Some e))).
Proof.
  intros req out. subst out. unfold broadcastStartDownloadRequest. fold req. simpl.
  split; [reflexivity|]. split.
  - intros ->. reflexivity.
  - apply firstError_spec.
Qed.

Lemma validate_effects (r : request) (body : string) :
  match validateStartDownloadRequest r body with
  | (effs, Some _) => effs = []
  | (effs, None) => exists e, effs = [e] /\ (isError e = true \/ exists c, e = LeftTo c)
  end.
Proof.
  unfold validateStartDownloadRequest.
  destruct (UnmarshalBody body) as [e|dlb].
  { eexists. split; [reflexivity|]. left. reflexivity. }
  destruct (UnmarshalBase dlb) as [e|dlBase].
  { eexists. split; [reflexivity|]. left. reflexivity. }
  destruct (initAndTry r body dlBase).
  - eexists. split; [reflexivity|]. right. eexists. reflexivity.
  - reflexivity.
Qed.

(** X2.  httpDownloadPost registers the download with the information
    council and returns its id only after every target has accepted the
    start request: then the effects are exactly the registration under the
    id that was broadcast, followed by the reply with that id.  In every
    other case the request ends with one error answer (or the return after
    a callee's error), nothing is registered and no id is returned; when a
    target failed, the answer carries that target's status. *)
Theorem download_registered_after_all_accept
    (bcastGroup : Call.ReqArgs -> list Call.callResult) (smap : smapX) (id : string)
    (r : request) :
  let out := httpDownloadPost bcastGroup smap id r in
  let req body := Call.mkReqArgs http.MethodPost "" (Path r)
                    (<[URLParamUUID := id]> (Query r)) (Some body) in
  ((exists dlb interval body,
       ReadAll r = inr body
       /\ Forall (fun res => Call.err res = None) (bcastGroup (req body))
       /\ out = ([RegisterEqual id (DlType dlb) smap interval; RespondWithID id], [req body]))
   \/ (exists e, out.1 = [e] /\ (isError e = true \/ exists c, e = LeftTo c)))
  /\ (forall body pre res post e,
        out.2 = [req body] ->
        bcastGroup (req body) = pre ++ res :: post ->
        Forall (fun res => Call.err res = None) pre ->
        Call.err res = Some e ->
        out.1 = [Inval ("Error starting download: " +:+ errorText e) (Some (Call.status res))]).
Proof.
  intros out req. subst out. unfold httpDownloadPost.
  destruct (checkRESTItems r) as [e|items].
  { split; [right; eexists; split; [reflexivity | right; eexists; reflexivity] |].
    intros; discriminate. }
  destruct (ReadAll r) as [e|body].
  { split; [right; eexists; split; [reflexivity | left; reflexivity] |].
    intros; discriminate. }
  pose proof (validate_effects r body) as Hv.
  destruct (validateStartDownloadRequest r body) as [effs [[dlb dlBase]|]].
  2:{ split; [right; exact Hv | intros; discriminate]. }
  subst effs.
  destruct (if bool_decide (ProgressInterval dlBase <> "")
            then ParseDuration (ProgressInterval dlBase)
            else inr DownloadProgressInterval) as [e|interval].
  { split; [right; eexists; split; [reflexivity | left; reflexivity] |].
    intros; discriminate. }
  unfold broadcastStartDownloadRequest. fold (req body).
  destruct (firstError_spec (bcastGroup (req body)))
    as [[Hall Hf] | (pre & res & post & e & Hres & Hpre & He & Hf)]; rewrite Hf; simpl.
  - split.
    + left. exists dlb, interval, body. repeat split. exact Hall.
    + intros body' pre res post e [= <-] Hres _ He. exfalso.
      rewrite Hres in Hall. apply Forall_app in Hall as [_ Hall].
      inversion Hall as [|? ? Hr _]. congruence.
  - split.
    + right. eexists. split; [reflexivity | left; reflexivity].
    + intros body' pre' res' post' e' [= <-] Hres' Hpre' He'.
      assert (pre' = pre /\ res' = res) as [-> ->].
      { clear Hf. rewrite Hres in Hres'. clear Hres.
        revert pre' Hres' Hpre'. induction Hpre as [|x pre Hx _ IH]; intros pre' Hres' Hpre'.
        - destruct pre' as [|y pre']; simpl in Hres'.
          + injection Hres' as -> _. split; reflexivity.
          + injection Hres' as -> _. inversion Hpre'; congruence.
        - destruct pre' as [|y pre']; simpl in Hres'.
          + injection Hres' as <- _. congruence.
          + injection Hres' as <- Hrest. inversion Hpre'; subst.
            destruct (IH pre' Hrest) as [-> ->]; [assumption|]. split; reflexivity. }
      congruence.
Qed.

Lemma admin_broadcast_request (w : Dl.world) (method path : string) (msg : Dl.DlAdminBody) req :
  req ∈ (Dl.broadcastDownloadAdminRequest w method path msg).2 ->
  req = Dl.mkReq method path (Dl.MarshalMsg msg).
Proof.
  unfold Dl.broadcastDownloadAdminRequest.
  destruct (Dl.fromListener w method msg); simpl; intros Hin.
  - inversion Hin.
  - apply list_elem_of_singleton in Hin. exact Hin.
Qed.

Lemma admin_tail_requests (w : Dl.world) (method path : string) (msg : Dl.DlAdminBody) :
  (let '(res, reqs) := Dl.broadcastDownloadAdminRequest w method path msg in
   match res with
   | Panic why => (Panic why, reqs)
   | Ret (resp, statusCode, Some e) => (Ret [Inval (errorText e) (Some statusCode)], reqs)
   | Ret (resp, _, None) => (Ret [Write resp], reqs)
   end).2 = (Dl.broadcastDownloadAdminRequest w method path msg).2.
Proof.
  destruct (Dl.broadcastDownloadAdminRequest w method path msg) as [[[[resp code] [e|]]|why] reqs];
    reflexivity.
Qed.

(** X3.  httpDownloadAdmin broadcasts nothing before the cluster has
    started (the answer is 503) and nothing when the payload does not
    validate.  A DELETE is broadcast only when the first path item after
    /v1/download is abort or remove; what is broadcast then carries the
    request's method and path and the marshalled payload. *)
Theorem download_admin_checks_before_broadcast (w : Dl.world) (started : bool) (r : request) :
  let out := httpDownloadAdmin w started r in
  (started = false -> out = (Ret [WriteHeader StatusServiceUnavailable], []))
  /\ (forall req, req ∈ out.2 ->
        started = true
        /\ exists payload,
             ReadJSON r = Some payload
             /\ Validate payload (bool_decide (Method r = http.MethodDelete)) = None
             /\ req = Dl.mkReq (Method r) (Path r) (Dl.MarshalMsg payload)
             /\ (Method r = http.MethodDelete ->
                 exists items item0,
                   MatchRESTItems (Path r) = inr items /\ items !! 0%nat = Some item0
                   /\ (item0 = Abort \/ item0 = Remove))).
Proof.
  intros out. subst out. unfold httpDownloadAdmin. split.
  { intros ->. reflexivity. }
  intros req Hin. destruct started; simpl in Hin; [|inversion Hin].
  split; [reflexivity|].
  destruct (ReadJSON r) as [payload|]; [|inversion Hin].
  destruct (Validate payload (bool_decide (Method r = http.MethodDelete))) eqn:Ev;
    [inversion Hin|].
  exists payload. split; [reflexivity|]. split; [exact Ev|].
  destruct (decide (Method r = http.MethodDelete)) as [Hd|Hd].
  - rewrite (bool_decide_eq_true_2 _ Hd) in Hin.
    destruct (MatchRESTItems (Path r)) as [e|items]; [inversion Hin|].
    destruct (items !! 0%nat) as [item0|] eqn:Ei; [|inversion Hin].
    destruct (bool_decide (item0 <> Abort) && bool_decide (item0 <> Remove)) eqn:Ea;
      [inversion Hin|].
    destruct (bool_decide (Dl.ID payload <> "") && redirectToIC r); [inversion Hin|].
    rewrite admin_tail_requests in Hin. apply admin_broadcast_request in Hin.
    split; [exact Hin|].
    intros _. exists items, item0. split; [reflexivity|]. split; [exact Ei|].
    apply andb_false_iff in Ea as [Ea|Ea]; apply bool_decide_eq_false in Ea.
    + left. destruct (decide (item0 = Abort)); [assumption | contradiction].
    + right. destruct (decide (item0 = Remove)); [assumption | contradiction].
  - rewrite (bool_decide_eq_false_2 _ Hd) in Hin.
    destruct (bool_decide (Dl.ID payload <> "") && redirectToIC r); [inversion Hin|].
    rewrite admin_tail_requests in Hin. apply admin_broadcast_request in Hin.
    split; [exact Hin | intros; contradiction].
Qed.

(** X4.  downloadHandler lets a request reach the targets only when the
    cluster has started and the permission check has passed; GET and
    DELETE go out as admin broadcasts, POST as a start broadcast, and any
    other method is answered with an error.  Before the cluster has started
    the answer is 503; a failed permission check is answered with 401. *)
Theorem download_handler_gate (w : Dl.world)
    (bcastGroup : Call.ReqArgs -> list Call.callResult)
    (started : bool) (smap : smapX) (id : string) (r : request) :
  let out := downloadHandler w bcastGroup started smap id r in
  (started = false -> out = (Ret [WriteHeader StatusServiceUnavailable], []))
  /\ (forall e, started = true -> checkPermissions r = Some e ->
        out = (Ret [Inval (errorText e) (Some Obj.StatusUnauthorized)], []))
  /\ (forall req, req ∈ out.2 ->
        started = true /\ checkPermissions r = None
        /\ match req with
           | inl _ => Method r = http.MethodGet \/ Method r = http.MethodDelete
           | inr _ => Method r = http.MethodPost
           end)
  /\ (started = true -> checkPermissions r = None ->
      Method r <> http.MethodGet -> Method r <> http.MethodDelete ->
      Method r <> http.MethodPost ->
      exists msg, out = (Ret [InvalidHandler msg], [])).
Proof.
  intros out. subst out. unfold downloadHandler. repeat split.
  - intros ->. reflexivity.
  - intros e -> ->. reflexivity.
  - destruct started; [reflexivity | inversion H0].
  - destruct started; [|inversion H0]. simpl in H0.
    destruct (checkPermissions r); [inversion H0 | reflexivity].
  - destruct started; [|inversion H0]. simpl in H0.
    destruct (checkPermissions r); [inversion H0|].
    destruct (decide (Method r = http.MethodGet)) as [Hg|Hg].
    { rewrite (bool_decide_eq_true_2 _ Hg) in H0. simpl in H0.
      destruct (httpDownloadAdmin w true r) as [o reqs]. simpl in H0.
      apply list_elem_of_fmap in H0 as (x & -> & _). left. exact Hg. }
    rewrite (bool_decide_eq_false_2 _ Hg) in H0. simpl in H0.
    destruct (decide (Method r = http.MethodDelete)) as [Hd|Hd].
    { rewrite (bool_decide_eq_true_2 _ Hd) in H0.
      destruct (httpDownloadAdmin w true r) as [o reqs]. simpl in H0.
      apply list_elem_of_fmap in H0 as (x & -> & _). right. exact Hd. }
    rewrite (bool_decide_eq_false_2 _ Hd) in H0.
    destruct (decide (Method r = http.MethodPost)) as [Hp|Hp].
    { rewrite (bool_decide_eq_true_2 _ Hp) in H0.
      destruct (httpDownloadPost bcastGroup smap id r) as [o reqs]. simpl in H0.
      apply list_elem_of_fmap in H0 as (x & -> & _). exact Hp. }
    rewrite (bool_decide_eq_false_2 _ Hp) in H0. inversion H0.
  - intros -> -> Hg Hd Hp. simpl.
    rewrite (bool_decide_eq_false_2 _ Hg), (bool_decide_eq_false_2 _ Hd),
      (bool_decide_eq_false_2 _ Hp). simpl. eexists. reflexivity.
Qed.

End HandlerFacts.

End DlFrontFacts.

Module DlFrontExamples.
Import Prx DlFront DlFrontFacts DlFrontSamples.

#[local] Existing Instance Dl.tally.
#[local] Existing Instance canonicalRange.
#[local] Existing Instance front.

(** Two targets accept the start request: the download is registered and
    its id returned.  The second target refuses: the client gets its
    status, and nothing is registered. *)
Lemma download_registered_after_all_accept_witness :
  (httpDownloadPost (fun _ => [accepted DlSamples.T1; accepted DlSamples.T2])
     Ref.smap0 "dl-7" startReq).1
  = [RegisterEqual "dl-7" "single" Ref.smap0 10; RespondWithID "dl-7"]
  /\ (httpDownloadPost (fun _ => [accepted DlSamples.T1; refused DlSamples.T2])
        Ref.smap0 "dl-7" startReq).1
     = [Inval "Error starting download: out of space" (Some 507)].
Proof.
  split.
  - pose proof (download_registered_after_all_accept
                  (fun _ => [accepted DlSamples.T1; accepted DlSamples.T2])
                  Ref.smap0 "dl-7" startReq) as H.
    cbv zeta in H. destruct H as [[(dlb & interval & body & _ & _ & H) | (e & H & _)] _].
    + vm_compute in H. vm_compute. injection H as <- <-. reflexivity.
    + vm_compute in H. discriminate.
  - pose proof (download_registered_after_all_accept
                  (fun _ => [accepted DlSamples.T1; refused DlSamples.T2])
                  Ref.smap0 "dl-7" startReq) as H.
    cbv zeta in H. destruct H as [_ H].
    apply (H "single" [accepted DlSamples.T1] (refused DlSamples.T2) [] (ErrMsg "out of space"));
      [reflexivity | reflexivity | repeat constructor | reflexivity].
Defined.

(** DELETE /v1/download/remove for a known id is broadcast as it came. *)
Lemma download_admin_checks_before_broadcast_witness :
  (httpDownloadAdmin DlSamples.emptyCluster true removeReq).2
  = [Dl.mkReq "DELETE" "/v1/download/remove" "dl-1"]
  /\ exists items item0,
       MatchRESTItems (Path removeReq) = inr items /\ items !! 0%nat = Some item0
       /\ (item0 = Abort \/ item0 = Remove).
Proof.
  split; [reflexivity|].
  pose proof (download_admin_checks_before_broadcast DlSamples.emptyCluster true removeReq) as H.
  cbv zeta in H. destruct H as [_ H].
  destruct (H (Dl.mkReq "DELETE" "/v1/download/remove" "dl-1")) as (_ & payload & _ & _ & _ & Hd).
  - left.
  - exact (Hd eq_refl).
Defined.

End DlFrontExamples.

Module TaskFacts.
Import Prx Task.

Section TaskFacts.
Context {T : Tasks}.

Lemma checkLoop_settled (pre rest : list Call.callResult) (a : bool) :
  Forall settled pre ->
  checkLoop (pre ++ rest) a = checkLoop rest (a && all404 pre).
Proof.
  intros Hpre. revert a. induction Hpre as [|x pre Hx _ IH]; intros a; simpl.
  - rewrite andb_true_r. reflexivity.
  - destruct Hx as [Hx | [Hx He]]; rewrite Hx; simpl.
    + apply IH.
    + rewrite He. simpl. rewrite IH. rewrite andb_false_r. reflexivity.
Qed.

(** X5.  checkBckTaskResp passes over 404 replies.  (1) When every reply is
    a 404, or there is none, it reports that the task does not exist, and
    allOK is left true.  (2) The first reply other than a 404 that has an
    error ends the check with that reply's status and error.  (3) The first
    reply without error whose status is neither 404 nor 200 (a target still
    at work) ends it with allOK false, that status and no error, whatever
    the replies after it hold.  (4) When every reply is a 404 or an
    error-free 200, and at least one is not a 404, allOK is true. *)
Theorem task_responses (uuid : string) (results : list Call.callResult) :
  (all404 results = true ->
   checkBckTaskResp uuid results = (true, 0, Some (taskNotFound uuid)))
  /\ (forall pre res post e,
        results = pre ++ res :: post -> Forall settled pre ->
        Call.status res <> http.StatusNotFound -> Call.err res = Some e ->
        checkBckTaskResp uuid results = (false, Call.status res, Some e))
  /\ (forall pre res post,
        results = pre ++ res :: post -> Forall settled pre ->
        Call.status res <> http.StatusNotFound -> Call.status res <> http.StatusOK ->
        Call.err res = None ->
        checkBckTaskResp uuid results = (false, Call.status res, None))
  /\ (Forall settled results -> all404 results = false ->
      checkBckTaskResp uuid results = (true, 0, None)).
Proof.
  unfold checkBckTaskResp. repeat split.
  - intros Hall.
    assert (Hs : Forall settled results).
    { unfold all404 in Hall. rewrite forallb_forall in Hall. apply Forall_forall.
      intros x Hx. left. apply Z.eqb_eq. apply Hall. apply list_elem_of_In. exact Hx. }
    rewrite <- (app_nil_r results). rewrite (checkLoop_settled _ _ _ Hs). rewrite Hall.
    reflexivity.
  - intros pre res post e -> Hpre Hnf He.
    rewrite (checkLoop_settled _ _ _ Hpre). simpl.
    destruct (Z.eqb_spec (Call.status res) http.StatusNotFound); [contradiction|].
    rewrite He. reflexivity.
  - intros pre res post -> Hpre Hnf Hok He.
    rewrite (checkLoop_settled _ _ _ Hpre). simpl.
    destruct (Z.eqb_spec (Call.status res) http.StatusNotFound); [contradiction|].
    rewrite He.
    destruct (Z.eqb_spec (Call.status res) http.StatusOK); [contradiction|]. reflexivity.
  - intros Hs Hall.
    rewrite <- (app_nil_r results). rewrite (checkLoop_settled _ _ _ Hs). rewrite Hall.
    reflexivity.
Qed.

Lemma collectSummaries_all (results : list summaryResult) (acc : list BucketSummary) :
  Forall (fun res => s_err res = None) results ->
  collectSummaries results acc = inr (fold_left Aggregate (concat (sv <$> results)) acc).
Proof.
  intros Hall. revert acc. induction Hall as [|x l Hx _ IH]; intros acc; simpl.
  - reflexivity.
  - rewrite Hx. rewrite IH. rewrite fold_left_app. reflexivity.
Qed.

Lemma collectSummaries_first (pre post : list summaryResult) (res : summaryResult) (e : error)
    (acc : list BucketSummary) :
  Forall (fun res => s_err res = None) pre -> s_err res = Some e ->
  collectSummaries (pre ++ res :: post) acc = inl e.
Proof.
  intros Hpre He. revert acc. induction Hpre as [|x l Hx _ IH]; intros acc; simpl.
  - rewrite He. reflexivity.
  - rewrite Hx. apply IH.
Qed.

(** The four ways checkBckTaskResp ends, by the replies it reads. *)
Lemma check_none_found (uuid : string) (results : list Call.callResult) :
  all404 results = true ->
  checkBckTaskResp uuid results = (true, 0, Some (taskNotFound uuid)).
Proof.
  intros Hall. unfold checkBckTaskResp.
  assert (Hs : Forall settled results).
  { unfold all404 in Hall. rewrite forallb_forall in Hall. apply Forall_forall.
    intros x Hx. left. apply Z.eqb_eq. apply Hall. apply list_elem_of_In. exact Hx. }
  rewrite <- (app_nil_r results). rewrite (checkLoop_settled _ _ _ Hs). rewrite Hall.
  reflexivity.
Qed.

Lemma check_first_error (uuid : string) (pre post : list Call.callResult)
    (res : Call.callResult) (e : error) :
  Forall settled pre -> Call.status res <> http.StatusNotFound -> Call.err res = Some e ->
  checkBckTaskResp uuid (pre ++ res :: post) = (false, Call.status res, Some e).
Proof.
  intros Hpre Hnf He. unfold checkBckTaskResp.
  rewrite (checkLoop_settled _ _ _ Hpre). simpl.
  destruct (Z.eqb_spec (Call.status res) http.StatusNotFound); [contradiction|].
  rewrite He. reflexivity.
Qed.

Lemma check_at_work (uuid : string) (pre post : list Call.callResult)
    (res : Call.callResult) :
  Forall settled pre -> Call.status res <> http.StatusNotFound ->
  Call.status res <> http.StatusOK -> Call.err res = None ->
  checkBckTaskResp uuid (pre ++ res :: post) = (false, Call.status res, None).
Proof.
  intros Hpre Hnf Hok He. unfold checkBckTaskResp.
  rewrite (checkLoop_settled _ _ _ Hpre). simpl.
  destruct (Z.eqb_spec (Call.status res) http.StatusNotFound); [contradiction|].
  rewrite He.
  destruct (Z.eqb_spec (Call.status res) http.StatusOK); [contradiction|]. reflexivity.
Qed.

Lemma check_all_done (uuid : string) (results : list Call.callResult) :
  Forall settled results -> all404 results = false ->
  checkBckTaskResp uuid results = (true, 0, None).
Proof.
  intros Hs Hall. unfold checkBckTaskResp.
  rewrite <- (app_nil_r results). rewrite (checkLoop_settled _ _ _ Hs). rewrite Hall.
  reflexivity.
Qed.

(** X6.  gatherBucketSummary.  (1) For a message without a task id it
    broadcasts once, with task-action set to start and the fresh id in the
    message.  When every reply is a 404, or there is no reply at all, it
    returns the error that the task does not exist, and no id; when the
    first reply that is neither a 404 nor an error-free 200 has an error, it
    returns that error, and no id; in every other case (that reply has no
    error, or every reply is a 404 or an error-free 200 and one is a 200)
    it returns the fresh id and nothing else.  (2) For a message with an id
    it first asks for the status; while some target answers without error
    with a status other than 404 and 200 the id is returned and nothing
    else is asked.  (3) When every reply is a 404 or an error-free 200 and
    at least one is a 200, a second broadcast asks for the results
    (task-action result, silent true); the summaries of all targets are
    aggregated in arrival order, and the first error among them is returned
    instead. *)
Theorem summary_phases (t : targets) (smap : smapX) (newID : string) (bck : Bck)
    (msg : BucketSummaryMsg Rest) :
  let out := gatherBucketSummary t smap newID bck msg in
  let started := mkSummaryMsg newID (rest msg) in
  let req1 m action := Call.mkReqArgs http.MethodPost "" (bucketsPath (BckName bck))
                         (AddBckToQuery (<[URLParamTaskAction := action]> ∅) bck)
                         (Some (MarshalSummary m smap)) in
  let req2 := Call.mkReqArgs http.MethodPost "" (bucketsPath (BckName bck))
                (resultQuery bck) (Some (MarshalSummary msg smap)) in
  (UUID msg = "" ->
   let replies := bcastToGroup t (req1 started TaskStart) in
   (all404 replies = true ->
    out = (None, "", Some (taskNotFound newID), [req1 started TaskStart]))
   /\ (forall pre res post e,
         replies = pre ++ res :: post -> Forall settled pre ->
         Call.status res <> http.StatusNotFound -> Call.err res = Some e ->
         out = (None, "", Some e, [req1 started TaskStart]))
   /\ (forall pre res post,
         replies = pre ++ res :: post -> Forall settled pre ->
         Call.status res <> http.StatusNotFound -> Call.status res <> http.StatusOK ->
         Call.err res = None ->
         out = (None, newID, None, [req1 started TaskStart]))
   /\ (Forall settled replies -> all404 replies = false ->
       out = (None, newID, None, [req1 started TaskStart])))
  /\ (UUID msg <> "" ->
      forall pre res post,
        bcastToGroup t (req1 msg TaskStatus) = pre ++ res :: post -> Forall settled pre ->
        Call.status res <> http.StatusNotFound -> Call.status res <> http.StatusOK ->
        Call.err res = None ->
        out = (None, UUID msg, None, [req1 msg TaskStatus]))
  /\ (UUID msg <> "" ->
      Forall settled (bcastToGroup t (req1 msg TaskStatus)) ->
      all404 (bcastToGroup t (req1 msg TaskStatus)) = false ->
      (Forall (fun res => s_err res = None) (bcastSummaries t req2) ->
       out = (Some (fold_left Aggregate (concat (sv <$> bcastSummaries t req2)) []), "", None,
              [req1 msg TaskStatus; req2]))
      /\ (forall pre res post e,
            bcastSummaries t req2 = pre ++ res :: post ->
            Forall (fun res => s_err res = None) pre -> s_err res = Some e ->
            out = (None, "", Some e, [req1 msg TaskStatus; req2]))).
Proof.
  intros out started req1 req2. subst out. unfold gatherBucketSummary, initAsyncQuery.
  split; [|split].
  - intros Hnew. cbv zeta. rewrite (bool_decide_eq_true_2 _ Hnew). cbn [UUID]. fold started.
    fold (req1 started TaskStart). set (replies := bcastToGroup t (req1 started TaskStart)).
    split; [|split; [|split]].
    + intros Hall. rewrite (check_none_found newID replies Hall). reflexivity.
    + intros pre res post e Hres Hpre Hnf He.
      rewrite Hres, (check_first_error newID pre post res e Hpre Hnf He). reflexivity.
    + intros pre res post Hres Hpre Hnf Hok He.
      rewrite Hres, (check_at_work newID pre post res Hpre Hnf Hok He). reflexivity.
    + intros Hs Hall. rewrite (check_all_done newID replies Hs Hall). reflexivity.
  - intros Hid pre res post Hres Hpre Hnf Hok He.
    rewrite (bool_decide_eq_false_2 _ Hid). fold (req1 msg TaskStatus).
    rewrite Hres, (check_at_work (UUID msg) pre post res Hpre Hnf Hok He). reflexivity.
  - intros Hid Hs Hall.
    rewrite (bool_decide_eq_false_2 _ Hid). fold (req1 msg TaskStatus).
    rewrite (check_all_done (UUID msg) _ Hs Hall). simpl. fold req2.
    split.
    + intros Hall2. rewrite (collectSummaries_all _ _ Hall2). reflexivity.
    + intros pre res post e Hres Hpre He.
      rewrite Hres. rewrite (collectSummaries_first _ _ _ _ _ Hpre He). reflexivity.
Qed.

(** X7.  doListRange broadcasts the marshalled message once and always
    returns the id it put into it.  It reads every result: the error it
    returns is built from the last result that has an error, and there is
    none only when no result has one. *)
Theorem list_range_last_error (bcast : Call.ReqArgs -> list Call.callResult) (smap : smapX)
    (uuid method bucket : string) (msg : ActionMsg) (query : Values) :
  let out := doListRange bcast smap uuid method bucket msg query in
  let req := Call.mkReqArgs method "" (bucketsPath bucket) query
               (Some (MarshalAction msg smap uuid)) in
  out.2 = req /\ out.1.1 = uuid
  /\ (Forall noError (bcast req) <-> out.1.2 = None)
  /\ (forall pre res post e,
        bcast req = pre ++ res :: post -> Call.err res = Some e -> Forall noError post ->
        out.1.2 = Some (listRangeError msg res e)).
Proof.
  intros out req. subst out. unfold doListRange. fold req. cbn [fst snd].
  split; [reflexivity|]. split; [reflexivity|].
  set (step := fun err res => match Call.err res with
                              | Some e => Some (listRangeError msg res e)
                              | None => err
                              end).
  assert (Hquiet : forall l acc, Forall noError l -> fold_left step l acc = acc).
  { intros l acc Hl. revert acc. induction Hl as [|x l Hx _ IH]; intros acc; simpl.
    - reflexivity.
    - rewrite IH. unfold step. rewrite Hx. reflexivity. }
  assert (Hlast : forall pre res post e acc,
             Call.err res = Some e -> Forall noError post ->
             fold_left step (pre ++ res :: post) acc = Some (listRangeError msg res e)).
  { intros pre res post e acc He Hpost. rewrite fold_left_app. simpl.
    rewrite (Hquiet _ _ Hpost). unfold step at 1. rewrite He. reflexivity. }
  split; [split|].
  - intros Hall. apply Hquiet. exact Hall.
  - intros Hnone. generalize dependent (bcast req). intros l.
    induction l as [|x l IH] using rev_ind; intros Hnone; [constructor|].
    destruct (Call.err x) as [e|] eqn:Ex.
    + rewrite (Hlast l x [] e None Ex) in Hnone by constructor. discriminate.
    + rewrite fold_left_app in Hnone. simpl in Hnone. unfold step at 1 in Hnone.
      rewrite Ex in Hnone. apply Forall_app. split; [apply IH; exact Hnone|].
      constructor; [exact Ex | constructor].
  - intros pre res post e -> He Hpost. apply Hlast; assumption.
Qed.

Lemma queryResults_all (results : list Call.callResult) (acc : gmap string (option string)) :
  Forall noError results ->
  _queryResults results acc
  = ([], Some (fold_left (fun m res => <[DaemonID (Call.si res) := Call.bytes res]> m)
                 results acc)).
Proof.
  intros Hall. revert acc. induction Hall as [|x l Hx _ IH]; intros acc; simpl.
  - reflexivity.
  - rewrite Hx. apply IH.
Qed.

Lemma fold_insert_lookup (results : list Call.callResult) (acc : gmap string (option string))
    (res : Call.callResult) :
  NoDup (DaemonID ∘ Call.si <$> results) -> res ∈ results ->
  fold_left (fun m res => <[DaemonID (Call.si res) := Call.bytes res]> m) results acc
    !! DaemonID (Call.si res) = Some (Call.bytes res).
Proof.
  revert acc. induction results as [|x l IH]; intros acc Hnd Hin; [inversion Hin|].
  simpl in *. apply NoDup_cons in Hnd as [Hx Hnd].
  apply elem_of_cons in Hin as [->|Hin].
  - clear IH Hnd. revert acc. induction l as [|y l IH]; intros acc; simpl.
    + apply lookup_insert_eq.
    + simpl in Hx. apply not_elem_of_cons in Hx as [Hne Hx].
      rewrite insert_insert_ne by (intros Heq; apply Hne; symmetry; exact Heq).
      apply IH. exact Hx.
  - apply IH; assumption.
Qed.

Lemma fold_insert_dom (results : list Call.callResult) (acc : gmap string (option string))
    (id : string) :
  is_Some (fold_left (fun m res => <[DaemonID (Call.si res) := Call.bytes res]> m) results acc
             !! id)
  <-> is_Some (acc !! id) \/ id ∈ (DaemonID ∘ Call.si <$> results).
Proof.
  revert acc. induction results as [|x l IH]; intros acc; simpl.
  - split; [intros; left; assumption | intros [?|Hin]; [assumption | inversion Hin]].
  - rewrite IH. rewrite lookup_insert_is_Some. rewrite elem_of_cons. split.
    + intros [[Heq|[_ Hs]]|Hin]; [right; left | left | right; right]; auto.
    + intros [Hs|[Heq|Hin]].
      * destruct (decide (DaemonID (Call.si x) = id)); [left; left | left; right]; auto.
      * left. left. symmetry. exact Heq.
      * right. exact Hin.
Qed.

(** X8.  _queryResults.  When no result has an error it answers nothing
    and returns a map that holds exactly the nodes that replied, each with
    the body of its reply (for nodes that reply once).  The first result
    with an error ends it: the request is answered with that result's
    details and nil is returned. *)
Theorem query_results_by_node (results : list Call.callResult) :
  (Forall noError results ->
   exists m, _queryResults results ∅ = ([], Some m)
             /\ (forall id, is_Some (m !! id) <-> id ∈ (DaemonID ∘ Call.si <$> results))
             /\ (NoDup (DaemonID ∘ Call.si <$> results) ->
                 forall res, res ∈ results ->
                   m !! DaemonID (Call.si res) = Some (Call.bytes res)))
  /\ (forall pre res post e,
        results = pre ++ res :: post -> Forall noError pre -> Call.err res = Some e ->
        _queryResults results ∅ = ([Inval (Call.details res) None], None)).
Proof.
  split.
  - intros Hall. eexists. split; [apply queryResults_all; exact Hall|]. split.
    + intros id. rewrite fold_insert_dom. rewrite lookup_empty. split.
      * intros [[? Hs]|Hin]; [discriminate | exact Hin].
      * intros Hin. right. exact Hin.
    + intros Hnd res Hin. apply fold_insert_lookup; assumption.
  - intros pre res post e -> Hpre He. generalize (∅ : gmap string (option string)).
    induction Hpre as [|x l Hx _ IH]; intros acc; simpl.
    + rewrite He. reflexivity.
    + rewrite Hx. apply IH.
Qed.

End TaskFacts.

End TaskFacts.

Module HandoverFacts.
Import Prx PrxFacts Handover.

Section HandoverFacts.
Context {OS : Owner smapX} {OB : Owner bucketMD} {OR : Owner rebMD}.
Context {SO : SmapOps} {C : Cmn} {BO : BmdOps} {MR : MapRange} {PE : Peers}.

Lemma smapFromURL_valid (url : string) (newSmap : smapX) :
  smapFromURL url = inr newSmap -> isValid newSmap = true.
Proof.
  unfold smapFromURL. destruct (fetchSmap url) as [e|m]; [discriminate|].
  destruct (isValid m) eqn:Hv; simpl; [|discriminate]. intros [= <-]. exact Hv.
Qed.

(** X9.  forcefulJoin.  (1) Asked to join itself, the proxy does nothing.
    (2) Otherwise it fetches the cluster map from the candidate URL of the
    query, or, when the query has none, from the intra-control URL its own
    map has for the proxy; when that map is valid and names the requested
    proxy as primary, the proxy tells the metasyncer to become non-primary,
    puts the fetched map and registers with the new primary, in this
    order.  (3) In every other case the state is left as it is: whenever
    forcefulJoin changes the state, what it has put is a valid map fetched
    from that URL whose primary is the requested proxy.  (4) In
    httpdaesetprimaryproxy a forced request for /proxy/<id> runs
    forcefulJoin whether or not the receiver is the primary: a receiver
    that is not answers with an error first and goes on. *)
Theorem forceful_join_installs_fetched_map (query : Values) (proxyID : string)
    (p : proxyrunner) :
  let out := forcefulJoin query proxyID p in
  let smap := get (owner_smap p) in
  (DaemonID (si p) = proxyID ->
   final out = p /\ value out = Ret tt /\ Forall (fun e => isInval e = false) (trace out))
  /\ (forall url newSmap npsi,
        DaemonID (si p) <> proxyID ->
        candidateURL query smap proxyID = Some url ->
        smapFromURL url = inr newSmap -> Primary newSmap = Some npsi ->
        DaemonID npsi = proxyID ->
        final out = set_smap (put newSmap) p /\ value out = Ret tt
        /\ exists t, trace out
                     = [EvLog Info "force new primary"; EvBecomeNonPrimary;
                        EvRegister (IntraControlNet npsi)] ++ t
                     /\ (registerToURL (IntraControlNet npsi) = None -> t = []))
  /\ (final out <> p ->
      exists url newSmap npsi,
        candidateURL query smap proxyID = Some url
        /\ smapFromURL url = inr newSmap /\ isValid newSmap = true
        /\ Primary newSmap = Some npsi /\ DaemonID npsi = proxyID
        /\ final out = set_smap (put newSmap) p)
  /\ (IsParseBool (Get query URLParamForce) = true ->
      let h := httpdaesetprimaryproxy (inr [cmnProxy; proxyID]) query p in
      final h = final out /\ value h = value out
      /\ trace h = (if isPrimary smap (si p) then []
                    else [EvInval "is not the primary" None]) ++ trace out).
Proof.
  intros out smap. subst out smap. split; [|split; [|split]].
  - intros Hself. unfold forcefulJoin. run_step.
    rewrite (bool_decide_eq_true_2 _ Hself). run_step.
    split; [reflexivity|]. split; [reflexivity|]. repeat constructor.
  - intros url newSmap npsi Hself Hurl Hfetch Hprim Hid.
    unfold forcefulJoin. run_step.
    rewrite (bool_decide_eq_false_2 _ Hself). run_step.
    unfold candidateURL in Hurl. cbv zeta in Hurl.
    destruct (decide (Get query URLParamPrimaryCandidate = "")) as [Hc|Hc].
    + rewrite (bool_decide_eq_false_2 (Get query URLParamPrimaryCandidate <> ""))
        in Hurl by (intros Hne; apply Hne; exact Hc).
      rewrite !(bool_decide_eq_true_2 _ Hc).
      destruct (GetProxy (get (owner_smap p)) proxyID) as [psi|]; [|discriminate].
      rewrite (bool_decide_eq_false_2 (Some psi = None)) by discriminate. cbn [andb].
      run_step.
      destruct (decide (IntraControlNet psi = "")) as [Hi|Hi].
      { rewrite (bool_decide_eq_false_2 (IntraControlNet psi <> "")) in Hurl
          by (intros Hne; apply Hne; exact Hi). discriminate. }
      rewrite (bool_decide_eq_true_2 _ Hi) in Hurl. injection Hurl as <-.
      rewrite (bool_decide_eq_false_2 _ Hi). rewrite Hfetch, Hprim.
      rewrite (bool_decide_eq_false_2 (proxyID <> DaemonID npsi))
        by (intros Hne; apply Hne; symmetry; exact Hid).
      run_step.
      destruct (registerToURL (IntraControlNet npsi)); run_step.
      * split; [reflexivity|]. split; [reflexivity|]. eexists. split; [reflexivity|].
        intros; discriminate.
      * split; [reflexivity|]. split; [reflexivity|]. exists []. split; reflexivity.
    + rewrite (bool_decide_eq_true_2 _ Hc) in Hurl. injection Hurl as <-.
      rewrite !(bool_decide_eq_false_2 _ Hc). rewrite andb_false_r. run_step.
      rewrite Hfetch, Hprim.
      rewrite (bool_decide_eq_false_2 (proxyID <> DaemonID npsi))
        by (intros Hne; apply Hne; symmetry; exact Hid).
      run_step.
      destruct (registerToURL (IntraControlNet npsi)); run_step.
      * split; [reflexivity|]. split; [reflexivity|]. eexists. split; [reflexivity|].
        intros; discriminate.
      * split; [reflexivity|]. split; [reflexivity|]. exists []. split; reflexivity.
  - unfold forcefulJoin, candidateURL. run_step.
    destruct (bool_decide (DaemonID (si p) = proxyID)); run_step;
      [intros Hne; exfalso; apply Hne; reflexivity|].
    destruct (decide (Get query URLParamPrimaryCandidate = "")) as [Hc|Hc].
    + rewrite !(bool_decide_eq_true_2 _ Hc).
      rewrite (bool_decide_eq_false_2 (Get query URLParamPrimaryCandidate <> ""))
        by (intros Hne; apply Hne; exact Hc).
      destruct (GetProxy (get (owner_smap p)) proxyID) as [psi|].
      2:{ rewrite (bool_decide_eq_true_2 (None = None)) by reflexivity. cbn [andb]. run_step.
          intros Hne; exfalso; apply Hne; reflexivity. }
      rewrite (bool_decide_eq_false_2 (Some psi = None)) by discriminate. cbn [andb].
      run_step.
      destruct (decide (IntraControlNet psi = "")) as [Hi|Hi].
      { rewrite (bool_decide_eq_true_2 _ Hi). run_step.
        intros Hne; exfalso; apply Hne; reflexivity. }
      rewrite (bool_decide_eq_false_2 _ Hi).
      rewrite (bool_decide_eq_true_2 (IntraControlNet psi <> "")) by exact Hi.
      destruct (smapFromURL (IntraControlNet psi)) as [e|newSmap] eqn:Hfetch; run_step.
      { intros Hne; exfalso; apply Hne; reflexivity. }
      destruct (Primary newSmap) as [npsi|] eqn:Hprim; run_step.
      2:{ intros Hne; exfalso; apply Hne; reflexivity. }
      destruct (decide (proxyID = DaemonID npsi)) as [Hid|Hid].
      2:{ rewrite (bool_decide_eq_true_2 (proxyID <> DaemonID npsi)) by exact Hid. run_step.
          intros Hne; exfalso; apply Hne; reflexivity. }
      rewrite (bool_decide_eq_false_2 (proxyID <> DaemonID npsi))
        by (intros Hne; apply Hne; exact Hid).
      run_step. intros _. exists (IntraControlNet psi), newSmap, npsi.
      split; [reflexivity|]. split; [exact Hfetch|].
      split; [exact (smapFromURL_valid _ _ Hfetch)|].
      split; [exact Hprim|]. split; [symmetry; exact Hid|].
      destruct (registerToURL (IntraControlNet npsi)); reflexivity.
    + rewrite !(bool_decide_eq_false_2 _ Hc). rewrite andb_false_r.
      rewrite (bool_decide_eq_true_2 (Get query URLParamPrimaryCandidate <> "")) by exact Hc.
      run_step.
      destruct (smapFromURL (Get query URLParamPrimaryCandidate)) as [e|newSmap] eqn:Hfetch;
        run_step.
      { intros Hne; exfalso; apply Hne; reflexivity. }
      destruct (Primary newSmap) as [npsi|] eqn:Hprim; run_step.
      2:{ intros Hne; exfalso; apply Hne; reflexivity. }
      destruct (decide (proxyID = DaemonID npsi)) as [Hid|Hid].
      2:{ rewrite (bool_decide_eq_true_2 (proxyID <> DaemonID npsi)) by exact Hid. run_step.
          intros Hne; exfalso; apply Hne; reflexivity. }
      rewrite (bool_decide_eq_false_2 (proxyID <> DaemonID npsi))
        by (intros Hne; apply Hne; exact Hid).
      run_step. intros _. exists (Get query URLParamPrimaryCandidate), newSmap, npsi.
      split; [reflexivity|]. split; [exact Hfetch|].
      split; [exact (smapFromURL_valid _ _ Hfetch)|].
      split; [exact Hprim|]. split; [symmetry; exact Hid|].
      destruct (registerToURL (IntraControlNet npsi)); reflexivity.
  - intros Hforce h. subst h. unfold httpdaesetprimaryproxy.
    cbn [lookup list_lookup]. rewrite Hforce.
    rewrite (bool_decide_eq_true_2 (cmnProxy = cmnProxy)) by reflexivity. cbn [andb].
    generalize (forcefulJoin query proxyID). intros f. run_step.
    destruct (isPrimary (get (owner_smap p)) (si p)); run_step.
    + destruct (f p) as [[u|why] fin tr] eqn:E; cbn; rewrite ?E; repeat split.
    + destruct (f p) as [[u|why] fin tr] eqn:E; cbn; rewrite ?E; repeat split.
Qed.

(** X10.  httpdaesetprimaryproxy without force.  The request is refused
    with one error answer and the state left as it is when the prepare
    parameter does not parse, when the receiver is the primary, or when the
    designated proxy is neither the receiver nor in its map.  On a receiver
    that is not the primary and has the designated proxy in its map, the
    commit call (prepare=false) puts the map with that proxy as primary and
    every other field, the version included, as before, under the lock of
    the Smap owner; nothing is metasynced. *)
Theorem set_primary_on_bystander (item0 proxyID : string) (query : Values) (p : proxyrunner) :
  let smap := get (owner_smap p) in
  let out := httpdaesetprimaryproxy (inr [item0; proxyID]) query p in
  IsParseBool (Get query URLParamForce) = false ->
  (forall e, ParseBool (Get query URLParamPrepare) = inl e ->
     final out = p /\ value out = Ret tt
     /\ trace out = [EvInval "failed to parse prepare URL parameter" None])
  /\ (forall prepare, ParseBool (Get query URLParamPrepare) = inr prepare ->
      (isPrimary smap (si p) = true ->
       final out = p /\ value out = Ret tt /\ exists msg, trace out = [EvInval msg None])
      /\ (isPrimary smap (si p) = false -> DaemonID (si p) <> proxyID ->
          GetProxy smap proxyID = None ->
          final out = p /\ value out = Ret tt
          /\ trace out = [EvInval "cannot set new primary: node not found" None])
      /\ (forall psi, prepare = false -> isPrimary smap (si p) = false ->
          DaemonID (si p) <> proxyID -> GetProxy smap proxyID = Some psi ->
          final out = set_smap (put (withPrimary smap psi)) p /\ value out = Ret tt
          /\ trace out = [EvLock OSmap; EvUnlock OSmap])).
Proof.
  intros smap out Hforce. subst smap out. unfold httpdaesetprimaryproxy.
  cbn [lookup list_lookup]. rewrite Hforce. cbn [andb]. split.
  - intros e ->. run_step. repeat split.
  - intros prepare ->. run_step. split; [|split].
    + intros ->. run_step. split; [reflexivity|]. split; [reflexivity|]. eexists. reflexivity.
    + intros -> Hne Hnone. rewrite (bool_decide_eq_false_2 _ Hne). run_step.
      rewrite Hnone. run_step. repeat split.
    + intros psi -> -> Hne Hsome. rewrite (bool_decide_eq_false_2 _ Hne). run_step.
      rewrite Hsome. unfold smap_modify. run_step. repeat split.
Qed.

(** *** The two-phase change when every node goes along *)

Lemma sendTables_no_inval (smap newSmap : smapX) (l : list (string * Z)) (p : proxyrunner) :
  exists t,
    foldr (fun kv rest =>
             let node := GetProxy newSmap kv.1 in
             (if negb (IsIC smap node) then
                emit (EvSendOwnershipTbl node);;
                match sendOwnershipTbl node with
                | Some _ => emit (EvLog Error "failed to send ownership table")
                | None => mret tt
                end
              else mret tt);;
             rest)
          (mret tt) l p
    = mkRun (Ret tt) p t /\ firstInval t = None.
Proof.
  revert p. induction l as [|kv l IH]; intros p; cbn [foldr].
  - eexists; split; reflexivity.
  - destruct (IH p) as (t & Ht & Hs). revert Ht. run_step. intros Ht.
    destruct (negb (IsIC smap (GetProxy newSmap kv.1))); run_step.
    + destruct (sendOwnershipTbl (GetProxy newSmap kv.1)); run_step.
      all: rewrite Ht; eexists; split; [reflexivity | exact Hs].
    + rewrite Ht. eexists; split; [reflexivity | exact Hs].
Qed.

Lemma syncNewICOwners_no_inval (smap newSmap : smapX) (p : proxyrunner) :
  exists t, syncNewICOwners smap newSmap p = mkRun (Ret tt) p t /\ firstInval t = None.
Proof.
  unfold syncNewICOwners.
  destruct (sendTables_no_inval smap newSmap (range 0 (IC newSmap)) p) as (t & Ht & Hs).
  revert Ht. run_step. intros Ht.
  destruct (negb (IsIC smap (Some (si p))) || negb (IsIC newSmap (Some (si p)))).
  - eexists; split; reflexivity.
  - rewrite Ht. eexists; split; [reflexivity | exact Hs].
Qed.

Lemma becomeNewPrimary_run (q : proxyrunner) :
  isPresent (get (owner_smap q)) (si q) = true ->
  exists clone t,
    becomeNewPrimary "" q = mkRun (Ret tt) (set_smap (put clone) q) t
    /\ Primary clone = Some (si q) /\ firstInval t = None.
Proof.
  intros Hpresent.
  set (smap := get (owner_smap q)).
  set (c1 := mkSmap (add64 (SmapVersion smap) 100) (SmapUUID smap) (Some (si q))
               (Pmap smap) (Tmap smap) (delete "" (IC smap))).
  set (clone := mkSmap (SmapVersion c1) (SmapUUID c1) (Primary c1) (Pmap c1) (Tmap c1)
                  (staffIC c1)).
  destruct (syncNewICOwners_no_inval smap clone (set_smap (put clone) q)) as (t & Ht & Hs).
  exists clone. unfold becomeNewPrimary, smap_modify. revert Ht. run_step. intros Ht.
  fold smap. fold smap in Hpresent. rewrite Hpresent. cbn [negb].
  rewrite (bool_decide_eq_false_2 ("" <> "")) by (intros Hne; apply Hne; reflexivity).
  run_step. fold c1. fold clone. rewrite Ht. run_step.
  eexists. split; [reflexivity|]. split; [reflexivity|].
  rewrite !app_nil_r. exact Hs.
Qed.

Lemma follower_prepare (proxyid : string) (q : proxyrunner) :
  ParseBool "true" = inr true -> ParseBool "" = inr false ->
  follows proxyid q ->
  deliver proxyid prepareQuery (PeerProxy true q)
  = (PeerProxy true q, mkCallResult (si q) None, []).
Proof.
  intros Htrue Hempty (Hnp & Hpres & Hdes). unfold deliver, httpdaesetprimaryproxy.
  cbn [lookup list_lookup].
  change (Get prepareQuery URLParamForce) with "".
  change (Get prepareQuery URLParamPrepare) with "true".
  unfold IsParseBool. rewrite Hempty, Htrue. cbn [andb negb]. run_step.
  rewrite Hnp. unfold designated in Hdes.
  destruct (bool_decide (DaemonID (si q) = proxyid)); run_step; [reflexivity|].
  destruct Hdes as [psi Hpsi]. rewrite Hpsi. run_step. reflexivity.
Qed.

Lemma follower_commit (proxyid : string) (q : proxyrunner) :
  ParseBool "false" = inr false -> ParseBool "" = inr false ->
  follows proxyid q ->
  exists clone evs,
    deliver proxyid commitQuery (PeerProxy true q)
    = (PeerProxy true (set_smap (put clone) q), mkCallResult (si q) None, evs)
    /\ Primary clone = designated proxyid q.
Proof.
  intros Hfalse Hempty (Hnp & Hpres & Hdes). unfold deliver, httpdaesetprimaryproxy.
  cbn [lookup list_lookup].
  change (Get commitQuery URLParamForce) with "".
  change (Get commitQuery URLParamPrepare) with "false".
  unfold IsParseBool. rewrite Hempty, Hfalse. cbn [andb negb]. run_step.
  rewrite Hnp. unfold designated in *.
  destruct (decide (DaemonID (si q) = proxyid)) as [Hid|Hid].
  - rewrite (bool_decide_eq_true_2 _ Hid). rewrite (bool_decide_eq_true_2 _ Hid) in Hdes.
    destruct (becomeNewPrimary_run q (Hpres Hid)) as (clone & t & Hrun & Hprim & Hinv).
    exists clone, t. revert Hrun. run_step. intros Hrun. rewrite Hrun. cbn.
    rewrite Hinv. split; [reflexivity | exact Hprim].
  - rewrite (bool_decide_eq_false_2 _ Hid). rewrite (bool_decide_eq_false_2 _ Hid) in Hdes.
    destruct Hdes as [psi Hpsi]. run_step. rewrite Hpsi. unfold smap_modify. run_step.
    eexists. eexists. split; [reflexivity|]. reflexivity.
Qed.

Lemma callAll_followers_prepare (proxyid : string) (peers : list peer) :
  ParseBool "true" = inr true -> ParseBool "" = inr false ->
  Forall (fun x => exists q, x = PeerProxy true q /\ follows proxyid q) peers ->
  peers_after (callAll proxyid prepareQuery peers) = peers
  /\ Forall (fun res => res_err res = None) (results (callAll proxyid prepareQuery peers))
  /\ calls (callAll proxyid prepareQuery peers) = (fun x => (peerNode x, prepareQuery)) <$> peers.
Proof.
  intros Htrue Hempty Hall. induction Hall as [|x rest (q & -> & Hq) _ (IHp & IHr & IHc)];
    cbn [callAll].
  - repeat split. constructor.
  - rewrite (follower_prepare proxyid q Htrue Hempty Hq).
    cbn [peers_after results calls res_si fmap list_fmap peerNode].
    rewrite IHp, IHc. split; [reflexivity|]. split; [|reflexivity].
    constructor; [reflexivity | exact IHr].
Qed.

Lemma callAll_followers_commit (proxyid : string) (peers : list peer) :
  ParseBool "false" = inr false -> ParseBool "" = inr false ->
  Forall (fun x => exists q, x = PeerProxy true q /\ follows proxyid q) peers ->
  Forall2 (fun x x' => exists q clone,
             x = PeerProxy true q /\ x' = PeerProxy true (set_smap (put clone) q)
             /\ Primary clone = designated proxyid q)
    peers (peers_after (callAll proxyid commitQuery peers))
  /\ Forall (fun res => res_err res = None) (results (callAll proxyid commitQuery peers))
  /\ calls (callAll proxyid commitQuery peers) = (fun x => (peerNode x, commitQuery)) <$> peers.
Proof.
  intros Hfalse Hempty Hall. induction Hall as [|x rest (q & -> & Hq) _ (IHp & IHr & IHc)];
    cbn [callAll].
  - repeat split; constructor.
  - destruct (follower_commit proxyid q Hfalse Hempty Hq) as (clone & evs & -> & Hprim).
    cbn [peers_after results calls res_si fmap list_fmap peerNode].
    rewrite IHc. split; [|split; [|reflexivity]].
    + constructor; [|exact IHp]. exists q, clone. repeat split. exact Hprim.
    + constructor; [reflexivity | exact IHr].
Qed.

Lemma prepareVerdict_passes (proxyid : string) (results : list callResult) (p : proxyrunner) :
  Forall (fun res => res_err res = None) results ->
  prepareVerdict proxyid results p = mkRun (Ret true) p [].
Proof.
  intros Hall. induction Hall as [|res rest Hres _ IH]; cbn [prepareVerdict].
  - reflexivity.
  - rewrite Hres. exact IH.
Qed.

Lemma commitVerdict_passes (proxyid : string) (results : list callResult) (p : proxyrunner) :
  Forall (fun res => res_err res = None) results ->
  commitVerdict proxyid results p = mkRun (Ret tt) p [].
Proof.
  intros Hall. induction Hall as [|res rest Hres _ IH]; cbn [commitVerdict].
  - reflexivity.
  - rewrite Hres. exact IH.
Qed.

(** X11.  The two-phase primary change when every node goes along.  The
    coordinator is the primary, holds a valid map that has the designated
    proxy, and hands over to another proxy; every peer is a running proxy
    that is not the primary in its own map and knows the designated proxy
    (or is it, and is present in its own map).  Then every peer is called
    twice, first with prepare=true and then with prepare=false, in the same
    order; the coordinator tells its metasyncer to become non-primary and
    puts its map with the new primary and nothing else changed, without
    answering an error; and every peer ends with a map put whose primary is
    the designated proxy: the designated proxy has put itself, the others
    what their own map holds under that id. *)
Theorem primary_change_commits (p : proxyrunner) (peers : list peer) (r : request)
    (proxyid : string) (psi : Snode) :
  let smap := get (owner_smap p) in
  let out := httpclusetprimaryproxy (inr [proxyid]) r peers p in
  ParseBool "true" = inr true -> ParseBool "false" = inr false -> ParseBool "" = inr false ->
  isValid smap = true -> isPrimary smap (si p) = true ->
  Pmap smap !! proxyid = Some psi -> proxyid <> DaemonID (si p) ->
  Forall (fun x => exists q, x = PeerProxy true q /\ follows proxyid q) peers ->
  value (coordinator out) = Ret tt
  /\ final (coordinator out) = set_smap (put (withPrimary smap psi)) p
  /\ trace (coordinator out) = [EvLock OSmap; EvBecomeNonPrimary; EvUnlock OSmap]
  /\ cluster_calls out
     = ((fun x => (peerNode x, prepareQuery)) <$> peers)
       ++ ((fun x => (peerNode x, commitQuery)) <$> peers)
  /\ Forall2 (fun x x' => exists q clone,
                x = PeerProxy true q /\ x' = PeerProxy true (set_smap (put clone) q)
                /\ Primary clone = designated proxyid q)
       peers (cluster_after out).
Proof.
  intros smap out Htrue Hfalse Hempty Hvalid Hprim Hpsi Hne Hall. subst smap out.
  unfold httpclusetprimaryproxy.
  rewrite (designate_goes_ahead p r proxyid psi Hvalid Hprim Hpsi Hne).
  cbn [value final trace]. fold prepareQuery.
  destruct (callAll_followers_prepare proxyid peers Htrue Hempty Hall) as (Hp1 & Hr1 & Hc1).
  rewrite (prepareVerdict_passes proxyid _ p Hr1). cbn [value final trace].
  rewrite Hp1. fold commitQuery.
  destruct (callAll_followers_commit proxyid peers Hfalse Hempty Hall) as (Hp2 & Hr2 & Hc2).
  assert (Hlocal : commitLocally psi p
                   = mkRun (Ret tt) (set_smap (put (withPrimary (get (owner_smap p)) psi)) p)
                       [EvLock OSmap; EvBecomeNonPrimary; EvUnlock OSmap]).
  { unfold commitLocally, smap_modify. run_step. reflexivity. }
  rewrite Hlocal. cbn [value final trace].
  rewrite (commitVerdict_passes proxyid _ _ Hr2).
  cbn [value final trace coordinator cluster_after cluster_calls app].
  rewrite Hc1, Hc2. repeat split. exact Hp2.
Qed.

End HandoverFacts.

End HandoverFacts.

Module SyncFacts.
Import Prx PrxFacts RunFacts HandoverFacts Sync.

Section SyncFacts.
Context {OS : Owner smapX} {OB : Owner bucketMD} {OR : Owner rebMD}.
Context {SO : SmapOps} {C : Cmn} {BO : BmdOps} {MR : MapRange} {PE : Peers}.
Context {RX : Receiver}.

Lemma receiveRMD_run (newRMD : rebMD) (msg : aisMsg) (p : proxyrunner) :
  exists e p',
    receiveRMD newRMD msg p = mkRun (Ret e) p' [EvLock ORmd; EvUnlock ORmd]
    /\ si p' = si p /\ owner_smap p' = owner_smap p /\ owner_bmd p' = owner_bmd p
    /\ (p' = p \/ (RMDVersion (get (owner_rmd p)) < RMDVersion newRMD
                   /\ p' = set_rmd (put newRMD) p)).
Proof.
  unfold receiveRMD. run_step.
  destruct (Z.leb_spec (RMDVersion newRMD) (RMDVersion (get (owner_rmd p)))); run_step.
  - destruct (RMDVersion newRMD <? RMDVersion (get (owner_rmd p))); run_step.
    all: do 2 eexists; split; [reflexivity|]; repeat split; left; reflexivity.
  - do 2 eexists. split; [reflexivity|]. repeat split. right. split; [lia | reflexivity].
Qed.

Lemma receiveBMD_run (newBMD : bucketMD) (msg : aisMsg) (caller : string) (p : proxyrunner) :
  exists v p' t,
    receiveBMD newBMD msg caller p = mkRun v p' t
    /\ si p' = si p /\ owner_smap p' = owner_smap p /\ owner_rmd p' = owner_rmd p
    /\ invals t = [].
Proof.
  unfold receiveBMD. run_step.
  destruct (validateUUID (get (owner_bmd p)) newBMD (si p) None caller); run_step.
  - destruct (isPrimary (get (owner_smap p)) (si p)); run_step.
    all: do 3 eexists; split; [reflexivity|]; repeat split.
  - destruct (BMDVersion newBMD <=? BMDVersion (get (owner_bmd p))); run_step.
    + destruct (BMDVersion newBMD <? BMDVersion (get (owner_bmd p))); run_step.
      all: do 3 eexists; split; [reflexivity|]; repeat split.
    + do 3 eexists; split; [reflexivity|]; repeat split.
Qed.

(** X12.  Locks and versions in receiveRMD and receiveBMD.  receiveRMD
    always returns; it takes the lock of the RMD owner once and releases it
    once, and leaves the Smap and the BMD alone; with an owner that returns
    what was put, the version stored afterwards is the greater of the
    stored and the incoming one.  receiveBMD does the same for the BMD when
    the UUIDs agree.  When they do not: a proxy that is not the primary
    returns with lock and unlock paired; the primary fails its assertion
    while it holds the lock of the BMD owner, which is not released, and
    nothing is put. *)
Theorem receive_lock_discipline (p : proxyrunner) (newRMD : rebMD) (newBMD : bucketMD)
    (msg : aisMsg) (caller : string) :
  let rr := receiveRMD newRMD msg p in
  let rb := receiveBMD newBMD msg caller p in
  let bmd := get (owner_bmd p) in
  ((exists e, value rr = Ret e)
   /\ trace rr = [EvLock ORmd; EvUnlock ORmd]
   /\ owner_smap (final rr) = owner_smap p /\ owner_bmd (final rr) = owner_bmd p
   /\ ((forall (v : rebMD) s, get (put v s) = v) ->
       RMDVersion (get (owner_rmd (final rr)))
       = Z.max (RMDVersion (get (owner_rmd p))) (RMDVersion newRMD)))
  /\ (validateUUID bmd newBMD (si p) None caller = None ->
      (exists e, value rb = Ret e)
      /\ trace rb = [EvLock OBmd; EvUnlock OBmd]
      /\ ((forall (v : bucketMD) s, get (put v s) = v) ->
          BMDVersion (get (owner_bmd (final rb))) = Z.max (BMDVersion bmd) (BMDVersion newBMD)))
  /\ (forall cie, validateUUID bmd newBMD (si p) None caller = Some cie ->
      (isPrimary (get (owner_smap p)) (si p) = false ->
       value rb = Ret (Some cie) /\ locks OBmd (trace rb) = 1%nat
       /\ unlocks OBmd (trace rb) = 1%nat)
      /\ (isPrimary (get (owner_smap p)) (si p) = true ->
          value rb = Panic "Assert" /\ final rb = p
          /\ locks OBmd (trace rb) = 1%nat /\ unlocks OBmd (trace rb) = 0%nat)).
Proof.
  intros rr rb bmd. subst rr rb bmd. split; [|split].
  - unfold receiveRMD. run_step.
    destruct (Z.leb_spec (RMDVersion newRMD) (RMDVersion (get (owner_rmd p)))); run_step.
    + destruct (RMDVersion newRMD <? RMDVersion (get (owner_rmd p))); run_step.
      all: split; [eexists; reflexivity|]; repeat split; intros _; lia.
    + split; [eexists; reflexivity|]. repeat split. intros Hlaw. cbn [set_rmd owner_rmd].
      rewrite Hlaw. lia.
  - intros Hv. unfold receiveBMD. run_step. rewrite Hv.
    destruct (Z.leb_spec (BMDVersion newBMD) (BMDVersion (get (owner_bmd p)))); run_step.
    + destruct (BMDVersion newBMD <? BMDVersion (get (owner_bmd p))); run_step.
      all: split; [eexists; reflexivity|]; repeat split; intros _; lia.
    + split; [eexists; reflexivity|]. repeat split. intros Hlaw. cbn [set_bmd owner_bmd].
      rewrite Hlaw. lia.
  - intros cie Hv. split; intros Hp; unfold receiveBMD; run_step; rewrite Hv; run_step;
      rewrite Hp; run_step; repeat split.
Qed.

Lemma receiveSmap_run (payload : Payload) (caller : string) (smap : smapX)
    (nodes : gmap string ReverseProxy) (p : proxyrunner) :
  exists x p' t,
    receiveSmap payload caller smap nodes p = mkRun (Ret x) p' t
    /\ si p' = si p /\ owner_rmd p' = owner_rmd p /\ owner_bmd p' = owner_bmd p
    /\ invals t = []
    /\ (extractSmap payload caller p = inr None -> x = ([], nodes) /\ p' = p /\ t = []).
Proof.
  unfold receiveSmap. run_step.
  destruct (extractSmap payload caller p) as [e|[newSmap|]]; run_step.
  - do 3 eexists. split; [reflexivity|]. repeat split; discriminate.
  - destruct (synchronize (Some newSmap) true (owner_smap p)) as [[e|] st'] eqn:Es;
      cbn [fst snd]; run_step.
    + do 3 eexists. split; [reflexivity|]. repeat split; discriminate.
    + destruct (syncNewICOwners_no_inval smap newSmap (set_smap (fun _ => st') p))
        as (t & Ht & Hinv).
      revert Ht. run_step. intros Ht. rewrite Ht. run_step.
      do 3 eexists. split; [reflexivity|]. repeat split; try discriminate.
      rewrite app_nil_r. clear Ht. unfold invals. unfold firstInval in Hinv.
      induction t as [|e t IH]; [reflexivity|].
      destruct e; cbn in *; try (apply IH; exact Hinv). discriminate.
  - do 3 eexists. split; [reflexivity|]. repeat split.
Qed.

(** X13.  metasyncHandler refuses a request that is not a PUT, and any
    request that reaches the primary: it answers with one error, puts
    nothing, keeps every reverse proxy and hands no token list on, whatever
    the body holds. *)
Theorem metasync_refused (r : request) (caller : string) (nodes : gmap string ReverseProxy)
    (p : proxyrunner) :
  let out := metasyncHandler r caller nodes p in
  Method r <> http.MethodPut \/ isPrimary (get (owner_smap p)) (si p) = true ->
  final out = p /\ value out = Ret (nodes, None) /\ exists msg, trace out = [EvInval msg None].
Proof.
  intros out Hor. subst out. unfold metasyncHandler.
  destruct (decide (Method r <> http.MethodPut)) as [Hm|Hm].
  - rewrite (bool_decide_eq_true_2 _ Hm). run_step.
    split; [reflexivity|]. split; [reflexivity|]. eexists. reflexivity.
  - rewrite (bool_decide_eq_false_2 _ Hm). destruct Hor as [Hne|Hprim]; [contradiction|].
    run_step. rewrite Hprim. run_step.
    split; [reflexivity|]. split; [reflexivity|]. eexists. reflexivity.
Qed.

Lemma invals_app (a b : list event) : invals (a ++ b) = invals a ++ invals b.
Proof. apply filter_app. Qed.

(** The RMD part of a payload, as metasyncHandler runs it. *)
Lemma metasync_rmd_part (payload : Payload) (p1 : proxyrunner) :
  exists errsR p2 t2,
    match extractRMD payload p1 with
    | inl e => mret [e]
    | inr None => mret []
    | inr (Some (newRMD, msgRMD)) => err ← receiveRMD newRMD msgRMD; mret (option_list err)
    end p1 = mkRun (Ret errsR) p2 t2
    /\ invals t2 = []
    /\ ((forall (v : rebMD) s, get (put v s) = v) ->
        RMDVersion (get (owner_rmd p1)) <= RMDVersion (get (owner_rmd p2))
        /\ forall newRMD msgRMD, extractRMD payload p1 = inr (Some (newRMD, msgRMD)) ->
             RMDVersion (get (owner_rmd p2))
             = Z.max (RMDVersion (get (owner_rmd p1))) (RMDVersion newRMD))
    /\ (extractRMD payload p1 = inr None -> errsR = [] /\ p2 = p1 /\ t2 = []).
Proof.
  destruct (extractRMD payload p1) as [e|[[newRMD msgRMD]|]].
  - do 3 eexists. split; [reflexivity|]. split; [reflexivity|]. split.
    + intros _. split; [lia | intros; discriminate].
    + discriminate.
  - destruct (receiveRMD_run newRMD msgRMD p1) as (e & p2 & Hrun & _ & _ & _ & Hcase).
    exists (option_list e), p2, [EvLock ORmd; EvUnlock ORmd].
    split; [rewrite (bind_ret _ _ _ _ _ _ _ _ _ Hrun eq_refl); reflexivity|].
    split; [reflexivity|]. split; [|discriminate].
    intros Hlaw. destruct Hcase as [->|[Hlt ->]].
    + assert (Hle : RMDVersion newRMD <= RMDVersion (get (owner_rmd p1))).
      { revert Hrun. unfold receiveRMD. run_step.
        destruct (Z.leb_spec (RMDVersion newRMD) (RMDVersion (get (owner_rmd p1))));
          [intros _; assumption|].
        run_step. intros [= _ Hp]. exfalso.
        apply (f_equal (fun q => RMDVersion (get (owner_rmd q)))) in Hp.
        cbn [set_rmd owner_rmd] in Hp. rewrite Hlaw in Hp. lia. }
      split; [lia|]. intros n m [= <- <-]. lia.
    + cbn [set_rmd owner_rmd]. rewrite Hlaw. split; [lia|]. intros n m [= <- <-]. lia.
  - do 3 eexists. split; [reflexivity|]. split; [reflexivity|]. split.
    + intros _. split; [lia | intros; discriminate].
    + intros _. repeat split.
Qed.

(** The BMD part of a payload, as metasyncHandler runs it. *)
Lemma metasync_bmd_part (payload : Payload) (caller : string) (p2 : proxyrunner) :
  exists v p3 t3,
    match extractBMD payload p2 with
    | inl e => mret [e]
    | inr None => mret []
    | inr (Some (newBMD, msgBMD)) =>
        err ← receiveBMD newBMD msgBMD caller; mret (option_list err)
    end p2 = mkRun v p3 t3
    /\ invals t3 = [] /\ owner_rmd p3 = owner_rmd p2
    /\ (extractBMD payload p2 = inr None -> v = Ret [] /\ p3 = p2 /\ t3 = []).
Proof.
  destruct (extractBMD payload p2) as [e|[[newBMD msgBMD]|]].
  - do 3 eexists. split; [reflexivity|]. repeat split; discriminate.
  - destruct (receiveBMD_run newBMD msgBMD caller p2) as (v & p3 & t3 & Hrun & _ & _ & Hr & Hi).
    destruct v as [err|why].
    + do 3 eexists. split; [exact (bind_ret _ _ _ _ _ _ _ _ _ Hrun eq_refl)|].
      rewrite app_nil_r. repeat split; try assumption; discriminate.
    + do 3 eexists. split; [exact (bind_panic _ _ _ _ _ _ Hrun)|].
      repeat split; try assumption; discriminate.
  - do 3 eexists. split; [reflexivity|]. repeat split.
Qed.

Lemma metasync_run (r : request) (caller : string) (nodes : gmap string ReverseProxy)
    (p : proxyrunner) (payload : Payload) :
  Method r = http.MethodPut -> isPrimary (get (owner_smap p)) (si p) = false ->
  Decode (Body r) = inr payload ->
  exists v fin t,
    metasyncHandler r caller nodes p = mkRun v fin t
    /\ (length (invals t) <= 1)%nat
    /\ ((forall (v : rebMD) s, get (put v s) = v) ->
        RMDVersion (get (owner_rmd p)) <= RMDVersion (get (owner_rmd fin))
        /\ (forall newRMD msgRMD,
              (forall q, extractRMD payload q = inr (Some (newRMD, msgRMD))) ->
              RMDVersion (get (owner_rmd fin))
              = Z.max (RMDVersion (get (owner_rmd p))) (RMDVersion newRMD)))
    /\ (forall tokens,
          (forall q, extractSmap payload caller q = inr None) ->
          (forall q, extractRMD payload q = inr None) ->
          (forall q, extractBMD payload q = inr None) ->
          (forall q, extractRevokedTokenList payload q = inr tokens) ->
          v = Ret (nodes, Some tokens) /\ fin = p /\ t = []).
Proof.
  intros Hput Hnp Hdec.
  destruct (receiveSmap_run payload caller (get (owner_smap p)) nodes p)
    as (x & p1 & t1 & Hs & _ & Hr1 & _ & Hi1 & Hnone).
  destruct (metasync_rmd_part payload p1) as (errsR & p2 & t2 & HR & Hi2 & Hmono & HnoneR).
  destruct (metasync_bmd_part payload caller p2) as (vB & p3 & t3 & HB & Hi3 & Hr3 & HnoneB).
  set (tk := extractRevokedTokenList payload p3).
  set (errs errsB := x.1 ++ errsR ++ errsB ++ match tk with inl e => [e] | inr _ => [] end).
  set (reply errsB := if bool_decide (errs errsB <> [])
                      then [EvInval (errsText (errs errsB)) None] else []).
  assert (Hrun : metasyncHandler r caller nodes p
                 = match vB with
                   | Ret errsB =>
                       mkRun (Ret (x.2, match tk with inl _ => None | inr t => Some t end))
                         p3 (t1 ++ t2 ++ t3 ++ reply errsB)
                   | Panic why => mkRun (Panic why) p3 (t1 ++ t2 ++ t3)
                   end).
  { unfold metasyncHandler.
    rewrite (bool_decide_eq_false_2 (Method r <> http.MethodPut))
      by (intros Hne; apply Hne; exact Hput).
    unfold getSmap. rewrite !bind_reads. rewrite Hnp, Hdec.
    destruct vB as [errsB|why].
    - eapply bind_ret; [exact Hs|].
      rewrite bind_reads.
      eapply bind_ret; [exact HR|].
      rewrite bind_reads.
      eapply bind_ret; [exact HB|].
      rewrite bind_reads.
      cbv zeta. fold tk. fold (errs errsB). unfold reply.
      destruct (bool_decide (errs errsB <> [])); reflexivity.
    - eapply bind_ret; [exact Hs|].
      rewrite bind_reads.
      eapply bind_ret; [exact HR|].
      rewrite bind_reads.
      exact (bind_panic _ _ _ _ _ _ HB). }
  assert (Happ : invals (t1 ++ t2 ++ t3) = []).
  { rewrite !invals_app, Hi1, Hi2, Hi3. reflexivity. }
  assert (Hquiet : forall tokens,
             (forall q, extractSmap payload caller q = inr None) ->
             (forall q, extractRMD payload q = inr None) ->
             (forall q, extractBMD payload q = inr None) ->
             (forall q, extractRevokedTokenList payload q = inr tokens) ->
             x = ([], nodes) /\ errsR = [] /\ p3 = p /\ (t1 = [] /\ t2 = [] /\ t3 = []) /\ vB = Ret []
             /\ tk = inr tokens).
  { intros tokens HnS HnR HnB Htk.
    destruct (Hnone (HnS p)) as (-> & -> & ->).
    destruct (HnoneR (HnR p)) as (-> & -> & ->).
    destruct (HnoneB (HnB p)) as (-> & -> & ->).
    repeat split. unfold tk. apply Htk. }
  assert (Hrmd : (forall (v : rebMD) s, get (put v s) = v) ->
                 RMDVersion (get (owner_rmd p)) <= RMDVersion (get (owner_rmd p3))
                 /\ (forall newRMD msgRMD,
                       (forall q, extractRMD payload q = inr (Some (newRMD, msgRMD))) ->
                       RMDVersion (get (owner_rmd p3))
                       = Z.max (RMDVersion (get (owner_rmd p))) (RMDVersion newRMD))).
  { intros Hlaw. destruct (Hmono Hlaw) as [Hle Hmax]. rewrite Hr1 in Hle, Hmax.
    rewrite Hr3. split; [exact Hle|]. intros n m Hall. apply (Hmax n m). apply Hall. }
  destruct vB as [errsB|why]; do 3 eexists; (split; [exact Hrun|]).
  - split; [|split; [exact Hrmd|]].
    + rewrite !app_assoc, invals_app, <- !app_assoc, Happ. unfold reply.
      assert (Hone : forall m c, invals [EvInval m c] = [EvInval m c]) by reflexivity.
      destruct (bool_decide (errs errsB <> []));
        [rewrite Hone | change (invals []) with (@nil event)]; cbn [app length]; lia.
    + intros tokens HnS HnR HnB Htk.
      destruct (Hquiet tokens HnS HnR HnB Htk) as (-> & -> & -> & (-> & -> & ->) & [= ->] & Etk).
      unfold reply, errs. rewrite Etk. cbn [fst snd app].
      rewrite (bool_decide_eq_false_2 ([] <> [])) by (intros Hne; apply Hne; reflexivity).
      repeat split.
  - split; [|split; [exact Hrmd|]].
    + rewrite Happ. cbn [length]. lia.
    + intros tokens HnS HnR HnB Htk.
      destruct (Hquiet tokens HnS HnR HnB Htk) as (_ & _ & _ & _ & [=] & _).
Qed.

(** X14.  metasyncHandler on a proxy that is not the primary, for a PUT
    whose body decodes.  (1) The RMD stored afterwards is never older than
    the one stored before; when the payload carries an RMD, the version
    stored afterwards is the greater of the two, whatever happened to the
    Smap part of the payload (with an owner that returns what was put).
    (2) The request is answered with at most one error.  (3) A payload that
    carries no Smap, no RMD and no BMD changes nothing and is not answered
    with an error; its token list is handed on. *)
Theorem metasync_applies_parts (r : request) (caller : string)
    (nodes : gmap string ReverseProxy) (p : proxyrunner) (payload : Payload) :
  let out := metasyncHandler r caller nodes p in
  let old := RMDVersion (get (owner_rmd p)) in
  Method r = http.MethodPut -> isPrimary (get (owner_smap p)) (si p) = false ->
  Decode (Body r) = inr payload ->
  ((forall (v : rebMD) s, get (put v s) = v) ->
   old <= RMDVersion (get (owner_rmd (final out)))
   /\ (forall newRMD msgRMD,
         (forall q, extractRMD payload q = inr (Some (newRMD, msgRMD))) ->
         RMDVersion (get (owner_rmd (final out))) = Z.max old (RMDVersion newRMD)))
  /\ (length (invals (trace out)) <= 1)%nat
  /\ (forall tokens,
        (forall q, extractSmap payload caller q = inr None) ->
        (forall q, extractRMD payload q = inr None) ->
        (forall q, extractBMD payload q = inr None) ->
        (forall q, extractRevokedTokenList payload q = inr tokens) ->
        out = mkRun (Ret (nodes, Some tokens)) p []).
Proof.
  intros out old Hput Hnp Hdec. subst out old.
  destruct (metasync_run r caller nodes p payload Hput Hnp Hdec)
    as (v & fin & t & -> & Hlen & Hmono & Hquiet).
  cbn [final trace]. split; [exact Hmono|]. split; [exact Hlen|].
  intros tokens HnS HnR HnB Htk.
  destruct (Hquiet tokens HnS HnR HnB Htk) as (-> & -> & ->). reflexivity.
Qed.

(** X15.  joinCluster and sendKeepalive.  (1) The primary never joins and
    never sends a keepalive: joinCluster returns an error and sendKeepalive
    returns 0 without error, with no call made and the state untouched.
    (2) A proxy that is not the primary makes exactly one join call; its
    query has non-electable=true exactly when the configuration says so.
    An error of the call is returned with its status; an empty reply ends
    the join with no error; in both cases the state is untouched.  (3)
    When the reply cannot be unmarshalled, applyRegMeta returns an error
    and changes nothing.  (4) Otherwise applyRegMeta returns what
    receiveBMD returns for the BMD of the reply: the outcome of
    synchronizing the Smap is logged but is not part of the result. *)
Theorem join_cluster_outcomes (nonElectable : bool) (primaryURLs : list string)
    (timeout : Z) (body caller : string) (p : proxyrunner) :
  let smap := get (owner_smap p) in
  let out := joinCluster nonElectable primaryURLs p in
  let query : Values := if nonElectable then <[URLParamNonElectable := "true"]> ∅ else ∅ in
  let res := join query primaryURLs in
  (isPrimary smap (si p) = true ->
   (exists e, out = mkRun (Ret (0, Some e, [])) p [])
   /\ sendKeepalive timeout p = mkRun (Ret (0, None, false)) p [])
  /\ (isPrimary smap (si p) = false ->
      (exists code err, value out = Ret (code, err, [(query, primaryURLs)])
                        \/ exists why, value out = Panic why)
      /\ (forall e, Call.err res = Some e ->
            out = mkRun (Ret (Call.status res, Some e, [(query, primaryURLs)])) p [])
      /\ (Call.err res = None -> Call.bytes res = None \/ Call.bytes res = Some "" ->
          out = mkRun (Ret (0, None, [(query, primaryURLs)])) p []))
  /\ (forall e, UnmarshalRegMeta body = inl e ->
        exists err, applyRegMeta body caller p = mkRun (Ret (Some err)) p [])
  /\ (forall regMeta err p1 t1,
        UnmarshalRegMeta body = inr regMeta ->
        receiveBMD (RegBMD regMeta)
          (newAisMsgStr ActRegTarget (RegSmap regMeta) (Some (RegBMD regMeta))) caller p
        = mkRun (Ret err) p1 t1 ->
        value (applyRegMeta body caller p) = Ret err
        /\ final (applyRegMeta body caller p)
           = set_smap (fun _ => (synchronize (RegSmap regMeta) true (owner_smap p1)).2) p1).
Proof.
  intros smap out query res. subst smap out. split; [|split; [|split]].
  - intros Hprim. unfold joinCluster, sendKeepalive. run_step. rewrite Hprim. run_step.
    split; [eexists; reflexivity | reflexivity].
  - intros Hnp. unfold joinCluster. run_step. rewrite Hnp. fold query. fold res.
    split; [|split].
    + destruct (Call.err res) as [e|]; run_step.
      { do 2 eexists. left. reflexivity. }
      destruct (Call.bytes res) as [[|a b]|]; run_step.
      1,3: do 2 eexists; left; reflexivity.
      destruct (applyRegMeta (String a b) "" p) as [[err|why] fin tr]; cbn.
      * do 2 eexists. left. reflexivity.
      * exists 0, None. right. eexists. reflexivity.
    + intros e ->. run_step. reflexivity.
    + intros -> [->| ->]; run_step; reflexivity.
  - intros e0 He. unfold applyRegMeta. rewrite He. run_step. eexists. reflexivity.
  - intros regMeta err p1 t1 Hu Hrun. unfold applyRegMeta. rewrite Hu.
    revert Hrun. run_step. intros Hrun. rewrite Hrun. run_step.
    destruct err; run_step.
    all: destruct (synchronize (RegSmap regMeta) true (owner_smap p1)) as [[e1|] st'];
      cbn [fst snd]; run_step; split; reflexivity.
Qed.

(** X16.  handlePendingRenamedLB is idempotent.  For a bucket that is
    pending rename (its Renamed property is set) the first call puts the
    BMD without the bucket and metasyncs it, once; a second call finds the
    bucket gone and does nothing but take and release the lock: no put, no
    metasync.  (The owner returns what was put, and a bucket deleted from a
    BMD no longer initializes.) *)
Theorem renamedLB_idempotent (renamedBucket : string) (p : proxyrunner) (props : BucketProps) :
  let bmd := get (owner_bmd p) in
  let clone := bmdDel renamedBucket bmd in
  let first := handlePendingRenamedLB renamedBucket p in
  let second := handlePendingRenamedLB renamedBucket (final first) in
  (forall (v : bucketMD) s, get (put v s) = v) ->
  (exists e, bckInit clone renamedBucket = inl e) ->
  bckInit bmd renamedBucket = inr props -> Renamed props <> "" ->
  final first = set_bmd (put clone) p
  /\ syncs (trace first) = [[(RevBMD clone, newAisMsgStr ActRenameLB None (Some clone))]]
  /\ final second = final first
  /\ trace second = [EvLock OBmd; EvUnlock OBmd]
  /\ value second = Ret tt.
Proof.
  intros bmd clone first second Hlaw [e Hgone] Hinit Hren. subst bmd clone first second.
  assert (Hfirst : handlePendingRenamedLB renamedBucket p
                   = mkRun (Ret tt) (set_bmd (put (bmdDel renamedBucket (get (owner_bmd p)))) p)
                       [EvLock OBmd;
                        EvSync [(RevBMD (bmdDel renamedBucket (get (owner_bmd p))),
                                 newAisMsgStr ActRenameLB None
                                   (Some (bmdDel renamedBucket (get (owner_bmd p)))))];
                        EvUnlock OBmd]).
  { unfold handlePendingRenamedLB. run_step. rewrite Hinit.
    rewrite (bool_decide_eq_false_2 _ Hren). run_step. reflexivity. }
  rewrite Hfirst. cbn [final trace]. split; [reflexivity|]. split; [reflexivity|].
  unfold handlePendingRenamedLB. run_step. cbn [set_bmd owner_bmd]. rewrite Hlaw, Hgone.
  run_step. repeat split.
Qed.

End SyncFacts.

End SyncFacts.

Module SyncExamples.
Import Prx PrxFacts PrxSamples Handover HandoverFacts Sync SyncFacts SyncSamples.

#[local] Existing Instance cell.
#[local] Existing Instance Ref.smapOps.
#[local] Existing Instance Ref.cmn.
#[local] Existing Instance Ref.bmdOps.
#[local] Existing Instance canonicalRange.
#[local] Existing Instance Ref.peers.
#[local] Existing Instance receiver.

(** P2, not the primary, commits P3 as primary: version 12 stays. *)
Lemma set_primary_on_bystander_witness :
  final (httpdaesetprimaryproxy (inr ["proxy"; "p3"]) commitQuery p2)
  = set_smap (put (withPrimary Ref.smap0 Ref.P3)) p2
  /\ trace (httpdaesetprimaryproxy (inr ["proxy"; "p3"]) commitQuery p2)
     = [EvLock OSmap; EvUnlock OSmap].
Proof.
  pose proof (set_primary_on_bystander "proxy" "p3" commitQuery p2) as H. cbv zeta in H.
  destruct (H eq_refl) as [_ H2]. destruct (H2 false eq_refl) as (_ & _ & H3).
  destruct (H3 Ref.P3 eq_refl eq_refl ltac:(discriminate) eq_refl) as (Hf & _ & Ht).
  split; assumption.
Defined.

(** P1 hands over to P2; P3 and P2 go along. *)
Lemma primary_change_commits_witness :
  final (coordinator (httpclusetprimaryproxy (inr ["p2"]) putPrimary willing p1))
  = set_smap (put (withPrimary Ref.smap0 Ref.P2)) p1
  /\ cluster_calls (httpclusetprimaryproxy (inr ["p2"]) putPrimary willing p1)
     = [(Ref.P3, prepareQuery); (Ref.P2, prepareQuery);
        (Ref.P3, commitQuery); (Ref.P2, commitQuery)].
Proof.
  pose proof (primary_change_commits p1 willing putPrimary "p2" Ref.P2) as H. cbv zeta in H.
  destruct H as (_ & Hf & _ & Hc & _); try reflexivity.
  - discriminate.
  - repeat constructor.
    + exists p3. split; [reflexivity|]. split; [reflexivity|]. split.
      * intros Heq. discriminate Heq.
      * eexists. reflexivity.
    + exists p2. split; [reflexivity|]. split; [reflexivity|]. split.
      * intros _. reflexivity.
      * eexists. reflexivity.
  - split; assumption.
Defined.

(** A metasync PUT that reaches the primary P1 is refused. *)
Lemma metasync_refused_witness :
  final (metasyncHandler putRMD7 "p9" ∅ p1) = p1
  /\ value (metasyncHandler putRMD7 "p9" ∅ p1) = Ret (∅, None).
Proof.
  pose proof (metasync_refused putRMD7 "p9" ∅ p1) as H. cbv zeta in H.
  destruct (H (or_intror eq_refl)) as (Hf & Hv & _). split; assumption.
Defined.

(** P2 holds the RMD of version 5 and receives one of version 7. *)
Lemma metasync_applies_parts_witness :
  RMDVersion (get (owner_rmd (final (metasyncHandler putRMD7 "p1" ∅ p2)))) = 7.
Proof.
  pose proof (metasync_applies_parts putRMD7 "p1" ∅ p2 7%nat) as H. cbv zeta in H.
  destruct (H eq_refl eq_refl eq_refl) as (Hm & _ & _).
  destruct (Hm (fun v s => eq_refl)) as [_ Hmax].
  exact (Hmax (mkRMD 7 []) noMsg (fun q => eq_refl)).
Defined.

(** The bucket "old" of the sample BMD is pending rename to "new". *)
Lemma renamedLB_idempotent_witness :
  syncs (trace (handlePendingRenamedLB "old" p1))
  = [[(RevBMD (bmdDel "old" Ref.bmd0),
       newAisMsgStr ActRenameLB None (Some (bmdDel "old" Ref.bmd0)))]]
  /\ trace (handlePendingRenamedLB "old" (final (handlePendingRenamedLB "old" p1)))
     = [EvLock OBmd; EvUnlock OBmd].
Proof.
  pose proof (renamedLB_idempotent "old" p1 (mkProps "new")) as H. cbv zeta in H.
  destruct H as (_ & Hs & _ & Ht & _).
  - intros v s. reflexivity.
  - eexists. reflexivity.
  - reflexivity.
  - discriminate.
  - split; assumption.
Defined.

End SyncExamples.

Module RecoveryFacts.
Import Prx PrxFacts RunFacts Recovery.

Section RecoveryFacts.
Context {OS : Owner smapX} {OB : Owner bucketMD} {OR : Owner rebMD}.
Context {SO : SmapOps} {C : Cmn} {BO : BmdOps} {MR : MapRange} {PE : Peers}.

(** The survey of the replies while all usable ones agree on the UUID. *)
Lemma surveyBMDs_fast (results : list bmdResult) (u : string) (rb : bucketMD)
    (bmds : gmap string (Snode * bucketMD)) (p : proxyrunner) :
  Forall (fun bmd => BMDUUID bmd = u) (usable results) ->
  exists rb' bmds' t,
    surveyBMDs results (mkSurvey u (Some rb) false bmds) p
    = mkRun (Ret (mkSurvey u (Some rb') false bmds')) p t
    /\ syncs t = [] /\ Forall (fun e => isInval e = false) t
    /\ (rb' = rb \/ rb' ∈ usable results)
    /\ BMDVersion rb <= BMDVersion rb'
    /\ Forall (fun bmd => BMDVersion bmd <= BMDVersion rb') (usable results).
Proof.
  revert rb bmds. induction results as [|res rest IH]; intros rb bmds Hall.
  - exists rb, bmds, []. cbn [surveyBMDs].
    split; [reflexivity|]. split; [reflexivity|]. split; [constructor|].
    split; [left; reflexivity|]. split; [lia | constructor].
  - cbn [surveyBMDs]. unfold usable in Hall. cbn [omap list_omap] in Hall.
    fold (usable rest) in Hall.
    destruct (b_err res) as [e|] eqn:He.
    + destruct (IH rb bmds Hall) as (rb' & bmds' & t & Hrun & Hs & Hi & Hin & Hle & Hmax).
      exists rb', bmds', (EvLog Error "recover-buckets: target failed" :: t).
      unfold usable. cbn [omap list_omap]. rewrite He. fold (usable rest).
      split; [|repeat split; try assumption; constructor; [reflexivity | assumption]].
      change (emit (EvLog Error "recover-buckets: target failed");;
              surveyBMDs rest (mkSurvey u (Some rb) false bmds))
        with (andThen (emit (EvLog Error "recover-buckets: target failed"))
                (fun _ => surveyBMDs rest (mkSurvey u (Some rb) false bmds))).
      unfold andThen, emit. cbn [value final trace]. rewrite Hrun. reflexivity.
    + apply Forall_cons in Hall as [Hu Hall]. cbn [sv_rbmd sv_uuid sv_slowp sv_bmds].
      rewrite (bool_decide_eq_false_2 (u <> BMDUUID (b_v res)))
        by (intros Hne; apply Hne; symmetry; exact Hu).
      cbn [negb andb]. unfold usable. cbn [omap list_omap]. rewrite He. fold (usable rest).
      destruct (Z.ltb_spec (BMDVersion rb) (BMDVersion (b_v res))) as [Hlt|Hge].
      * destruct (IH (b_v res) (<[DaemonID (b_si res) := (b_si res, b_v res)]> bmds) Hall)
          as (rb' & bmds' & t & Hrun & Hs & Hi & Hin & Hle & Hmax).
        exists rb', bmds', t. split; [exact Hrun|]. repeat split; try assumption.
        -- right. destruct Hin as [->|Hin]; [left | right; exact Hin].
        -- lia.
        -- constructor; [exact Hle | exact Hmax].
      * destruct (IH rb (<[DaemonID (b_si res) := (b_si res, b_v res)]> bmds) Hall)
          as (rb' & bmds' & t & Hrun & Hs & Hi & Hin & Hle & Hmax).
        exists rb', bmds', t. split; [exact Hrun|]. repeat split; try assumption.
        -- destruct Hin as [->|Hin]; [left; reflexivity | right; right; exact Hin].
        -- constructor; [lia | exact Hmax].
Qed.

Lemma surveyBMDs_failed (results : list bmdResult) (sv : survey) (p : proxyrunner) :
  usable results = [] ->
  exists t, surveyBMDs results sv p = mkRun (Ret sv) p t
            /\ syncs t = [] /\ Forall (fun e => isInval e = false) t.
Proof.
  induction results as [|res rest IH]; intros Hnone.
  - exists []. repeat split; constructor.
  - cbn [surveyBMDs]. unfold usable in Hnone. cbn [omap list_omap] in Hnone.
    destruct (b_err res) as [e|] eqn:He; [|discriminate]. fold (usable rest) in Hnone.
    destruct (IH Hnone) as (t & Hrun & Hs & Hi).
    exists (EvLog Error "recover-buckets: target failed" :: t).
    split; [|split; [exact Hs | constructor; [reflexivity | exact Hi]]].
    change (emit (EvLog Error "recover-buckets: target failed");; surveyBMDs rest sv)
      with (andThen (emit (EvLog Error "recover-buckets: target failed"))
              (fun _ => surveyBMDs rest sv)).
    unfold andThen, emit. cbn [value final trace]. rewrite Hrun. reflexivity.
Qed.

Lemma surveyBMDs_agree (results : list bmdResult) (u : string) (p : proxyrunner) :
  usable results <> [] ->
  Forall (fun bmd => BMDUUID bmd = u) (usable results) ->
  exists rb' bmds' t,
    surveyBMDs results (mkSurvey "" None false ∅) p
    = mkRun (Ret (mkSurvey u (Some rb') false bmds')) p t
    /\ syncs t = [] /\ Forall (fun e => isInval e = false) t
    /\ rb' ∈ usable results
    /\ Forall (fun bmd => BMDVersion bmd <= BMDVersion rb') (usable results).
Proof.
  generalize (∅ : gmap string (Snode * bucketMD)).
  induction results as [|res rest IH]; intros bmds Hne Hall; [contradiction|].
  cbn [surveyBMDs]. unfold usable in *. cbn [omap list_omap] in *.
  destruct (b_err res) as [e|] eqn:He; fold (usable rest) in *.
  - destruct (IH bmds Hne Hall) as (rb' & bmds' & t & Hrun & Hs & Hi & Hin & Hmax).
    exists rb', bmds', (EvLog Error "recover-buckets: target failed" :: t).
    split; [|repeat split; try assumption; constructor; [reflexivity | assumption]].
    change (emit (EvLog Error "recover-buckets: target failed");;
            surveyBMDs rest (mkSurvey "" None false bmds))
      with (andThen (emit (EvLog Error "recover-buckets: target failed"))
              (fun _ => surveyBMDs rest (mkSurvey "" None false bmds))).
    unfold andThen, emit. cbn [value final trace]. rewrite Hrun. reflexivity.
  - apply Forall_cons in Hall as [Hu Hall]. cbn [sv_rbmd sv_slowp sv_bmds]. rewrite Hu.
    destruct (surveyBMDs_fast rest u (b_v res)
                (<[DaemonID (b_si res) := (b_si res, b_v res)]> bmds) p Hall)
      as (rb' & bmds' & t & Hrun & Hs & Hi & Hin & Hle & Hmax).
    exists rb', bmds', t. split; [exact Hrun|]. repeat split; try assumption.
    + destruct Hin as [->|Hin]; [left | right; exact Hin].
    + constructor; [exact Hle | exact Hmax].
Qed.

Lemma syncs_quiet_app (t1 t2 : list event) : syncs t1 = [] -> syncs (t1 ++ t2) = syncs t2.
Proof. intros H. rewrite syncs_app, H. reflexivity. Qed.

(** X17.  recoverBuckets on the primary when the targets agree.  When at
    least one target replies without error and all such replies carry the
    same UUID, recoverBuckets takes a reply with the highest version,
    raises its version by 100, puts it and metasyncs it, once, under the
    lock of the BMD owner; the
    request is not answered with an error, and the force parameter plays no
    part.  Replies with an error are logged and passed over. *)
Theorem recover_installs_newest (p : proxyrunner) (r : request) (msg : ActionMsg)
    (results : list bmdResult) (u : string) :
  let out := recoverBuckets r msg results p in
  isValid (get (owner_smap p)) = true -> isPrimary (get (owner_smap p)) (si p) = true ->
  usable results <> [] ->
  Forall (fun bmd => BMDUUID bmd = u) (usable results) ->
  exists rbmd,
    rbmd ∈ usable results
    /\ Forall (fun bmd => BMDVersion bmd <= BMDVersion rbmd) (usable results)
    /\ value out = Ret tt
    /\ final out = set_bmd (put (raised rbmd)) p
    /\ syncs (trace out)
       = [[(RevBMD (raised rbmd), newAisMsg msg None (Some (raised rbmd)))]]
    /\ Forall (fun e => isInval e = false) (trace out)
    /\ locks OBmd (trace out) = 1%nat /\ unlocks OBmd (trace out) = 1%nat.
Proof.
  intros out Hvalid Hprim Hne Hall. subst out.
  destruct (surveyBMDs_agree results u p Hne Hall)
    as (rbmd & bmds' & t & Hrun & Hs & Hi & Hin & Hmax).
  exists rbmd. split; [exact Hin|]. split; [exact Hmax|].
  assert (Heq : recoverBuckets r msg results p
                = mkRun (Ret tt) (set_bmd (put (raised rbmd)) p)
                    (t ++ [EvLock OBmd;
                           EvSync [(RevBMD (raised rbmd),
                                    newAisMsg msg None (Some (raised rbmd)))];
                           EvUnlock OBmd])).
  { unfold recoverBuckets.
    change (?a = mkRun ?v ?q ?tr) with (a = mkRun v q ([] ++ tr)).
    eapply bind_ret; [apply forwardCP_primary; assumption|].
    eapply bind_ret; [exact Hrun|]. cbn [sv_slowp sv_rbmd].
    run_step. reflexivity. }
  rewrite Heq. cbn [value final trace]. split; [reflexivity|]. split; [reflexivity|].
  split; [rewrite (syncs_quiet_app _ _ Hs); reflexivity|].
  split; [apply Forall_app; split; [exact Hi | repeat constructor]|].
  assert (Hl : forall o, locks o t = 0%nat /\ unlocks o t = 0%nat).
  { clear -Hrun. intros o. revert Hrun. generalize (mkSurvey "" None false ∅).
    generalize (mkSurvey u (Some rbmd) false bmds'). revert t.
    induction results as [|res rest IH]; intros t sv' sv; cbn [surveyBMDs].
    - intros [= _ <-]. split; reflexivity.
    - destruct (b_err res).
      + change (emit (EvLog Error "recover-buckets: target failed");; surveyBMDs rest sv)
          with (andThen (emit (EvLog Error "recover-buckets: target failed"))
                  (fun _ => surveyBMDs rest sv)).
        unfold andThen, emit. cbn [value final trace].
        destruct (surveyBMDs rest sv p) as [[v'|why] fin tr] eqn:Er; cbn [value final trace].
        * intros [= -> -> <-]. destruct (IH tr sv' sv Er) as [H1 H2].
          split; [exact H1 | exact H2].
        * discriminate.
      + apply IH. }
  unfold locks, unlocks in *. rewrite !filter_app, !length_app.
  destruct (Hl OBmd) as [-> ->]. split; reflexivity.
Qed.

(** X18.  recoverBuckets on the primary when no target replies without
    error (there may be no reply at all): no BMD has been chosen, and the
    function fails with a nil dereference where it raises the version.
    Nothing is put or metasynced, and the request is not answered by this
    code. *)
Theorem recover_without_replies (p : proxyrunner) (r : request) (msg : ActionMsg)
    (results : list bmdResult) :
  let out := recoverBuckets r msg results p in
  isValid (get (owner_smap p)) = true -> isPrimary (get (owner_smap p)) (si p) = true ->
  usable results = [] ->
  value out = Panic "nil pointer dereference" /\ final out = p
  /\ syncs (trace out) = [] /\ Forall (fun e => isInval e = false) (trace out).
Proof.
  intros out Hvalid Hprim Hnone. subst out.
  destruct (surveyBMDs_failed results (mkSurvey "" None false ∅) p Hnone) as (t & Hrun & Hs & Hi).
  assert (Heq : recoverBuckets r msg results p
                = mkRun (Panic "nil pointer dereference") p (t ++ [])).
  { unfold recoverBuckets.
    change (?a = mkRun ?v ?q ?tr) with (a = mkRun v q ([] ++ tr)).
    eapply bind_ret; [apply forwardCP_primary; assumption|].
    eapply bind_ret; [exact Hrun|]. cbn [sv_slowp sv_rbmd].
    run_step. reflexivity. }
  rewrite Heq, app_nil_r. cbn [value final trace]. repeat split; assumption.
Qed.

(** *** resolveUUIDBMD on any input, in any order of iteration *)

Lemma gather_step (seen : list (string * (Snode * bucketMD)))
    (st : gmap string (list nodeRegMeta) * gmap string bucketMD)
    (kv : string * (Snode * bucketMD)) :
  gathered seen st -> gathered (seen ++ [kv]) (gather st kv).
Proof.
  intros (I1 & I2 & I3 & I4). unfold gather. cbv zeta.
  destruct (decide (BMDVersion kv.2.2 = 0)) as [Hz|Hz].
  { rewrite (bool_decide_eq_true_2 _ Hz). split; [exact I1|]. split; [exact I2|]. split.
    - intros u b Hb. destruct (I3 u b Hb) as (Hu & Hv & kv' & Hin & Hkv).
      split; [exact Hu|]. split; [exact Hv|]. exists kv'. split; [|exact Hkv].
      apply elem_of_app. left. exact Hin.
    - intros kv' Hin Hv. apply elem_of_app in Hin as [Hin|Hin]; [apply I4; assumption|].
      apply list_elem_of_singleton in Hin. subst kv'. contradiction. }
  rewrite (bool_decide_eq_false_2 _ Hz).
  set (u0 := BMDUUID kv.2.2). set (b0 := kv.2.2).
  set (ml := <[u0 := default [] (st.1 !! u0) ++ [mkRegMeta None b0 kv.2.1]]> st.1).
  assert (Hseen : forall x, x ∈ seen -> x ∈ seen ++ [kv])
    by (intros x Hx; apply elem_of_app; left; exact Hx).
  assert (Hlast : kv ∈ seen ++ [kv])
    by (apply elem_of_app; right; apply list_elem_of_singleton; reflexivity).
  assert (Hml2 : forall u lst, ml !! u = Some lst -> lst <> []).
  { intros u lst Hl. unfold ml in Hl. apply lookup_insert_Some in Hl as [[_ <-]|[_ Hl]].
    - intros Hnil. apply app_eq_nil in Hnil as [_ Hnil]. discriminate.
    - exact (I2 u lst Hl). }
  destruct (st.2 !! u0) as [rbmd|] eqn:Hmax.
  - destruct (I3 u0 rbmd Hmax) as (Hru & Hrv & kvr & Hrin & Hrkv).
    destruct (Z.ltb_spec (BMDVersion rbmd) (BMDVersion b0)) as [Hlt|Hge]; cbn [fst snd].
    + unfold gathered; cbn [fst snd]; split; [|split; [exact Hml2|split]].
      * intros u. unfold ml. rewrite !lookup_insert_is_Some. rewrite I1. reflexivity.
      * intros u b Hb. apply lookup_insert_Some in Hb as [[<- <-]|[Hne Hb]].
        -- split; [reflexivity|]. split; [exact Hz|]. exists kv. split; [exact Hlast | reflexivity].
        -- destruct (I3 u b Hb) as (Hu & Hv & kv' & Hin & Hkv).
           split; [exact Hu|]. split; [exact Hv|]. exists kv'. split; [apply Hseen; exact Hin | exact Hkv].
      * intros kv' Hin Hv. apply elem_of_app in Hin as [Hin|Hin].
        -- destruct (I4 kv' Hin Hv) as (b & Hb & Hle).
           destruct (decide (u0 = BMDUUID kv'.2.2)) as [Heq|Hne].
           ++ exists b0. rewrite <- Heq. rewrite lookup_insert_eq. split; [reflexivity|].
              rewrite <- Heq in Hb. rewrite Hmax in Hb. injection Hb as <-. lia.
           ++ exists b. rewrite lookup_insert_ne by exact Hne. split; [exact Hb | exact Hle].
        -- apply list_elem_of_singleton in Hin. subst kv'. exists b0.
           fold u0. rewrite lookup_insert_eq. split; [reflexivity | fold b0; lia].
    + unfold gathered; cbn [fst snd]; split; [|split; [exact Hml2|split]].
      * intros u. unfold ml. rewrite lookup_insert_is_Some. rewrite I1.
        split; [intros [<-|[_ Hs]]; [rewrite Hmax; eauto | exact Hs]|].
        intros Hs. destruct (decide (u0 = u)); [left; assumption | right; split; assumption].
      * intros u b Hb. destruct (I3 u b Hb) as (Hu & Hv & kv' & Hin & Hkv).
        split; [exact Hu|]. split; [exact Hv|]. exists kv'. split; [apply Hseen; exact Hin | exact Hkv].
      * intros kv' Hin Hv. apply elem_of_app in Hin as [Hin|Hin]; [apply I4; assumption|].
        apply list_elem_of_singleton in Hin. subst kv'. exists rbmd. fold u0.
        split; [exact Hmax | fold b0; lia].
  - cbn [fst snd]. unfold gathered; cbn [fst snd]; split; [|split; [exact Hml2|split]].
    + intros u. unfold ml. rewrite !lookup_insert_is_Some. rewrite I1. reflexivity.
    + intros u b Hb. apply lookup_insert_Some in Hb as [[<- <-]|[Hne Hb]].
      * split; [reflexivity|]. split; [exact Hz|]. exists kv. split; [exact Hlast | reflexivity].
      * destruct (I3 u b Hb) as (Hu & Hv & kv' & Hin & Hkv).
        split; [exact Hu|]. split; [exact Hv|]. exists kv'. split; [apply Hseen; exact Hin | exact Hkv].
    + intros kv' Hin Hv. apply elem_of_app in Hin as [Hin|Hin].
      * destruct (I4 kv' Hin Hv) as (b & Hb & Hle).
        destruct (decide (u0 = BMDUUID kv'.2.2)) as [Heq|Hne].
        -- rewrite <- Heq in Hb. rewrite Hmax in Hb. discriminate.
        -- exists b. rewrite lookup_insert_ne by exact Hne. split; [exact Hb | exact Hle].
      * apply list_elem_of_singleton in Hin. subst kv'. exists b0.
        fold u0. rewrite lookup_insert_eq. split; [reflexivity | fold b0; lia].
Qed.

Lemma gather_all (l seen : list (string * (Snode * bucketMD)))
    (st : gmap string (list nodeRegMeta) * gmap string bucketMD) :
  gathered seen st -> gathered (seen ++ l) (fold_left gather l st).
Proof.
  revert seen st. induction l as [|kv l IH]; intros seen st Hinv; cbn [fold_left].
  - rewrite app_nil_r. exact Hinv.
  - replace (seen ++ kv :: l) with ((seen ++ [kv]) ++ l) by (rewrite <- app_assoc; reflexivity).
    apply IH. apply gather_step. exact Hinv.
Qed.

Lemma gathered_start : gathered [] (∅, ∅).
Proof.
  split; [|split; [|split]].
  - intros u. cbn [fst snd]. rewrite !lookup_empty. split; intros [? [=]].
  - intros u lst Hl. cbn [fst] in Hl. rewrite lookup_empty in Hl. discriminate.
  - intros u b Hb. cbn [snd] in Hb. rewrite lookup_empty in Hb. discriminate.
  - intros kv Hin. inversion Hin.
Qed.

Lemma gathered_sizes (seen : list (string * (Snode * bucketMD)))
    (st : gmap string (list nodeRegMeta) * gmap string bucketMD) :
  gathered seen st -> size st.2 = size st.1.
Proof.
  intros (I1 & _). rewrite <- !(size_dom (D := gset string)). f_equal.
  apply set_eq. intros u. rewrite !elem_of_dom. symmetry. apply I1.
Qed.

Lemma seen_counted (bmds : gmap string (Snode * bucketMD))
    (kv : string * (Snode * bucketMD)) :
  kv ∈ range 1 bmds -> BMDVersion kv.2.2 <> 0 -> kv.2.2 ∈ counted bmds.
Proof.
  intros Hin Hv. unfold counted. apply list_elem_of_filter. split; [exact Hv|].
  apply list_elem_of_fmap. exists kv. split; [reflexivity|].
  rewrite <- (range_perm 1 _ bmds). exact Hin.
Qed.

Lemma counted_seen (bmds : gmap string (Snode * bucketMD)) (bmd : bucketMD) :
  bmd ∈ counted bmds ->
  exists kv, kv ∈ range 1 bmds /\ kv.2.2 = bmd /\ BMDVersion bmd <> 0.
Proof.
  unfold counted. intros Hin. apply list_elem_of_filter in Hin as [Hv Hin].
  apply list_elem_of_fmap in Hin as (kv & -> & Hin). exists kv.
  split; [rewrite (range_perm 1 _ bmds); exact Hin|]. split; [reflexivity | exact Hv].
Qed.

Lemma majority_spec (l : list (string * list nodeRegMeta)) (acc : string * nat) :
  (fold_left majority l acc = acc /\ Forall (fun kv => (length kv.2 <= acc.2)%nat) l)
  \/ (exists kv, kv ∈ l /\ fold_left majority l acc = (kv.1, length kv.2)
                 /\ (acc.2 < length kv.2)%nat).
Proof.
  revert acc. induction l as [|kv l IH]; intros acc; cbn [fold_left].
  - left. split; [reflexivity | constructor].
  - change (majority acc kv)
      with (if (acc.2 <? length kv.2)%nat then (kv.1, length kv.2) else acc).
    destruct (Nat.ltb_spec acc.2 (length kv.2)) as [Hlt|Hge].
    + destruct (IH (kv.1, length kv.2)) as [[Heq Hall]|(kv' & Hin & Heq & Hlt')].
      * right. exists kv. split; [left|]. split; [exact Heq | exact Hlt].
      * right. exists kv'. split; [right; exact Hin|]. split; [exact Heq|].
        cbn [snd] in Hlt'. lia.
    + destruct (IH acc) as [[Heq Hall]|(kv' & Hin & Heq & Hlt')].
      * left. split; [exact Heq|]. constructor; [exact Hge | exact Hall].
      * right. exists kv'. split; [right; exact Hin|]. split; [exact Heq | exact Hlt'].
Qed.

(** X19.  resolveUUIDBMD counts only the BMDs whose version is not 0, in
    whatever order the maps are visited.  (1) When there is none to count
    (the map may be empty) the result is nil with errNoBMD.  (2) When the
    counted BMDs all carry one non-empty UUID, the result is one of them
    with the highest version, and no error.  (3) When every counted BMD has
    a non-empty UUID the function returns: neither of its assertions fails
    and no nil pointer is dereferenced. *)
Theorem resolve_counts_versioned_bmds (bmds : gmap string (Snode * bucketMD)) :
  (counted bmds = [] -> resolveUUIDBMD bmds = Ret (None, Some errNoBMD))
  /\ (forall u, counted bmds <> [] -> u <> "" ->
        Forall (fun bmd => BMDUUID bmd = u) (counted bmds) ->
        exists b, resolveUUIDBMD bmds = Ret (Some b, None)
                  /\ b ∈ counted bmds
                  /\ Forall (fun bmd => BMDVersion bmd <= BMDVersion b) (counted bmds))
  /\ (Forall (fun bmd => BMDUUID bmd <> "") (counted bmds) ->
      exists res, resolveUUIDBMD bmds = Ret res).
Proof.
  pose proof (gather_all (range 1 bmds) [] (∅, ∅) gathered_start) as Hinv.
  cbn [app] in Hinv. pose proof (gathered_sizes _ _ Hinv) as Hsize.
  destruct Hinv as (I1 & I2 & I3 & I4).
  unfold resolveUUIDBMD. cbv zeta.
  set (st := fold_left gather (range 1 bmds) (∅, ∅)) in *.
  rewrite Hsize, Nat.eqb_refl. cbn [negb].
  split; [|split].
  - intros Hnone.
    assert (Hempty : st.1 = ∅).
    { apply map_empty. intros u. destruct (st.1 !! u) as [lst|] eqn:Hl; [|reflexivity].
      exfalso. destruct (proj1 (I1 u) (mk_is_Some _ _ Hl)) as [b Hb].
      destruct (I3 u b Hb) as (_ & Hv & kv & Hin & Hkv).
      pose proof (seen_counted bmds kv Hin) as Hc. rewrite Hkv in Hc.
      specialize (Hc Hv). rewrite Hnone in Hc. inversion Hc. }
    rewrite Hempty, map_size_empty. reflexivity.
  - intros u Hne Hu Hall.
    destruct (counted bmds) as [|bmd0 rest] eqn:Ec; [contradiction|].
    assert (Hin0 : bmd0 ∈ counted bmds) by (rewrite Ec; left).
    destruct (counted_seen bmds bmd0 Hin0) as (kv0 & Hkv0 & Hb0 & Hv0).
    assert (Hu0 : BMDUUID bmd0 = u) by (apply Forall_cons in Hall as [H0 _]; exact H0).
    destruct (I4 kv0 Hkv0) as (b & Hb & _); [rewrite Hb0; exact Hv0|].
    rewrite Hb0, Hu0 in Hb.
    assert (Hkeys : forall u' b', st.2 !! u' = Some b' -> u' = u).
    { intros u' b' Hb'. destruct (I3 u' b' Hb') as (Hu' & Hv' & kv & Hin & Hkv).
      pose proof (seen_counted bmds kv Hin) as Hc. rewrite Hkv in Hc. specialize (Hc Hv').
      rewrite Ec in Hc. rewrite Forall_forall in Hall. rewrite <- Hu'. apply Hall. exact Hc. }
    destruct (proj2 (I1 u) (mk_is_Some _ _ Hb)) as [lst Hlst].
    assert (Hml : st.1 = {[u := lst]}).
    { apply map_eq. intros u'. destruct (decide (u' = u)) as [->|Hne'].
      - rewrite lookup_singleton_eq. exact Hlst.
      - rewrite lookup_singleton_ne by (intros Heq; apply Hne'; symmetry; exact Heq).
        destruct (st.1 !! u') as [lst'|] eqn:Hl'; [|reflexivity]. exfalso.
        destruct (proj1 (I1 u') (mk_is_Some _ _ Hl')) as [b' Hb']. apply Hne'.
        exact (Hkeys u' b' Hb'). }
    assert (Hrange : forall site, range site st.1 = [(u, lst)]).
    { intros site. apply Permutation_singleton_r.
      rewrite (range_perm site _ st.1), Hml, map_to_list_singleton. reflexivity. }
    assert (Hlen : (0 < length lst)%nat).
    { destruct lst; [exfalso; exact (I2 u [] Hlst eq_refl) | cbn; lia]. }
    assert (Hsz : size st.1 = 1%nat) by (rewrite Hml; apply map_size_singleton).
    rewrite !Hrange, !Hsz.
    cbn [Nat.eqb fold_left]. unfold majority. cbn [fst snd].
    destruct (Nat.ltb_spec 0 (length lst)) as [_|Hge]; [|lia]. cbn [fst snd].
    unfold tied. cbn [existsb fst snd].
    rewrite (bool_decide_eq_false_2 (u <> u)) by (intros Hn; apply Hn; reflexivity).
    rewrite andb_false_r. cbn [orb Nat.ltb Nat.leb]. rewrite Hb.
    destruct (I3 u b Hb) as (Hbu & Hbv & kvb & Hbin & Hbkv).
    rewrite (bool_decide_eq_false_2 (BMDUUID b = ""))
      by (rewrite Hbu; exact Hu).
    exists b. split; [reflexivity|]. split.
    + pose proof (seen_counted bmds kvb Hbin) as Hc. rewrite Hbkv in Hc.
      rewrite Ec in Hc. apply Hc. exact Hbv.
    + apply Forall_forall. intros bmd Hbmd.
      assert (Hc : bmd ∈ counted bmds) by (rewrite Ec; exact Hbmd).
      destruct (counted_seen bmds bmd Hc) as (kv & Hkv & Hkb & Hkz).
      destruct (I4 kv Hkv) as (b' & Hb' & Hle); [rewrite Hkb; exact Hkz|].
      rewrite Hkb in Hb', Hle. rewrite Forall_forall in Hall. rewrite (Hall bmd Hbmd) in Hb'.
      rewrite Hb in Hb'. injection Hb' as <-. exact Hle.
  - intros Hall. destruct (size st.1 =? 0)%nat eqn:Hz; [eexists; reflexivity|].
    destruct (tied _ _ _); [eexists; reflexivity|].
    destruct (majority_spec (range 2 st.1) ("", 0%nat))
      as [[_ Hsmall]|(kv & Hin & Heq & _)].
    + exfalso. apply Nat.eqb_neq in Hz. apply Hz.
      assert (Hempty : st.1 = ∅).
      { apply map_empty. intros u. destruct (st.1 !! u) as [lst|] eqn:Hl; [|reflexivity].
        exfalso. rewrite Forall_forall in Hsmall.
        assert (Hm : (u, lst) ∈ range 2 st.1)
          by (rewrite (range_perm 2 _ st.1); apply elem_of_map_to_list; exact Hl).
        specialize (Hsmall _ Hm). cbn [fst snd] in Hsmall.
        destruct lst; [exact (I2 u [] Hl eq_refl) | cbn in Hsmall; lia]. }
      rewrite Hempty. apply map_size_empty.
    + rewrite Heq. cbn [fst snd].
      rewrite (range_perm 2 _ st.1) in Hin. destruct kv as [u lst].
      apply elem_of_map_to_list in Hin. cbn [fst].
      destruct (proj1 (I1 u) (mk_is_Some _ _ Hin)) as [b Hb]. rewrite Hb.
      destruct (I3 u b Hb) as (Hbu & Hbv & kvb & Hbin & Hbkv).
      pose proof (seen_counted bmds kvb Hbin) as Hc. rewrite Hbkv in Hc. specialize (Hc Hbv).
      rewrite Forall_forall in Hall.
      rewrite (bool_decide_eq_false_2 _ (Hall b Hc)). eexists. reflexivity.
Qed.

End RecoveryFacts.

End RecoveryFacts.

Module RecoveryExamples.
Import Prx PrxFacts PrxSamples Recovery RecoveryFacts RecoverySamples.

#[local] Existing Instance cell.
#[local] Existing Instance Ref.smapOps.
#[local] Existing Instance Ref.cmn.
#[local] Existing Instance Ref.bmdOps.
#[local] Existing Instance canonicalRange.
#[local] Existing Instance Ref.peers.

(** Versions 3 and 5 of cluster A: version 105 is put, without force. *)
Lemma recover_installs_newest_witness :
  exists rbmd,
    BMDVersion rbmd = 5
    /\ final (recoverBuckets recoverReq recoverMsg agreeing p1) = set_bmd (put (raised rbmd)) p1
    /\ BMDVersion (raised rbmd) = 105.
Proof.
  pose proof (recover_installs_newest p1 recoverReq recoverMsg agreeing "A") as H.
  cbv zeta in H. destruct H as (rbmd & Hin & Hmax & _ & Hf & _).
  - reflexivity.
  - reflexivity.
  - discriminate.
  - repeat constructor.
  - assert (Hv : BMDVersion rbmd = 5).
    { apply elem_of_cons in Hin as [->|Hin].
      - apply Forall_cons in Hmax as [_ Hmax]. apply Forall_cons in Hmax as [Hle _].
        cbn in Hle. lia.
      - apply list_elem_of_singleton in Hin. subst rbmd. reflexivity. }
    exists rbmd. split; [exact Hv|]. split; [exact Hf|].
    unfold raised. cbn [BMDVersion]. rewrite Hv. reflexivity.
Defined.

(** No target answers: the handler fails. *)
Lemma recover_without_replies_witness :
  value (recoverBuckets recoverReq recoverMsg [unreachable Ref.T1] p1)
  = Panic "nil pointer dereference".
Proof.
  pose proof (recover_without_replies p1 recoverReq recoverMsg [unreachable Ref.T1]) as H.
  cbv zeta in H. destruct (H eq_refl eq_refl eq_refl) as (Hv & _). exact Hv.
Defined.

End RecoveryExamples.

Module MemberFacts.
Import Prx PrxFacts RunFacts Member.

Section MemberFacts.
Context {OS : Owner smapX} {OB : Owner bucketMD} {OR : Owner rebMD}.
Context {SO : SmapOps} {C : Cmn} {BO : BmdOps} {MR : MapRange} {PE : Peers}.
Context {CL : Cluster}.

(** *** Quiet traces *)

Lemma quiet_syncs (t : list event) : Forall (fun e => isQuiet e = true) t -> syncs t = [].
Proof.
  induction 1 as [|e t He _ IH]; [reflexivity|].
  unfold syncs in *. cbn [omap list_omap]. destruct e; try discriminate; exact IH.
Qed.

Lemma quiet_no_inval (t : list event) :
  Forall (fun e => isQuiet e = true) t -> Forall (fun e => isInval e = false) t.
Proof.
  induction 1 as [|e t He _ IH]; constructor; [|exact IH].
  destruct e; try discriminate; reflexivity.
Qed.

Lemma quiet_locks (o : ownerKind) (t : list event) :
  Forall (fun e => isQuiet e = true) t -> locks o t = 0%nat /\ unlocks o t = 0%nat.
Proof.
  induction 1 as [|e t He _ IH]; [split; reflexivity|].
  unfold locks, unlocks in *. cbn [filter list_filter].
  destruct e; try discriminate; cbn; exact IH.
Qed.

Lemma quiet_forwarded (t : list event) :
  Forall (fun e => isQuiet e = true) t -> forwarded t = [].
Proof.
  induction 1 as [|e t He _ IH]; [reflexivity|].
  unfold forwarded in *. cbn [omap list_omap]. destruct e; try discriminate; exact IH.
Qed.

(** *** When a rebalance is required *)

Lemma anyAbsent_spec (m : smapX) (l : list (string * Snode)) :
  anyAbsent m l = true <-> exists kv, kv ∈ l /\ isPresent m kv.2 = false.
Proof.
  induction l as [|kv l IH]; cbn [anyAbsent].
  - split; [discriminate|]. intros (kv & Hin & _). inversion Hin.
  - destruct (isPresent m kv.2) eqn:Hp; cbn [negb].
    + rewrite IH. split.
      * intros (kv' & Hin & Hab). exists kv'. split; [right; exact Hin | exact Hab].
      * intros (kv' & Hin & Hab). apply elem_of_cons in Hin as [->|Hin].
        -- congruence.
        -- exists kv'. split; assumption.
    + split; [|reflexivity]. intros _. exists kv. split; [left | exact Hp].
Qed.

Lemma anyAbsent_range (site : nat) (m : smapX) (tm : gmap string Snode) :
  anyAbsent m (range site tm) = true
  <-> exists node, node ∈ (map_to_list tm).*2 /\ isPresent m node = false.
Proof.
  rewrite anyAbsent_spec. split.
  - intros (kv & Hin & Hab). exists kv.2. split; [|exact Hab].
    apply list_elem_of_fmap. exists kv. split; [reflexivity|].
    rewrite <- (range_perm site _ tm). exact Hin.
  - intros (node & Hin & Hab). apply list_elem_of_fmap in Hin as (kv & -> & Hin).
    exists kv. split; [|exact Hab]. rewrite (range_perm site _ tm). exact Hin.
Qed.

Lemma canStartRebalance_spec (d : daemon) :
  canStartRebalance d = None
  <-> RebalanceEnabled d = true
      /\ (DontRunTime d <= 0 \/ (NodeStarted d = true /\ DontRunTime d <= sinceStarted d)).
Proof.
  unfold canStartRebalance.
  destruct (RebalanceEnabled d); cbn [negb]; [|split; [discriminate | intros [[=] _]]].
  destruct (Z.ltb_spec 0 (DontRunTime d)) as [Hpos|Hpos].
  - destruct (NodeStarted d); cbn [negb].
    + destruct (Z.ltb_spec (sinceStarted d) (DontRunTime d)) as [Hlt|Hge].
      * split; [discriminate|]. intros [_ [H|[_ H]]]; lia.
      * split; [|reflexivity]. intros _. split; [reflexivity|]. right. split; [reflexivity | lia].
    + split; [discriminate|]. intros [_ [H|[[=] _]]]. lia.
  - split; [|reflexivity]. intros _. split; [reflexivity|]. left. lia.
Qed.

Lemma requiresRebalance_run (d : daemon) (prev cur : smapX) (p : proxyrunner) :
  requiresRebalance d prev cur p = mkRun (Ret (rebalances d prev cur p)) p [].
Proof.
  unfold rebalances, requiresRebalance.
  destruct (canStartRebalance d); [reflexivity|].
  destruct (CountTargets prev <? CountTargets cur); [reflexivity|].
  destruct (anyAbsent prev (range 6 (Tmap cur))); [reflexivity|].
  run_step. destruct (IsECUsed (get (owner_bmd p))); [|reflexivity].
  destruct (anyAbsent cur (range 7 (Tmap prev))); reflexivity.
Qed.

(** X20.  requiresRebalance only reads: it returns without a trace and
    leaves the proxy as it was.  Its answer does not depend on the order in
    which the target maps are visited: it is true exactly when a rebalance
    can start (it is enabled, and the quiet time after the start of the
    node, if one is configured, is over) and either the current map counts
    more targets than the previous one, or a target of the current map is
    not present in the previous one, or erasure coding is in use and a
    target of the previous map is not present in the current one. *)
Theorem rebalance_required_iff (d : daemon) (prev cur : smapX) (p : proxyrunner) :
  requiresRebalance d prev cur p = mkRun (Ret (rebalances d prev cur p)) p []
  /\ (rebalances d prev cur p = true
      <-> (RebalanceEnabled d = true
           /\ (DontRunTime d <= 0 \/ (NodeStarted d = true /\ DontRunTime d <= sinceStarted d)))
          /\ (CountTargets prev < CountTargets cur
              \/ (exists node, node ∈ targetsOf cur /\ isPresent prev node = false)
              \/ (IsECUsed (get (owner_bmd p)) = true
                  /\ exists node, node ∈ targetsOf prev /\ isPresent cur node = false))).
Proof.
  split; [apply requiresRebalance_run|].
  rewrite <- canStartRebalance_spec. unfold rebalances, requiresRebalance, targetsOf.
  destruct (canStartRebalance d) as [e|]; cbn [value].
  { split; [discriminate | intros [[=] _]]. }
  destruct (Z.ltb_spec (CountTargets prev) (CountTargets cur)) as [Hlt|Hge]; cbn [value].
  { split; [|reflexivity]. intros _. split; [reflexivity|]. left. exact Hlt. }
  destruct (anyAbsent prev (range 6 (Tmap cur))) eqn:Hnew; cbn [value].
  { split; [|reflexivity]. intros _. split; [reflexivity|]. right. left.
    apply (anyAbsent_range 6). exact Hnew. }
  assert (Hnone : ~ exists node, node ∈ (map_to_list (Tmap cur)).*2 /\ isPresent prev node = false).
  { intros H. apply (anyAbsent_range 6) in H. congruence. }
  run_step. destruct (IsECUsed (get (owner_bmd p))) eqn:Hec; cbn [value].
  - destruct (anyAbsent cur (range 7 (Tmap prev))) eqn:Hgone; cbn [value].
    + split; [|reflexivity]. intros _. split; [reflexivity|]. right. right.
      split; [reflexivity|]. apply (anyAbsent_range 7). exact Hgone.
    + split; [discriminate|]. intros [_ [H|[H|[_ H]]]].
      * lia.
      * contradiction.
      * apply (anyAbsent_range 7) in H. congruence.
  - split; [discriminate|]. intros [_ [H|[H|[[=] _]]]]; [lia | contradiction].
Qed.

(** *** Unregistering a node *)

Lemma attempts_bounds (node : Snode) (req : Call.ReqArgs) (n i : nat) :
  (attempts node req n i <= n)%nat /\ ((0 < n)%nat -> (1 <= attempts node req n i)%nat).
Proof.
  revert i. induction n as [|n IH]; intros i; cbn [attempts]; [lia|].
  destruct (Call.err (call node req i)); [|lia].
  destruct (IH (S i)) as [Hle _]. lia.
Qed.

Lemma attempts_first (node : Snode) (req : Call.ReqArgs) (n i : nat) :
  (forall k, (S k < attempts node req n i)%nat -> Call.err (call node req (i + k)) <> None)
  /\ ((attempts node req n i < n)%nat ->
      Call.err (call node req (i + (attempts node req n i - 1))) = None).
Proof.
  revert i. induction n as [|n IH]; intros i; cbn [attempts]; [split; intros; lia|].
  destruct (Call.err (call node req i)) as [e|] eqn:He.
  - destruct (IH (S i)) as [Hfail Hok]. split.
    + intros [|k] Hk.
      * rewrite Nat.add_0_r, He. discriminate.
      * replace (i + S k)%nat with (S i + k)%nat by lia. apply Hfail. lia.
    + intros Hlt. destruct (attempts_bounds node req n (S i)) as [_ Hpos].
      assert (Hn : (0 < n)%nat) by lia. specialize (Hpos Hn).
      replace (i + (S (attempts node req n (S i)) - 1))%nat
        with (S i + (attempts node req n (S i) - 1))%nat by lia.
      apply Hok. lia.
  - split; [intros k Hk; lia|]. intros _. cbn. rewrite Nat.add_0_r. exact He.
Qed.

Lemma tellLeaving_run (node : Snode) (req : Call.ReqArgs) (n i : nat) (p : proxyrunner) :
  exists t,
    tellLeaving node req n i p
    = mkRun (Ret (replicate (attempts node req n i) (Called node req))) p t
    /\ Forall (fun e => isQuiet e = true) t.
Proof.
  revert i. induction n as [|n IH]; intros i; cbn [tellLeaving attempts].
  - exists []. split; [reflexivity | constructor].
  - destruct (Call.err (call node req i)).
    + destruct (IH (S i)) as (t & Ht & Hq). eexists. split.
      * change (?a = mkRun ?v ?q ?tr) with (a = mkRun v q tr).
        eapply bind_ret; [reflexivity|]. eapply bind_ret; [exact Ht|]. reflexivity.
      * cbn [app]. rewrite app_nil_r. constructor; [reflexivity | exact Hq].
    + exists []. split; [reflexivity | constructor].
Qed.

Lemma unregisterNode_run (d : daemon) (clone : smapX) (sid : string) (node cnode : Snode)
    (p : proxyrunner) :
  GetNode (get (owner_smap p)) sid = Some node ->
  GetNode clone sid = Some cnode ->
  exists t,
    unregisterNode d clone sid p
    = mkRun (Ret (if NodeStarted d
                     && negb (isPrimary (staffed (if IsProxy cnode then delProxy sid clone
                                                  else delTarget sid clone)) (si p))
                  then (http.StatusInternalServerError,
                        Some (ErrMsg (DaemonID (si p) +:+ ": is not a primary")))
                  else (0, None),
                  staffed (if IsProxy cnode then delProxy sid clone else delTarget sid clone),
                  replicate (attempts node unregisterReq 3 0) (Called node unregisterReq)))
        p t
    /\ Forall (fun e => isQuiet e = true) t.
Proof.
  intros Hnode Hcnode.
  destruct (tellLeaving_run node unregisterReq 3 0 p) as (t & Ht & Hq).
  unfold unregisterNode. unfold getSmap. rewrite bind_reads, Hnode.
  fold unregisterReq.
  eexists. split.
  - eapply bind_ret; [exact Ht|]. rewrite Hcnode.
    instantiate (1 := [EvLog Info (if IsProxy cnode then "unregistered proxy"
                                   else "unregistered target")]).
    destruct (IsProxy cnode); run_step.
    + destruct (NodeStarted d); cbn [negb andb]; [|reflexivity].
      destruct (isPrimary (staffed (delProxy sid clone)) (si p)); reflexivity.
    + destruct (NodeStarted d); cbn [negb andb]; [|reflexivity].
      destruct (isPrimary (staffed (delTarget sid clone)) (si p)); reflexivity.
  - apply Forall_app. split; [exact Hq|]. repeat constructor.
Qed.

(** X21.  unregisterNode tells the leaving node at most three times, and
    stops after the first call that succeeds; what it does to the clone and
    what it returns do not depend on the replies.  For a node that both the
    current map and the clone know, the clone loses the node (a proxy or a
    target, by its type) and its council is staffed again; the call fails,
    with status 500, exactly when the node has started and is not the
    primary of the clone.  The proxy itself is left as it was, and only log
    lines are written. *)
Theorem unregister_is_best_effort (d : daemon) (clone : smapX) (sid : string)
    (node cnode : Snode) (p : proxyrunner) :
  let out := unregisterNode d clone sid p in
  let n := attempts node unregisterReq 3 0 in
  let removed := staffed (if IsProxy cnode then delProxy sid clone else delTarget sid clone) in
  GetNode (get (owner_smap p)) sid = Some node ->
  GetNode clone sid = Some cnode ->
  (1 <= n <= 3)%nat
  /\ (forall k, (S k < n)%nat -> Call.err (call node unregisterReq k) <> None)
  /\ ((n < 3)%nat -> Call.err (call node unregisterReq (n - 1)) = None)
  /\ value out
     = Ret (if NodeStarted d && negb (isPrimary removed (si p))
            then (http.StatusInternalServerError,
                  Some (ErrMsg (DaemonID (si p) +:+ ": is not a primary")))
            else (0, None),
            removed, replicate n (Called node unregisterReq))
  /\ final out = p
  /\ Forall (fun e => isQuiet e = true) (trace out).
Proof.
  intros out n removed Hnode Hcnode. subst out n removed.
  destruct (unregisterNode_run d clone sid node cnode p Hnode Hcnode) as (t & Ht & Hq).
  rewrite Ht. cbn [value final trace].
  destruct (attempts_bounds node unregisterReq 3 0) as [Hle Hpos].
  destruct (attempts_first node unregisterReq 3 0) as [Hfail Hok].
  split; [split; [apply Hpos; lia | exact Hle]|].
  split; [intros k Hk; exact (Hfail k Hk)|].
  split; [intros Hlt; exact (Hok Hlt)|].
  split; [reflexivity|]. split; [reflexivity | exact Hq].
Qed.

Lemma rebalances_bmd (d : daemon) (prev cur : smapX) (p q : proxyrunner) :
  owner_bmd p = owner_bmd q -> rebalances d prev cur p = rebalances d prev cur q.
Proof.
  intros Hb. unfold rebalances, requiresRebalance.
  destruct (canStartRebalance d); [reflexivity|].
  destruct (CountTargets prev <? CountTargets cur); [reflexivity|].
  destruct (anyAbsent prev (range 6 (Tmap cur))); [reflexivity|].
  run_step. rewrite Hb. destruct (IsECUsed (get (owner_bmd q))); [|reflexivity].
  destruct (anyAbsent cur (range 7 (Tmap prev))); reflexivity.
Qed.

Lemma locks_app (o : ownerKind) (a b : list event) :
  locks o (a ++ b) = (locks o a + locks o b)%nat
  /\ unlocks o (a ++ b) = (unlocks o a + unlocks o b)%nat.
Proof. unfold locks, unlocks. rewrite !filter_app, !length_app. split; reflexivity. Qed.

Lemma forwarded_app (a b : list event) : forwarded (a ++ b) = forwarded a ++ forwarded b.
Proof. unfold forwarded. apply omap_app. Qed.

(** The two ways through the owner's modify. *)
Lemma modify_refused {X Y : Type} (pre : smapX -> prx (X * (error + smapX)))
    (post : X -> smapX -> prx Y) (p p' : proxyrunner) (x : X) (err : error)
    (t : list event) :
  pre (get (owner_smap p)) p = mkRun (Ret (x, inl err)) p' t ->
  smap_modify_with pre post p
  = mkRun (Ret (x, inl err)) p' ([EvLock OSmap] ++ t ++ [EvUnlock OSmap]).
Proof.
  intros Hpre. unfold smap_modify_with.
  eapply bind_ret; [reflexivity|]. unfold getSmap. rewrite bind_reads.
  eapply bind_ret; [exact Hpre|]. reflexivity.
Qed.

Lemma modify_done {X Y : Type} (pre : smapX -> prx (X * (error + smapX)))
    (post : X -> smapX -> prx Y) (p p' p'' : proxyrunner) (x : X) (clone : smapX) (y : Y)
    (t t' : list event) :
  pre (get (owner_smap p)) p = mkRun (Ret (x, inr clone)) p' t ->
  post x clone (set_smap (put clone) p') = mkRun (Ret y) p'' t' ->
  smap_modify_with pre post p
  = mkRun (Ret (x, inr y)) p'' (([EvLock OSmap] ++ t ++ [EvUnlock OSmap] ++ t') ++ []).
Proof.
  intros Hpre Hpost. unfold smap_modify_with. rewrite app_nil_r.
  eapply bind_ret; [reflexivity|]. unfold getSmap. rewrite bind_reads.
  eapply bind_ret; [exact Hpre|]. cbn [fst snd].
  change ([EvUnlock OSmap] ++ t') with ([] ++ [EvUnlock OSmap] ++ t').
  eapply bind_ret; [reflexivity|]. eapply bind_ret; [reflexivity|].
  rewrite <- (app_nil_r t').
  eapply bind_ret; [exact Hpost|]. reflexivity.
Qed.

(** The removal as httpcludel runs it on the primary, from the lock on. *)
Lemma removal_run (d : daemon) (sid : string) (node : Snode) (msg : ActionMsg)
    (p : proxyrunner) :
  GetNode (get (owner_smap p)) sid = Some node ->
  exists t,
    Forall (fun e => isQuiet e = true) t
    /\ smap_modify_with
         (fun clone =>
            smap ← getSmap;
            out ← unregisterNode d clone sid;
            mret ((smap, out.1.1.1, out.2),
                  match out.1.1.2 with
                  | Some err => inl err
                  | None => inr out.1.2
                  end))
         (fun shared clone =>
            let smap := shared.1.1 in
            let aisMsg := newAisMsg msg (Some clone) None in
            reb ← requiresRebalance d smap clone;
            if reb : bool then
              rmd ← rmd_modify inc;
              emit (EvSync [(RevSmap clone, aisMsg); (RevRMD rmd, aisMsg)])
            else emit (EvSync [(RevSmap clone, aisMsg)])) p
       = let smap := get (owner_smap p) in
         let removed := staffed (if IsProxy node then delProxy sid smap else delTarget sid smap) in
         let calls := replicate (attempts node unregisterReq 3 0) (Called node unregisterReq) in
         let aisMsg := newAisMsg msg (Some removed) None in
         let p1 := set_smap (put removed) p in
         if NodeStarted d && negb (isPrimary removed (si p)) then
           mkRun (Ret ((smap, http.StatusInternalServerError, calls),
                       inl (ErrMsg (DaemonID (si p) +:+ ": is not a primary"))))
             p ([EvLock OSmap] ++ t ++ [EvUnlock OSmap])
         else if rebalances d smap removed p then
           mkRun (Ret ((smap, 0, calls), inr tt))
             (set_rmd (fun _ => (modifyRMD inc (owner_rmd p)).2) p1)
             ([EvLock OSmap] ++ t
              ++ [EvUnlock OSmap;
                  EvSync [(RevSmap removed, aisMsg);
                          (RevRMD (modifyRMD inc (owner_rmd p)).1, aisMsg)]])
         else
           mkRun (Ret ((smap, 0, calls), inr tt)) p1
             ([EvLock OSmap] ++ t ++ [EvUnlock OSmap; EvSync [(RevSmap removed, aisMsg)]]).
Proof.
  intros Hnode.
  destruct (unregisterNode_run d (get (owner_smap p)) sid node node p Hnode Hnode)
    as (t & Ht & Hq).
  exists t. split; [exact Hq|]. cbv zeta.
  set (smap := get (owner_smap p)) in *.
  set (removed := staffed (if IsProxy node then delProxy sid smap else delTarget sid smap)) in *.
  unfold smap_modify_with.
  destruct (NodeStarted d && negb (isPrimary removed (si p))) eqn:Hgate.
  - eapply bind_ret; [reflexivity|]. unfold getSmap. rewrite bind_reads. fold smap.
    eapply bind_ret.
    { rewrite bind_reads. fold smap.
      rewrite <- (app_nil_r t). eapply bind_ret; [exact Ht|]. reflexivity. }
    cbn [fst snd]. reflexivity.
  - pose proof (rebalances_bmd d smap removed (set_smap (put removed) p) p eq_refl) as Hreb.
    pose proof (requiresRebalance_run d smap removed (set_smap (put removed) p)) as Hrun.
    rewrite Hreb in Hrun.
    destruct (rebalances d smap removed p) eqn:Hr.
    + eapply bind_ret; [reflexivity|]. unfold getSmap. rewrite bind_reads. fold smap.
      eapply bind_ret.
      { rewrite bind_reads. fold smap.
        rewrite <- (app_nil_r t). eapply bind_ret; [exact Ht|]. reflexivity. }
      cbn [fst snd].
      change ([EvUnlock OSmap; EvSync ?l]) with ([] ++ [EvUnlock OSmap] ++ [EvSync l]).
      eapply bind_ret; [reflexivity|]. eapply bind_ret; [reflexivity|].
      rewrite <- (app_nil_r [EvSync _]).
      eapply bind_ret; [|reflexivity].
      change ([EvSync ?l]) with ([] ++ [EvSync l]).
      eapply bind_ret; [exact Hrun|].
      cbv iota. unfold rmd_modify. run_step. reflexivity.
    + eapply bind_ret; [reflexivity|]. unfold getSmap. rewrite bind_reads. fold smap.
      eapply bind_ret.
      { rewrite bind_reads. fold smap.
        rewrite <- (app_nil_r t). eapply bind_ret; [exact Ht|]. reflexivity. }
      cbn [fst snd].
      change ([EvUnlock OSmap; EvSync ?l]) with ([] ++ [EvUnlock OSmap] ++ [EvSync l]).
      eapply bind_ret; [reflexivity|]. eapply bind_ret; [reflexivity|].
      rewrite <- (app_nil_r [EvSync _]).
      eapply bind_ret; [|reflexivity].
      change ([EvSync ?l]) with ([] ++ [EvSync l]).
      eapply bind_ret; [exact Hrun|]. reflexivity.
Qed.

(** X22.  DELETE /v1/cluster/daemon/<sid> on the primary, for a node of the
    cluster map.  The node is told (one to three calls, whatever it
    answers), under the lock of the Smap owner, taken and released once; the
    request is not forwarded.  When the node has started and is no longer
    the primary of the map without the node, the request is answered with
    status 500, nothing is put and nothing is metasynced.  Otherwise the map
    without the node, its council staffed again, is put and metasynced once
    with the unregister action of the node's type, followed in the same wave
    by the incremented RMD exactly when requiresRebalance says so for the
    two maps; the request gets no error answer. *)
Theorem node_removal_on_primary (d : daemon) (r : request) (sid : string)
    (rest : list string) (node : Snode) (p : proxyrunner) :
  let out := httpcludel d (inr (sid :: rest)) r p in
  let smap := get (owner_smap p) in
  let removed := staffed (if IsProxy node then delProxy sid smap else delTarget sid smap) in
  let msg := newAisMsg (mkAct (if IsProxy node then ActUnregProxy else ActUnregTarget) "" "")
               (Some removed) None in
  let p1 := set_smap (put removed) p in
  let reb := rebalances d smap removed p in
  isValid smap = true -> isPrimary smap (si p) = true ->
  GetNode smap sid = Some node ->
  value out = Ret (replicate (attempts node unregisterReq 3 0) (Called node unregisterReq))
  /\ forwarded (trace out) = []
  /\ locks OSmap (trace out) = 1%nat /\ unlocks OSmap (trace out) = 1%nat
  /\ (NodeStarted d && negb (isPrimary removed (si p)) = true ->
      final out = p /\ syncs (trace out) = []
      /\ Sync.invals (trace out)
         = [EvInval (DaemonID (si p) +:+ ": is not a primary")
              (Some http.StatusInternalServerError)])
  /\ (NodeStarted d && negb (isPrimary removed (si p)) = false ->
      final out = (if reb then set_rmd (fun _ => (modifyRMD inc (owner_rmd p)).2) p1 else p1)
      /\ syncs (trace out)
         = [(RevSmap removed, msg)
            :: if reb then [(RevRMD (modifyRMD inc (owner_rmd p)).1, msg)] else []]
      /\ Sync.invals (trace out) = []).
Proof.
  intros out smap removed msg p1 reb Hvalid Hprim Hnode.
  set (act := mkAct (if IsProxy node then ActUnregProxy else ActUnregTarget) "" "").
  destruct (removal_run d sid node act p Hnode) as (t & Hq & Hrun).
  cbv zeta in Hrun. fold smap removed in Hrun. fold msg p1 reb in Hrun.
  pose proof (quiet_syncs t Hq) as Hs.
  pose proof (quiet_forwarded t Hq) as Hf.
  destruct (quiet_locks OSmap t Hq) as [Hl Hu].
  assert (Hi : Sync.invals t = []).
  { pose proof (quiet_no_inval t Hq) as Hn. clear -Hn. unfold Sync.invals.
    induction Hn as [|e t He _ IH]; [reflexivity|]. cbn [filter list_filter].
    destruct (decide (isInval e = true)) as [Hc|_]; [congruence | exact IH]. }
  assert (Hout : out
    = if NodeStarted d && negb (isPrimary removed (si p)) then
        mkRun (Ret (replicate (attempts node unregisterReq 3 0) (Called node unregisterReq)))
          p (([EvLock OSmap] ++ t ++ [EvUnlock OSmap])
             ++ [EvInval (DaemonID (si p) +:+ ": is not a primary")
                   (Some http.StatusInternalServerError)])
      else if reb then
        mkRun (Ret (replicate (attempts node unregisterReq 3 0) (Called node unregisterReq)))
          (set_rmd (fun _ => (modifyRMD inc (owner_rmd p)).2) p1)
          (([EvLock OSmap] ++ t
            ++ [EvUnlock OSmap;
                EvSync [(RevSmap removed, msg);
                        (RevRMD (modifyRMD inc (owner_rmd p)).1, msg)]]) ++ [])
      else
        mkRun (Ret (replicate (attempts node unregisterReq 3 0) (Called node unregisterReq)))
          p1 (([EvLock OSmap] ++ t ++ [EvUnlock OSmap; EvSync [(RevSmap removed, msg)]])
              ++ [])).
  { subst out. unfold httpcludel. cbn [lookup list_lookup].
    unfold getSmap. rewrite bind_reads. fold smap. rewrite Hnode. fold act.
    destruct (NodeStarted d && negb (isPrimary removed (si p))).
    - change (?a = mkRun ?v ?q ?tr) with (a = mkRun v q ([] ++ tr)).
      eapply bind_ret; [apply forwardCP_primary; assumption|]. cbv iota.
      eapply bind_ret; [exact Hrun|]. reflexivity.
    - destruct reb.
      + change (?a = mkRun ?v ?q ?tr) with (a = mkRun v q ([] ++ tr)).
        eapply bind_ret; [apply forwardCP_primary; assumption|]. cbv iota.
        eapply bind_ret; [exact Hrun|]. reflexivity.
      + change (?a = mkRun ?v ?q ?tr) with (a = mkRun v q ([] ++ tr)).
        eapply bind_ret; [apply forwardCP_primary; assumption|]. cbv iota.
        eapply bind_ret; [exact Hrun|]. reflexivity. }
  rewrite Hout. clear Hout Hrun.
  destruct (NodeStarted d && negb (isPrimary removed (si p))); cbn [value final trace].
  - split; [reflexivity|].
    split; [rewrite !forwarded_app, Hf; reflexivity|].
    split; [rewrite !(proj1 (locks_app OSmap _ _)), Hl; reflexivity|].
    split; [rewrite !(proj2 (locks_app OSmap _ _)), Hu; reflexivity|].
    split; [|discriminate]. intros _. split; [reflexivity|].
    split; [rewrite !syncs_app, Hs; reflexivity|].
    unfold Sync.invals in *. rewrite !filter_app, Hi. reflexivity.
  - split; [destruct reb; reflexivity|].
    split; [destruct reb; cbn [trace]; rewrite !forwarded_app, Hf; reflexivity|].
    split; [destruct reb; cbn [trace]; rewrite !(proj1 (locks_app OSmap _ _)), Hl;
            reflexivity|].
    split; [destruct reb; cbn [trace]; rewrite !(proj2 (locks_app OSmap _ _)), Hu;
            reflexivity|].
    split; [discriminate|]. intros _.
    split; [destruct reb; reflexivity|].
    split; [destruct reb; cbn [trace]; rewrite !syncs_app, Hs; reflexivity|].
    unfold Sync.invals in *. destruct reb; cbn [trace]; rewrite !filter_app, Hi; reflexivity.
Qed.

(** *** Joining and keepalive *)






(** X24.  A keepalive that reaches the primary from a node of its map.
    When the node's data are the ones the map has, the heartbeat is recorded
    and nothing else happens: no call, no error, no update.  When they
    differ, the primary asks the node it knows for its data: if that node
    answers with data other than the new ones the id is taken for a
    duplicate and the keepalive is dropped, without an error; if it does not
    answer, or answers with the new data, the keepalive goes on as a join,
    and [update] is returned exactly when the cluster has started and the
    UUID and duplicate-URL checks pass.  The code is 400 throughout. *)
Theorem keepalive_of_known_node (d : daemon) (nsi osi : Snode) (regSmap : option smapX)
    (tag : string) (nonElectable : bool) (p : proxyrunner) :
  let out := handleJoinKalive d nsi regSmap tag true false nonElectable p in
  let smap := get (owner_smap p) in
  let reply := call osi snodeReq 0 in
  isPrimary smap (si p) = true ->
  known smap nsi = Some osi ->
  (Equals osi nsi = true ->
   out = mkRun (Ret (smap, None, http.StatusBadRequest, false, [HeardFrom (DaemonID nsi) false]))
           p [])
  /\ (Equals osi nsi = false -> Call.err reply = None -> Equals nsi (snodeOf reply) = false ->
      value out = Ret (smap, None, http.StatusBadRequest, false, [Called osi snodeReq])
      /\ final out = p)
  /\ (Equals osi nsi = false ->
      Call.err reply <> None \/ Equals nsi (snodeOf reply) = true ->
      exists err update,
        value out = Ret (smap, err, http.StatusBadRequest, update, [Called osi snodeReq])
        /\ (update = true
            <-> ClusterStarted d = true
                /\ smapValidateUUID smap regSmap (si p) nsi "" = None
                /\ IsDuplicateURL smap nsi = None)).
Proof.
  intros out smap reply Hprim Hknown. subst out reply.
  unfold handleJoinKalive. cbv zeta. unfold getSmap. rewrite !bind_reads. fold smap.
  rewrite Hprim. cbn [negb].
  assert (Hrun : forall v t,
             addOrUpdateNode d nsi (Some osi) true p = mkRun (Ret v) p t ->
             nodeChecks d smap nsi tag true false p
             = mkRun (Ret (if v.1 then inr v.2 else inl (None, http.StatusBadRequest, v.2))) p t).
  { intros v t Hv. unfold nodeChecks, known in *. cbv zeta. rewrite bind_reads.
    destruct (IsProxy nsi); rewrite Hknown.
    - rewrite <- (app_nil_r t). eapply bind_ret; [exact Hv|]. destruct v.1; reflexivity.
    - rewrite <- (app_nil_r t). eapply bind_ret; [exact Hv|]. cbn [andb].
      destruct v.1; reflexivity. }
  unfold addOrUpdateNode, detectDaemonDuplicate in Hrun. cbv zeta in Hrun.
  fold snodeReq in Hrun. cbn [fst snd] in Hrun.
  split; [|split].
  - intros He. rewrite He in Hrun. cbn [negb] in Hrun.
    specialize (Hrun _ _ eq_refl). cbn [fst snd] in Hrun.
    exact (bind_ret _ _ p p p _ _ [] [] Hrun eq_refl).
  - intros He Herr Hdiff. rewrite He, Herr, Hdiff in Hrun. cbn [negb] in Hrun.
    specialize (Hrun _ _ eq_refl). cbn [fst snd] in Hrun.
    rewrite (bind_ret _ _ p p p _ _ _ [] Hrun eq_refl). split; reflexivity.
  - intros He Hsame. rewrite He in Hrun. cbn [negb] in Hrun.
    assert (Hno : match Call.err (call osi snodeReq 0) with
                  | Some _ => false
                  | None => negb (Equals nsi (snodeOf (call osi snodeReq 0)))
                  end = false).
    { destruct (Call.err (call osi snodeReq 0)); [reflexivity|].
      destruct Hsame as [H|H]; [congruence | rewrite H; reflexivity]. }
    rewrite Hno in Hrun. specialize (Hrun _ _ eq_refl). cbn [fst snd] in Hrun.
    destruct (smapValidateUUID smap regSmap (si p) nsi "") as [e|] eqn:Hcie.
    + exists (Some e), false. rewrite (bind_ret _ _ p p p _ _ _ [] Hrun eq_refl).
      split; [reflexivity|]. split; [discriminate | intros (_ & [=] & _)].
    + destruct (ClusterStarted d) eqn:Hcs; cbn [negb].
      * destruct (IsDuplicateURL smap nsi) as [e|] eqn:Hdup.
        -- eexists (Some _), false. rewrite (bind_ret _ _ p p p _ _ _ [] Hrun eq_refl).
           split; [reflexivity|]. split; [discriminate | intros (_ & _ & [=])].
        -- exists None, true. rewrite (bind_ret _ _ p p p _ _ _ [] Hrun eq_refl).
           split; [reflexivity|]. split; [intros _; repeat split | reflexivity].
      * exists None, false.
        rewrite (bind_ret _ _ p p (set_smap (put (putNode nsi nonElectable smap).1) p)
                   _ _ _ [] Hrun eq_refl).
        split; [reflexivity|]. split; [discriminate | intros ([=] & _)].
Qed.

(** *** Distributing the map with the new node *)

Lemma sendTables_calm (smap newSmap : smapX) (l : list (string * Z)) (p : proxyrunner) :
  exists t,
    foldr (fun kv rest =>
             let node := GetProxy newSmap kv.1 in
             (if negb (IsIC smap node) then
                emit (EvSendOwnershipTbl node);;
                match sendOwnershipTbl node with
                | Some _ => emit (EvLog Error "failed to send ownership table")
                | None => mret tt
                end
              else mret tt);;
             rest)
          (mret tt) l p
    = mkRun (Ret tt) p t /\ Forall (fun e => isQuiet e = true) t.
Proof.
  revert p. induction l as [|kv l IH]; intros p; cbn [foldr].
  - eexists; split; [reflexivity | constructor].
  - destruct (IH p) as (t & Ht & Hs). revert Ht. run_step. intros Ht.
    destruct (negb (IsIC smap (GetProxy newSmap kv.1))); run_step.
    + destruct (sendOwnershipTbl (GetProxy newSmap kv.1)); run_step.
      all: rewrite Ht; eexists; split; [reflexivity | repeat constructor; exact Hs].
    + rewrite Ht. eexists; split; [reflexivity | exact Hs].
Qed.

Lemma syncNewICOwners_calm (smap newSmap : smapX) (p : proxyrunner) :
  exists t, syncNewICOwners smap newSmap p = mkRun (Ret tt) p t
            /\ Forall (fun e => isQuiet e = true) t.
Proof.
  unfold syncNewICOwners.
  destruct (sendTables_calm smap newSmap (range 0 (IC newSmap)) p) as (t & Ht & Hs).
  revert Ht. run_step. intros Ht.
  destruct (negb (IsIC smap (Some (si p))) || negb (IsIC newSmap (Some (si p)))).
  - eexists; split; [reflexivity | constructor].
  - rewrite Ht. eexists; split; [reflexivity | exact Hs].
Qed.

Lemma quiet_invals (t : list event) :
  Forall (fun e => isQuiet e = true) t -> Sync.invals t = [].
Proof.
  intros Hq. pose proof (quiet_no_inval t Hq) as Hn. clear -Hn. unfold Sync.invals.
  induction Hn as [|e t He _ IH]; [reflexivity|]. cbn [filter list_filter].
  destruct (decide (isInval e = true)) as [Hc|_]; [congruence | exact IH].
Qed.

(** X25.  updateAndDistribute.  On a proxy that is not the primary it logs
    the failure and changes, notifies and metasyncs nothing.  On the primary
    it puts the map with the node added and the council staffed again, and
    metasyncs exactly once: the new Smap and the BMD, then the RMD.  For a
    joining target the targets are notified to start GFN, with the map that
    has the node added, and the RMD is modified (its target list set to the
    new id, then incremented) and sent only when the id was in the map
    already or requiresRebalance says so; for a joining proxy the current
    RMD is sent as it is.  Revoked tokens, when there are any, are added
    with the same message.  No request is answered with an error, and the
    lock of the Smap owner is taken and released once. *)
Theorem join_is_distributed (d : daemon) (nsi : Snode) (msg : ActionMsg)
    (nonElectable : bool) (p : proxyrunner) :
  let out := updateAndDistribute d nsi msg nonElectable p in
  let smap := get (owner_smap p) in
  let added := putNode nsi nonElectable smap in
  let clone := staffed added.1 in
  let bmd := get (owner_bmd p) in
  let aisMsg := newAisMsg msg (Some clone) (Some bmd) in
  let p1 := set_smap (put clone) p in
  let moved := modifyRMD (fun c => inc (mkRMD (RMDVersion c) [DaemonID nsi])) (owner_rmd p) in
  let tokens := if bool_decide (0 < revokedTokens d)%nat then [TokensPair aisMsg] else [] in
  let reb := added.2 || rebalances d smap clone p in
  locks OSmap (trace out) = 1%nat /\ unlocks OSmap (trace out) = 1%nat
  /\ Sync.invals (trace out) = []
  /\ (isPrimary smap (si p) = false ->
      value out = Ret [] /\ final out = p /\ syncs (trace out) = [])
  /\ (isPrimary smap (si p) = true -> IsTarget nsi = true ->
      value out
      = Ret (Notified [(RevSmap added.1,
                        newAisMsg (mkAct ActStartGFN "" "") (Some added.1) None)] :: tokens)
      /\ final out = (if reb then set_rmd (fun _ => moved.2) p1 else p1)
      /\ syncs (trace out)
         = [[(RevSmap clone, aisMsg); (RevBMD bmd, aisMsg)]
            ++ if reb then [(RevRMD moved.1, aisMsg)] else []])
  /\ (isPrimary smap (si p) = true -> IsTarget nsi = false ->
      value out = Ret tokens /\ final out = p1
      /\ syncs (trace out)
         = [[(RevSmap clone, aisMsg); (RevBMD bmd, aisMsg);
             (RevRMD (get (owner_rmd p)), aisMsg)]]).
Proof.
  intros out smap added clone bmd aisMsg p1 moved tokens reb. subst out.
  unfold updateAndDistribute.
  set (pre := fun clone : smapX => _).
  set (post := fun (shared : smapX * bool * list effect) (clone : smapX) => _).
  destruct (isPrimary smap (si p)) eqn:Hprim.
  2:{ assert (Hpre : pre (get (owner_smap p)) p
                     = mkRun (Ret ((smap, false, []),
                                   inl (ErrMsg (DaemonID (si p) +:+ " is not primary: cannot add "
                                                +:+ DaemonID nsi)))) p []).
      { subst pre. cbv beta. unfold getSmap. rewrite !bind_reads. fold smap.
        rewrite Hprim. reflexivity. }
      pose proof (modify_refused pre post p p _ _ [] Hpre) as Hmod.
      rewrite (bind_ret _ _ p p p _ (Ret []) _ [EvLog Error "FATAL"] Hmod eq_refl).
      cbn [value final trace]. split; [reflexivity|]. split; [reflexivity|].
      split; [reflexivity|]. split; [intros _; repeat split|]. split; discriminate. }
  assert (Hpre : pre (get (owner_smap p)) p
                 = mkRun (Ret ((smap, added.2,
                                if IsTarget nsi then
                                  [Notified [(RevSmap added.1,
                                              newAisMsg (mkAct ActStartGFN "" "")
                                                (Some added.1) None)]]
                                else []),
                               inr clone)) p []).
  { subst pre. cbv beta. unfold getSmap. rewrite !bind_reads. fold smap.
    rewrite Hprim. reflexivity. }
  destruct (IsTarget nsi) eqn:Htgt.
  - pose proof (rebalances_bmd d smap clone p1 p eq_refl) as Hreb.
    pose proof (requiresRebalance_run d smap clone p1) as Hrun. rewrite Hreb in Hrun.
    destruct (syncNewICOwners_calm smap clone (if reb then set_rmd (fun _ => moved.2) p1 else p1))
      as (t & Ht & Hq).
    assert (Hpairs :
      (reb ← (if added.2 : bool then mret true else requiresRebalance d smap clone);
       if reb : bool then
         rmd ← rmd_modify (fun c => inc (mkRMD (RMDVersion c) [DaemonID nsi]));
         mret ([(RevSmap clone, aisMsg); (RevBMD bmd, aisMsg)] ++ [(RevRMD rmd, aisMsg)])
       else mret [(RevSmap clone, aisMsg); (RevBMD bmd, aisMsg)]) p1
      = mkRun (Ret ([(RevSmap clone, aisMsg); (RevBMD bmd, aisMsg)]
                    ++ if reb then [(RevRMD moved.1, aisMsg)] else []))
          (if reb then set_rmd (fun _ => moved.2) p1 else p1) []).
    { subst reb. destruct added.2; cbn [orb].
      - unfold rmd_modify. run_step. reflexivity.
      - rewrite (bind_ret _ _ p1 p1
                   (if rebalances d smap clone p then set_rmd (fun _ => moved.2) p1 else p1)
                   _ (Ret ([(RevSmap clone, aisMsg); (RevBMD bmd, aisMsg)]
                           ++ if rebalances d smap clone p
                              then [(RevRMD moved.1, aisMsg)] else [])) [] [] Hrun);
          [reflexivity|].
        destruct (rebalances d smap clone p).
        + unfold rmd_modify. run_step. reflexivity.
        + reflexivity. }
    assert (Hpost : post (smap, added.2,
                          [Notified [(RevSmap added.1,
                                      newAisMsg (mkAct ActStartGFN "" "") (Some added.1) None)]])
                      clone p1
                    = mkRun (Ret tokens) (if reb then set_rmd (fun _ => moved.2) p1 else p1)
                        ([EvSync ([(RevSmap clone, aisMsg); (RevBMD bmd, aisMsg)]
                                  ++ if reb then [(RevRMD moved.1, aisMsg)] else [])] ++ t)).
    { subst post. cbv beta zeta. cbn [fst snd]. unfold getBMD. rewrite bind_reads.
      change (get (owner_bmd p1)) with bmd. fold aisMsg.
      change (?a = mkRun ?v ?q ?tr) with (a = mkRun v q ([] ++ tr)).
      eapply bind_ret; [exact Hpairs|].
      eapply bind_ret; [reflexivity|].
      rewrite <- (app_nil_r t).
      eapply bind_ret; [exact Ht|]. reflexivity. }
    pose proof (modify_done pre post p p _ _ clone tokens [] _ Hpre Hpost) as Hmod.
    rewrite (bind_ret _ _ p _ _ _ (Ret (Notified [(RevSmap added.1,
                                            newAisMsg (mkAct ActStartGFN "" "") (Some added.1)
                                              None)] :: tokens)) _ [] Hmod eq_refl).
    cbn [value final trace].
    pose proof (quiet_syncs t Hq) as Hs.
    pose proof (quiet_invals t Hq) as Hi.
    destruct (quiet_locks OSmap t Hq) as [Hl Hu].
    split; [rewrite !(proj1 (locks_app OSmap _ _)), Hl; reflexivity|].
    split; [rewrite !(proj2 (locks_app OSmap _ _)), Hu; reflexivity|].
    split; [unfold Sync.invals in *; rewrite !filter_app, Hi; reflexivity|].
    split; [discriminate|]. split; [|discriminate]. intros _ _.
    split; [reflexivity|]. split; [reflexivity|].
    rewrite !syncs_app, Hs. reflexivity.
  - destruct (syncNewICOwners_calm smap clone p1) as (t & Ht & Hq).
    assert (Hpost : post (smap, added.2, []) clone p1
                    = mkRun (Ret tokens) p1
                        ([EvSync [(RevSmap clone, aisMsg); (RevBMD bmd, aisMsg);
                                  (RevRMD (get (owner_rmd p)), aisMsg)]] ++ t)).
    { subst post. cbv beta zeta. cbn [fst snd]. unfold getBMD. rewrite bind_reads.
      change (get (owner_bmd p1)) with bmd. fold aisMsg.
      change (?a = mkRun ?v ?q ?tr) with (a = mkRun v q ([] ++ tr)).
      eapply bind_ret; [unfold getRMD; rewrite bind_reads; reflexivity|].
      eapply bind_ret; [reflexivity|].
      rewrite <- (app_nil_r t).
      eapply bind_ret; [exact Ht|]. reflexivity. }
    pose proof (modify_done pre post p p _ _ clone tokens [] _ Hpre Hpost) as Hmod.
    rewrite (bind_ret _ _ p _ _ _ (Ret tokens) _ [] Hmod eq_refl).
    cbn [value final trace].
    pose proof (quiet_syncs t Hq) as Hs.
    pose proof (quiet_invals t Hq) as Hi.
    destruct (quiet_locks OSmap t Hq) as [Hl Hu].
    split; [rewrite !(proj1 (locks_app OSmap _ _)), Hl; reflexivity|].
    split; [rewrite !(proj2 (locks_app OSmap _ _)), Hu; reflexivity|].
    split; [unfold Sync.invals in *; rewrite !filter_app, Hi; reflexivity|].
    split; [discriminate|]. split; [discriminate|]. intros _ _.
    split; [reflexivity|]. split; [reflexivity|].
    rewrite !syncs_app, Hs. reflexivity.
Qed.

End MemberFacts.

End MemberFacts.

Module MemberExamples.
Import Prx PrxFacts PrxSamples Member MemberFacts MemberSamples.

#[local] Existing Instance cell.
#[local] Existing Instance Ref.smapOps.
#[local] Existing Instance Ref.cmn.
#[local] Existing Instance Ref.bmdOps.
#[local] Existing Instance canonicalRange.
#[local] Existing Instance Ref.peers.
#[local] Existing Instance cluster.

(** T1 answers the third call: three calls, and T1 leaves the clone. *)
Lemma unregister_is_best_effort_witness :
  value (unregisterNode running Ref.smap0 "t1" p1)
  = Ret (0, None, staffed (delTarget "t1" Ref.smap0), replicate 3 (Called Ref.T1 unregisterReq))
  /\ final (unregisterNode running Ref.smap0 "t1" p1) = p1.
Proof.
  pose proof (unregister_is_best_effort running Ref.smap0 "t1" Ref.T1 Ref.T1 p1) as H.
  cbv zeta in H. destruct (H eq_refl eq_refl) as (_ & _ & _ & Hv & Hf & _).
  split; [exact Hv | exact Hf].
Defined.

(** The primary P1 removes T1: the map without T1 is put and metasynced,
    and no rebalance is required. *)
Lemma node_removal_on_primary_witness :
  final (httpcludel running (inr ["t1"]) deleteT1 p1)
  = set_smap (put (staffed (delTarget "t1" Ref.smap0))) p1
  /\ length (syncs (trace (httpcludel running (inr ["t1"]) deleteT1 p1))) = 1%nat.
Proof.
  pose proof (node_removal_on_primary running deleteT1 "t1" [] Ref.T1 p1) as H.
  cbv zeta in H. destruct (H eq_refl eq_refl eq_refl) as (_ & _ & _ & _ & _ & Hok).
  destruct (Hok eq_refl) as (Hf & Hs & _). split.
  - exact Hf.
  - rewrite Hs. reflexivity.
Defined.

(** A keepalive of T1, whose data have not changed: only the heartbeat. *)
Lemma keepalive_of_known_node_witness :
  handleJoinKalive running Ref.T1 None "keepalive" true false false p1
  = mkRun (Ret (Ref.smap0, None, http.StatusBadRequest, false, [HeardFrom "t1" false])) p1 [].
Proof.
  pose proof (keepalive_of_known_node running Ref.T1 Ref.T1 None "keepalive" false p1) as H.
  cbv zeta in H. destruct (H eq_refl eq_refl) as (Hsame & _).
  exact (Hsame eq_refl).
Defined.

End MemberExamples.

Module ReverseFacts.
Import Prx PrxFacts RunFacts Reverse.

Section ReverseFacts.
Context {OS : Owner smapX} {OB : Owner bucketMD} {OR : Owner rebMD}.
Context {SO : SmapOps} {C : Cmn} {BO : BmdOps} {MR : MapRange} {PE : Peers}.
Context {RX : Sync.Receiver} {CL : Member.Cluster} {FB : Fabric}.

Lemma reverseRequest_spec (r : request) (id : string) (u : URL)
    (nodes : gmap string Sync.ReverseProxy) :
  let out := reverseRequest r id u nodes in
  out.2 = (default (NewSingleHostReverseProxy u) (nodes !! id), r)
  /\ out.1 !! id = Some out.2.1
  /\ (forall id', id' <> id -> out.1 !! id' = nodes !! id')
  /\ (is_Some (nodes !! id) -> out.1 = nodes).
Proof.
  unfold reverseRequest. destruct (nodes !! id) as [rp|] eqn:Hn; cbn [fst snd default].
  - split; [reflexivity|]. split; [exact Hn|]. split; [reflexivity|]. intros _. reflexivity.
  - split; [reflexivity|]. split; [apply lookup_insert_eq|].
    split; [intros id' Hne; apply lookup_insert_ne; congruence|].
    intros [rp [=]].
Qed.

(** X26.  The reverse proxy of a node id is made once.  reverseRequest
    serves a request with the proxy that [p.rproxy.nodes] holds for the id,
    and makes and stores one from the URL only when there is none; the
    other entries stay.  So a second request for the id is served by the
    same proxy, whatever URL it names.  This lasts across a metasync for as
    long as the node stays in the cluster map: only when the old map
    contains the id and the new one does not, does the clean-up of
    metasyncHandler drop the entry, and the next request makes a proxy
    from its own URL. *)
Theorem reverse_proxy_is_cached (nodes : gmap string Sync.ReverseProxy) (r1 r2 : request)
    (id : string) (u1 u2 : URL) (smap newSmap : smapX) :
  let first := reverseRequest r1 id u1 nodes in
  let again := reverseRequest r2 id u2 first.1 in
  let later := reverseRequest r2 id u2 (Sync.cleanup smap newSmap first.1) in
  first.2 = (default (NewSingleHostReverseProxy u1) (nodes !! id), r1)
  /\ first.1 !! id = Some first.2.1
  /\ (forall id', id' <> id -> first.1 !! id' = nodes !! id')
  /\ again = (first.1, (first.2.1, r2))
  /\ later.2 = (if Sync.containsID smap id && negb (Sync.containsID newSmap id)
               then NewSingleHostReverseProxy u2 else first.2.1, r2).
Proof.
  intros first again later.
  destruct (reverseRequest_spec r1 id u1 nodes) as (H1 & H2 & H3 & _).
  fold first in H1, H2, H3.
  split; [exact H1|]. split; [exact H2|]. split; [exact H3|]. split.
  - subst again. destruct (reverseRequest_spec r2 id u2 first.1) as (Ha & _ & _ & Hb).
    rewrite H2 in Ha. cbn [default] in Ha.
    destruct (reverseRequest r2 id u2 first.1) as [n s] eqn:E. cbn [fst snd] in *.
    rewrite Ha, (Hb (mk_is_Some _ _ H2)). reflexivity.
  - subst later. destruct (reverseRequest_spec r2 id u2 (Sync.cleanup smap newSmap first.1))
      as (Ha & _). rewrite Ha. f_equal. unfold Sync.cleanup.
    destruct (Sync.containsID smap id && negb (Sync.containsID newSmap id)) eqn:Hgone.
    + rewrite map_lookup_filter_None_2; [reflexivity|]. right. intros rp _.
      cbn [fst]. rewrite Hgone. discriminate.
    + rewrite (map_lookup_filter_Some_2 _ _ id first.2.1 H2); [reflexivity|].
      cbn [fst]. rewrite Hgone. reflexivity.
Qed.

(** X27.  reverseHandler leaves the proxy's state alone and ends in one of
    three ways.  It serves the request, with the path rewritten and nothing
    else of the request changed, through the reverse proxy kept for the
    node (made from the public URL of the node when the cluster map has the
    node, and from the URL header only when it has not), without an error
    answer.  Or it answers one error and serves nothing, which happens
    exactly when the node id header is empty, or the map does not have the
    node and the URL header is empty or does not parse.  Or it fails on its
    assertion, when the map has the node and the node's public URL does not
    parse. *)
Theorem reverse_handler_outcomes (item : string) (rest : list string) (r : request)
    (nodeID nodeURL : string) (nodes : gmap string Sync.ReverseProxy) (p : proxyrunner) :
  let out := reverseHandler (inr (item :: rest)) r nodeID nodeURL nodes p in
  let smap := get (owner_smap p) in
  let r' := mkRequest (Method r) (versionPath item) (RawQuery r) (Query r) (RemoteAddr r)
              (Body r) (ContentLength r) in
  final out = p
  /\ match value out with
     | Ret (nodes', Some s) =>
         trace out = [] /\ nodeID <> ""
         /\ exists key u,
              (nodes', s) = reverseRequest r' key u nodes
              /\ match Member.GetNode smap nodeID with
                 | Some node => key = DaemonID node /\ urlParse (PublicNet node) = inr u
                 | None => key = nodeID /\ nodeURL <> "" /\ urlParse nodeURL = inr u
                 end
     | Ret (nodes', None) =>
         nodes' = nodes
         /\ (exists msg, trace out = [EvInval msg None])
         /\ (nodeID = ""
             \/ (Member.GetNode smap nodeID = None
                 /\ (nodeURL = "" \/ exists e, urlParse nodeURL = inl e)))
     | Panic _ =>
         nodeID <> ""
         /\ exists node e, Member.GetNode smap nodeID = Some node
                           /\ urlParse (PublicNet node) = inl e
     end.
Proof.
  intros out smap r'. subst out. unfold reverseHandler. cbn [lookup list_lookup].
  fold r'. destruct (decide (nodeID = "")) as [Hid|Hid].
  { rewrite (bool_decide_eq_true_2 _ Hid). cbn [value final trace].
    split; [reflexivity|]. split; [reflexivity|]. split; [eexists; reflexivity|].
    left. exact Hid. }
  rewrite (bool_decide_eq_false_2 _ Hid). unfold getSmap. rewrite bind_reads. fold smap.
  destruct (Member.GetNode smap nodeID) as [node|] eqn:Hnode.
  - unfold reverseNodeRequest. destruct (urlParse (PublicNet node)) as [e|u] eqn:Hu.
    + cbn [value final trace]. split; [reflexivity|]. split; [exact Hid|].
      exists node, e. split; [reflexivity | exact Hu].
    + cbn [value final trace]. split; [reflexivity|]. split; [reflexivity|].
      split; [exact Hid|]. exists (DaemonID node), u. split.
      * destruct (reverseRequest r' (DaemonID node) u nodes). reflexivity.
      * split; reflexivity.
  - destruct (decide (nodeURL = "")) as [Hurl|Hurl].
    { rewrite (bool_decide_eq_true_2 _ Hurl). cbn [value final trace].
      split; [reflexivity|]. split; [reflexivity|]. split; [eexists; reflexivity|].
      right. split; [reflexivity|]. left. exact Hurl. }
    rewrite (bool_decide_eq_false_2 _ Hurl).
    destruct (urlParse nodeURL) as [e|u] eqn:Hu.
    + cbn [value final trace]. split; [reflexivity|]. split; [reflexivity|].
      split; [eexists; reflexivity|]. right. split; [reflexivity|]. right.
      exists e. reflexivity.
    + cbn [value final trace]. split; [reflexivity|]. split; [reflexivity|].
      split; [exact Hid|]. exists nodeID, u. split.
      * destruct (reverseRequest r' nodeID u nodes). reflexivity.
      * split; [reflexivity|]. split; [exact Hurl | reflexivity].
Qed.

End ReverseFacts.

End ReverseFacts.

Module ShutdownFacts.
Import Prx PrxFacts RunFacts Shutdown.

Section ShutdownFacts.
Context {OS : Owner smapX} {OB : Owner bucketMD} {OR : Owner rebMD}.
Context {SO : SmapOps} {C : Cmn} {BO : BmdOps} {MR : MapRange} {PE : Peers}.
Context {LC : Lifecycle}.

(** The version that the primary compares the reading after the [k]-th
    pause with. *)
Lemma settle_spec (seen : nat -> Z) (version : Z) (n i : nat) :
  let k := pauses (settle seen version n i) in
  (k <= n)%nat /\ ((0 < n)%nat -> (1 <= k)%nat)
  /\ calls (settle seen version n i) = []
  /\ (forall j, (S j < k)%nat ->
        seen (i + j)%nat <> match j with O => version | S j' => seen (i + j')%nat end)
  /\ ((k < n)%nat ->
      seen (i + (k - 1))%nat
      = match (k - 1)%nat with O => version | S j' => seen (i + j')%nat end).
Proof.
  revert version i. induction n as [|n IH]; intros version i; cbn [settle].
  - cbv zeta. split; [reflexivity|]. split; [lia|]. split; [reflexivity|].
    split; intros; cbn in *; lia.
  - destruct (decide (version = seen i)) as [Heq|Hne].
    + rewrite (bool_decide_eq_true_2 _ Heq). cbv zeta.
      change (pauses [Sleep]) with 1%nat.
      split; [lia|]. split; [lia|]. split; [reflexivity|].
      split; [intros j Hj; lia|]. intros _. cbn. rewrite Nat.add_0_r. congruence.
    + rewrite (bool_decide_eq_false_2 _ Hne). cbv zeta.
      destruct (IH (seen i) (S i)) as (Hle & Hpos & Hc & Hfail & Hok).
      change (pauses (Sleep :: ?l)) with (S (pauses l)).
      change (calls (Sleep :: ?l)) with (calls l).
      split; [lia|]. split; [lia|]. split; [exact Hc|]. split.
      * intros [|j] Hj.
        -- rewrite Nat.add_0_r. congruence.
        -- specialize (Hfail j ltac:(lia)).
           destruct j as [|j']; cbn [Nat.add] in Hfail;
             rewrite ?Nat.add_succ_r, ?Nat.add_0_r in Hfail;
             rewrite ?Nat.add_succ_r, ?Nat.add_0_r; exact Hfail.
      * intros Hlt. assert (Hn : (0 < n)%nat) by lia. specialize (Hpos Hn).
        specialize (Hok ltac:(lia)).
        destruct (pauses (settle seen (seen i) n (S i))) as [|m]; [lia|].
        replace (S (S m) - 1)%nat with (S m) by lia.
        replace (S m - 1)%nat with m in Hok by lia.
        destruct m as [|m']; cbn [Nat.add] in Hok;
          rewrite ?Nat.add_succ_r, ?Nat.add_0_r in Hok;
          rewrite ?Nat.add_succ_r, ?Nat.add_0_r; exact Hok.
Qed.

Lemma pauses_app (a b : list effect) : pauses (a ++ b) = (pauses a + pauses b)%nat.
Proof. unfold pauses. rewrite filter_app, length_app. reflexivity. Qed.

Lemma calls_app (a b : list effect) : calls (a ++ b) = calls a ++ calls b.
Proof. unfold calls. apply omap_app. Qed.

(** X28.  Stop always aborts the running xactions first and stops the HTTP
    runner last, handing it the error it was given, and leaves the metadata
    as it is.  The primary calls nobody and waits for the cluster map to
    settle: it pauses a second at a time, at least once and at most twenty
    times, and goes on after the first pause that finds the map's version
    as it was before the pause.  A proxy that is not the primary does not
    pause; it asks the primary once, with DELETE on the cluster path of its
    own id, to be unregistered, and a failure of that call is only
    logged. *)
Theorem stop_waits_then_unregisters (seen : nat -> Z) (err : option error) (p : proxyrunner) :
  let out := Stop seen err p in
  let smap := get (owner_smap p) in
  exists effs,
    value out = Ret effs /\ final out = p
    /\ head effs = Some AbortAll /\ last effs = Some (StopRunner err)
    /\ Forall (fun e => Member.isQuiet e = true) (trace out)
    /\ (isPrimary smap (si p) = true ->
        calls effs = [] /\ (1 <= pauses effs <= 20)%nat
        /\ (forall j, (S j < pauses effs)%nat ->
              seen j <> match j with O => SmapVersion smap | S j' => seen j' end)
        /\ ((pauses effs < 20)%nat ->
            seen (pauses effs - 1)%nat
            = match (pauses effs - 1)%nat with O => SmapVersion smap | S j' => seen j' end))
    /\ (isPrimary smap (si p) = false ->
        pauses effs = 0%nat
        /\ calls effs
           = [(Primary smap,
               Call.mkReqArgs http.MethodDelete "" (pathClusterDaemon (DaemonID (si p))) ∅ None)]).
Proof.
  intros out smap. subst out. unfold Stop. unfold getSmap. rewrite !bind_reads. fold smap.
  cbv zeta.
  destruct (settle_spec seen (SmapVersion smap) 20 0) as (Hle & Hpos & Hc & Hfail & Hok).
  cbv zeta in Hle, Hpos, Hc, Hfail, Hok. cbn [Nat.add] in Hfail, Hok.
  destruct (isPrimary smap (si p)) eqn:Hprim; cbn [negb].
  - eexists. split; [reflexivity|]. cbn [final trace app].
    split; [reflexivity|]. split; [reflexivity|].
    split; [rewrite app_comm_cons, last_snoc; reflexivity|].
    split; [repeat constructor|].
    split; [|discriminate]. intros _.
    change (calls (AbortAll :: ?l)) with (calls l).
    change (pauses (AbortAll :: ?l)) with (pauses l).
    rewrite calls_app, pauses_app, Hc.
    change (pauses [StopRunner err]) with 0%nat. rewrite Nat.add_0_r.
    split; [reflexivity|]. split; [split; [apply Hpos; lia | exact Hle]|].
    split; [exact Hfail | exact Hok].
  - unfold unregisterSelf, getSmap. run_step. fold smap.
    destruct (Call.err (call (Primary smap) _)) eqn:He; cbn [value final trace].
    + eexists. split; [reflexivity|]. split; [reflexivity|]. split; [reflexivity|].
      split; [reflexivity|]. split; [repeat constructor|].
      split; [discriminate|]. intros _. split; reflexivity.
    + eexists. split; [reflexivity|]. split; [reflexivity|]. split; [reflexivity|].
      split; [reflexivity|]. split; [repeat constructor|].
      split; [discriminate|]. intros _. split; reflexivity.
Qed.

End ShutdownFacts.

End ShutdownFacts.
